(** * BookingModal: the booking calendar of AlpsConnect3

    A shallow embedding of [src/components/BookingModal.tsx].

    The component is written against the JavaScript [Date] object and the
    date-fns helpers.  A [Date] is its time value: a number of milliseconds
    since the epoch.  All calendar getters and setters of the component are
    the local-time ones, so the time value is read here as local civil time
    (a zone with a fixed offset; daylight-saving shifts and the range limit
    of +-8.64e15 ms after which a [Date] becomes invalid are not modelled).
    The day arithmetic follows the ECMAScript definitions (Day, DayFromYear,
    YearFromTime, MonthFromTime, DateFromTime, WeekDay, MakeDay, MakeDate). *)

From stdpp Require Import gmap strings list fin_maps.
From Stdlib Require Import ZArith Lia DecimalString DecimalN.

Local Open Scope Z_scope.

(** ** ECMAScript day and time arithmetic *)

Module JSDate.

Definition Date := Z.

Definition msPerDay : Z := 86400000.

Definition Day (t : Date) : Z := t / msPerDay.

Definition TimeWithinDay (t : Date) : Z := t mod msPerDay.

Definition DaysInYear (y : Z) : Z :=
  if negb (y mod 4 =? 0) then 365
  else if negb (y mod 100 =? 0) then 366
  else if negb (y mod 400 =? 0) then 365
  else 366.

Definition DayFromYear (y : Z) : Z :=
  365 * (y - 1970) + (y - 1969) / 4 - (y - 1901) / 100 + (y - 1601) / 400.

(** YearFromTime is "the largest integer y such that DayFromYear(y) <= Day(t)".
    The quotient by the mean length of a year is off by at most one year. *)
Definition YearFromDay (n : Z) : Z :=
  let c := 1970 + (400 * n) / 146097 in
  if DayFromYear (c + 1) <=? n then c + 1
  else if DayFromYear c <=? n then c
  else c - 1.

Definition YearFromTime (t : Date) : Z := YearFromDay (Day t).

Definition InLeapYear (y : Z) : Z := if DaysInYear y =? 366 then 1 else 0.

Definition DayWithinYear (n : Z) : Z := n - DayFromYear (YearFromDay n).

(** Number of days of the year that precede month [m] (0 = January). *)
Definition DaysBeforeMonth (m leap : Z) : Z :=
  if m =? 0 then 0
  else if m =? 1 then 31
  else if m =? 2 then 59 + leap
  else if m =? 3 then 90 + leap
  else if m =? 4 then 120 + leap
  else if m =? 5 then 151 + leap
  else if m =? 6 then 181 + leap
  else if m =? 7 then 212 + leap
  else if m =? 8 then 243 + leap
  else if m =? 9 then 273 + leap
  else if m =? 10 then 304 + leap
  else 334 + leap.

Definition MonthFromDay (n : Z) : Z :=
  let d := DayWithinYear n in
  let leap := InLeapYear (YearFromDay n) in
  if d <? 31 then 0
  else if d <? 59 + leap then 1
  else if d <? 90 + leap then 2
  else if d <? 120 + leap then 3
  else if d <? 151 + leap then 4
  else if d <? 181 + leap then 5
  else if d <? 212 + leap then 6
  else if d <? 243 + leap then 7
  else if d <? 273 + leap then 8
  else if d <? 304 + leap then 9
  else if d <? 334 + leap then 10
  else 11.

Definition DateFromDay (n : Z) : Z :=
  DayWithinYear n
  - DaysBeforeMonth (MonthFromDay n) (InLeapYear (YearFromDay n)) + 1.

Definition WeekDay (t : Date) : Z := (Day t + 4) mod 7.

Definition MakeTime (h m s ms : Z) : Z :=
  h * 3600000 + m * 60000 + s * 1000 + ms.

Definition MakeDay (year month date : Z) : Z :=
  let ym := year + month / 12 in
  let mn := month mod 12 in
  DayFromYear ym + DaysBeforeMonth mn (InLeapYear ym) + date - 1.

Definition MakeDate (day time : Z) : Date := day * msPerDay + time.

(** Getters and setters of [Date.prototype], as functions of the time value. *)

Definition getFullYear (t : Date) : Z := YearFromTime t.
Definition getMonth (t : Date) : Z := MonthFromDay (Day t).
Definition getDate (t : Date) : Z := DateFromDay (Day t).
Definition getDay (t : Date) : Z := WeekDay t.

Definition setFullYear (t : Date) (y m dt : Z) : Date :=
  MakeDate (MakeDay y m dt) (TimeWithinDay t).

Definition setMonth (t : Date) (m dt : Z) : Date :=
  MakeDate (MakeDay (YearFromTime t) m dt) (TimeWithinDay t).

Definition setDate (t : Date) (dt : Z) : Date :=
  MakeDate (MakeDay (YearFromTime t) (getMonth t) dt) (TimeWithinDay t).

Definition setHours (t : Date) (h m s ms : Z) : Date :=
  MakeDate (Day t) (MakeTime h m s ms).

(** Length of month [m] (0..11) of year [y]. *)
Definition DaysInMonth (y m : Z) : Z :=
  if m =? 11 then 31
  else DaysBeforeMonth (m + 1) (InLeapYear y) - DaysBeforeMonth m (InLeapYear y).

(** [new Date(y, m, d)]: local midnight of a civil date. *)
Definition mkDate (y m d : Z) : Date := MakeDate (MakeDay y m d) 0.

End JSDate.

(** ** The date-fns helpers the component imports

    Each helper is written as its date-fns body, on the time value.
    [weekStartsOn] is the option the component passes (1, Monday). *)

Module DateFns.
Import JSDate.

Definition startOfDay (date : Date) : Date := setHours date 0 0 0 0.

Definition startOfMonth (date : Date) : Date :=
  setHours (setDate date 1) 0 0 0 0.

Definition endOfMonth (date : Date) : Date :=
  let month := getMonth date in
  setHours (setFullYear date (getFullYear date) (month + 1) 0) 23 59 59 999.

Definition startOfWeek (date : Date) (weekStartsOn : Z) : Date :=
  let day := getDay date in
  let diff := (if day <? weekStartsOn then 7 else 0) + day - weekStartsOn in
  setHours (setDate date (getDate date - diff)) 0 0 0 0.

Definition endOfWeek (date : Date) (weekStartsOn : Z) : Date :=
  let day := getDay date in
  let diff := (if day <? weekStartsOn then -7 else 0) + 6 - (day - weekStartsOn) in
  setHours (setDate date (getDate date + diff)) 23 59 59 999.

Definition addDays (date : Date) (amount : Z) : Date :=
  if amount =? 0 then date else setDate date (getDate date + amount).

Definition addMonths (date : Date) (amount : Z) : Date :=
  if amount =? 0 then date
  else
    let dayOfMonth := getDate date in
    let endOfDesiredMonth := setMonth date (getMonth date + amount + 1) 0 in
    let daysInMonth := getDate endOfDesiredMonth in
    if dayOfMonth >=? daysInMonth then endOfDesiredMonth
    else setFullYear date (getFullYear endOfDesiredMonth)
                     (getMonth endOfDesiredMonth) dayOfMonth.

Definition subMonths (date : Date) (amount : Z) : Date :=
  addMonths date (- amount).

Definition isSameMonth (dateLeft dateRight : Date) : bool :=
  (getFullYear dateLeft =? getFullYear dateRight)
  && (getMonth dateLeft =? getMonth dateRight).

Definition isSameDay (dateLeft dateRight : Date) : bool :=
  startOfDay dateLeft =? startOfDay dateRight.

Definition isBefore (date dateToCompare : Date) : bool :=
  date <? dateToCompare.

(** [isWithinInterval] orders the two ends of the interval before it
    compares (date-fns 3 and later; date-fns 2 throws on an interval whose
    start is after its end).  On an interval with [start <= end] both
    behaviours are the comparison [start <= date <= end]. *)
Definition isWithinInterval (date start end_ : Date) : bool :=
  let startTime := Z.min start end_ in
  let endTime := Z.max start end_ in
  (startTime <=? date) && (date <=? endTime).

Definition getHours (t : Date) : Z := TimeWithinDay t / 3600000.
Definition getMinutes (t : Date) : Z := (TimeWithinDay t / 60000) mod 60.
Definition getSeconds (t : Date) : Z := (TimeWithinDay t / 1000) mod 60.
Definition getMilliseconds (t : Date) : Z := TimeWithinDay t mod 1000.

(** JavaScript's [a || b] on numbers: the first operand unless it is 0. *)
Definition orElse (a b : Z) : Z := if a =? 0 then b else a.

Definition compareLocalAscending (dateLeft dateRight : Date) : Z :=
  let diff :=
    orElse (getFullYear dateLeft - getFullYear dateRight)
   (orElse (getMonth dateLeft - getMonth dateRight)
   (orElse (getDate dateLeft - getDate dateRight)
   (orElse (getHours dateLeft - getHours dateRight)
   (orElse (getMinutes dateLeft - getMinutes dateRight)
   (orElse (getSeconds dateLeft - getSeconds dateRight)
           (getMilliseconds dateLeft - getMilliseconds dateRight)))))) in
  if diff <? 0 then -1 else if diff >? 0 then 1 else diff.

(** The two start-of-day values are a whole number of days apart (the
    rounding of the original only absorbs daylight-saving shifts). *)
Definition differenceInCalendarDays (dateLeft dateRight : Date) : Z :=
  (startOfDay dateLeft - startOfDay dateRight) / msPerDay.

Definition differenceInDays (dateLeft dateRight : Date) : Z :=
  let sign := compareLocalAscending dateLeft dateRight in
  let difference := Z.abs (differenceInCalendarDays dateLeft dateRight) in
  let dateLeft' := setDate dateLeft (getDate dateLeft - sign * difference) in
  let isLastDayNotFull :=
    if compareLocalAscending dateLeft' dateRight =? - sign then 1 else 0 in
  sign * (difference - isLastDayNotFull).

End DateFns.

(** ** [format]: the tokens the component uses

    A pattern is kept as its list of tokens: ['yyyy-MM-dd'] is
    [yyyy; "-"; MM; "-"; dd].  Numeric tokens follow date-fns's
    [addLeadingZeros]; month names come from the locale. *)

Module Format.
Import JSDate.

Local Open Scope string_scope.

Record Locale := {
  monthWide : Z -> string;
  monthAbbreviated : Z -> string
}.

Definition nthName (names : list string) (m : Z) : string :=
  nth (Z.to_nat m) names "".

Definition it : Locale := {|
  monthWide := nthName
    ["gennaio"; "febbraio"; "marzo"; "aprile"; "maggio"; "giugno"; "luglio";
     "agosto"; "settembre"; "ottobre"; "novembre"; "dicembre"];
  monthAbbreviated := nthName
    ["gen"; "feb"; "mar"; "apr"; "mag"; "giu"; "lug"; "ago"; "set"; "ott";
     "nov"; "dic"]
|}.

Definition enUS : Locale := {|
  monthWide := nthName
    ["January"; "February"; "March"; "April"; "May"; "June"; "July";
     "August"; "September"; "October"; "November"; "December"];
  monthAbbreviated := nthName
    ["Jan"; "Feb"; "Mar"; "Apr"; "May"; "Jun"; "Jul"; "Aug"; "Sep"; "Oct";
     "Nov"; "Dec"]
|}.

(** [Number.prototype.toString] on a non-negative integer. *)
Definition toString (n : Z) : string :=
  DecimalString.NilZero.string_of_uint (N.to_uint (Z.to_N n)).

Fixpoint repeatZero (k : nat) : string :=
  match k with
  | O => ""
  | S k' => "0" ++ repeatZero k'
  end.

(** [s.padStart(targetLength, "0")] *)
Definition padStart (s : string) (targetLength : nat) : string :=
  repeatZero (targetLength - String.length s)%nat ++ s.

Definition addLeadingZeros (number : Z) (targetLength : nat) : string :=
  let sign := if (number <? 0)%Z then "-" else "" in
  sign ++ padStart (toString (Z.abs number)) targetLength.

Inductive Token :=
| yyyy | MM | dd | d | MMM | MMMM
| Lit (s : string).

Definition formatToken (locale : Locale) (date : Date) (tok : Token) : string :=
  match tok with
  | yyyy =>
      let signedYear := getFullYear date in
      let year := if (signedYear >? 0)%Z then signedYear else (1 - signedYear)%Z in
      addLeadingZeros year 4
  | MM => addLeadingZeros (getMonth date + 1)%Z 2
  | dd => addLeadingZeros (getDate date) 2
  | d => addLeadingZeros (getDate date) 1
  | MMM => monthAbbreviated locale (getMonth date)
  | MMMM => monthWide locale (getMonth date)
  | Lit s => s
  end.

Definition formatWith (locale : Locale) (date : Date) (pattern : list Token) : string :=
  String.concat "" (map (formatToken locale date) pattern).

(** Without the [locale] option date-fns uses its default locale, en-US. *)
Definition format (date : Date) (pattern : list Token) : string :=
  formatWith enUS date pattern.

Definition yyyy_MM_dd : list Token := [yyyy; Lit "-"; MM; Lit "-"; dd].

End Format.

(** ** The component *)

Module BookingModal.
Import JSDate DateFns Format.

(** [WeatherData] of the weather service.  Its numbers are only displayed,
    never computed with, by this component; they are kept as integers. *)
Record WeatherData := {
  weatherCode : Z;
  minTemp : Z;
  maxTemp : Z
}.

(** [trip.coordinates]: passed on to the weather service as they are. *)
Record Coordinates := { lat : Z; lng : Z }.

(** [Trip], with the season bounds kept as the dates [parseISO] yields for
    [trip.availableFrom] and [trip.availableTo] (the local midnight of the
    written day); strings that do not parse are outside the model. *)
Record Trip := {
  availableFrom : Date;
  availableTo : Date;
  durationDays : Z;
  coordinates : Coordinates
}.

Inductive Lang := lang_it | lang_en.

(** The callbacks [onClose] and [onConfirm] of [Props] are the caller's:
    a handler's calls to them are recorded as the list of [Callback]s it
    makes. *)
Inductive Callback :=
| onClose
| onConfirm (date : string).

Record Props := {
  trip : Trip;
  lang : Lang
}.

(** The three [useState] cells. *)
Record State := {
  currentMonth : Date;
  selectedDate : option Date;
  weatherMap : gmap string WeatherData
}.

Definition setCurrentMonth (s : State) (v : Date) : State :=
  {| currentMonth := v; selectedDate := selectedDate s; weatherMap := weatherMap s |}.

Definition setSelectedDate (s : State) (v : option Date) : State :=
  {| currentMonth := currentMonth s; selectedDate := v; weatherMap := weatherMap s |}.

(** [setWeatherMap(f)]: the functional update, applied to the latest map. *)
Definition setWeatherMap (s : State)
  (f : gmap string WeatherData -> gmap string WeatherData) : State :=
  {| currentMonth := currentMonth s; selectedDate := selectedDate s;
     weatherMap := f (weatherMap s) |}.

(** [useState(new Date())], [useState(null)], [useState({})] *)
Definition initialState (now : Date) : State :=
  {| currentMonth := now; selectedDate := None; weatherMap := ∅ |}.

(** Values recomputed at every render; [now] is what [new Date()] returns. *)
Definition tripStart (p : Props) : Date := availableFrom (trip p).
Definition tripEnd (p : Props) : Date := availableTo (trip p).
Definition today (now : Date) : Date := startOfDay now.
Definition locale (p : Props) : Locale :=
  match lang p with lang_it => it | lang_en => enUS end.

(** *** Availability and selection *)

Definition isDateAvailable (p : Props) (now : Date) (date : Date) : bool :=
  let inSeason := isWithinInterval date (tripStart p) (tripEnd p) in
  if negb inSeason then false
  else if isBefore date (today now) then false
  else
    let dayOfWeek := getDay date in
    if dayOfWeek =? 3 then false
    else true.

Definition handleDateClick (p : Props) (now : Date) (s : State) (date : Date) : State :=
  if isDateAvailable p now date then setSelectedDate s (Some date) else s.

(** *** Month navigation (the two buttons of [renderHeader]) *)

Definition previousMonthClick (s : State) : State :=
  setCurrentMonth s (subMonths (currentMonth s) 1).

Definition nextMonthClick (s : State) : State :=
  setCurrentMonth s (addMonths (currentMonth s) 1).

Definition headerTitle (p : Props) (s : State) : string :=
  formatWith (locale p) (currentMonth s) [MMMM; Lit " "; yyyy].

(** *** The calendar grid ([renderCells])

    A rendered day cell is kept as the values its JSX is built from; its
    [onClick] handler is [() => handleDateClick(cloneDay)], recorded as the
    date it passes. *)

Record Cell := {
  cloneDay : Date;
  formattedDate : string;
  dateStr : string;
  isAvailable : bool;
  isSelected : bool;
  isCurrentMonth : bool;
  weather : option WeatherData;
  onClick : Date
}.

Definition renderCell (p : Props) (now : Date) (s : State) (monthStart day : Date) : Cell :=
  let formattedDate := format day [d] in
  let dateStr := format day yyyy_MM_dd in
  let cloneDay := day in
  let isAvailable := isDateAvailable p now cloneDay in
  let isSelected :=
    match selectedDate s with
    | Some sel => isSameDay day sel
    | None => false
    end in
  let isCurrentMonth := isSameMonth day monthStart in
  let weather := weatherMap s !! dateStr in
  {| cloneDay := cloneDay; formattedDate := formattedDate; dateStr := dateStr;
     isAvailable := isAvailable; isSelected := isSelected;
     isCurrentMonth := isCurrentMonth; weather := weather; onClick := cloneDay |}.

(** [for (let i = 0; i < 7; i++) { days.push(cell); day = addDays(day, 1) }],
    with [n] the iterations still to run. *)
Fixpoint forDays (render : Date -> Cell) (days : list Cell) (day : Date) (n : nat)
  {struct n} : list Cell * Date :=
  match n with
  | O => (days, day)
  | S n' => forDays render (days ++ [render day]) (addDays day 1) n'
  end.

(** [while (day <= endDate) { ...seven cells...; rows.push(days); days = [] }].
    [fuel] bounds the number of times the loop condition is evaluated;
    [None] means the bound was reached before the loop ended.  (The counter
    of a loop is the last argument of its function.) *)
Fixpoint rowsLoop (render : Date -> Cell) (rows : list (list Cell))
  (day endDate : Date) (fuel : nat) {struct fuel} : option (list (list Cell)) :=
  match fuel with
  | O => None
  | S fuel' =>
      if day <=? endDate then
        let (days, day') := forDays render [] day 7 in
        rowsLoop render (rows ++ [days]) day' endDate fuel'
      else Some rows
  end.

Definition renderCells (fuel : nat) (p : Props) (now : Date) (s : State)
  : option (list (list Cell)) :=
  let monthStart := startOfMonth (currentMonth s) in
  let monthEnd := endOfMonth monthStart in
  let startDate := startOfWeek monthStart 1 in
  let endDate := endOfWeek monthEnd 1 in
  rowsLoop (renderCell p now s monthStart) [] startDate endDate fuel.

(** The days of the grid, in rendering order. *)
Definition visibleDays (rows : list (list Cell)) : list Date :=
  map cloneDay (concat rows).

(** *** Weather prefetch ([loadWeatherForView])

    [fetchWeatherForecast] belongs to the weather service; a call is
    described by what its promise settles to. *)

Inductive FetchResult :=
| Resolved (w : option WeatherData)
| Rejected.

Definition WeatherService := Z -> Z -> string -> FetchResult.

(** [while (day <= endDate) { ...; day = addDays(day, 1) }] *)
Fixpoint daysToFetchLoop (today : Date) (daysToFetch : list string)
  (day endDate : Date) (fuel : nat) {struct fuel} : option (list string) :=
  match fuel with
  | O => None
  | S fuel' =>
      if day <=? endDate then
        let diff := differenceInDays day today in
        let daysToFetch' :=
          if (diff >=? 0) && (diff <=? 13)
          then daysToFetch ++ [format day yyyy_MM_dd]
          else daysToFetch in
        daysToFetchLoop today daysToFetch' (addDays day 1) endDate fuel'
      else Some daysToFetch
  end.

(** State shared by the callbacks handed to [Promise.all]: the calls made to
    the service, the object [newWeatherData] they write to, and whether one
    of their promises has rejected. *)
Record Prefetch := {
  calls : list string;
  newWeatherData : gmap string WeatherData;
  rejected : bool
}.

(** One [async (dateStr) => { if (!weatherMap[dateStr]) { ... } }].  The
    [await] of a rejected promise throws, so the callback's own promise
    rejects; nothing in the callback catches it.  The callbacks are taken in
    the order of [daysToFetch]: each writes the key of its own date, with a
    value that depends on that date only, so the order in which the promises
    settle does not change what [newWeatherData] holds in the end. *)
Definition fetchCallback (fetch : WeatherService) (p : Props) (s : State)
  (acc : Prefetch) (dateStr : string) : Prefetch :=
  match weatherMap s !! dateStr with
  | Some _ => acc
  | None =>
      let issued := calls acc ++ [dateStr] in
      match fetch (lat (coordinates (trip p))) (lng (coordinates (trip p))) dateStr with
      | Resolved (Some w) =>
          {| calls := issued;
             newWeatherData := <[dateStr := w]> (newWeatherData acc);
             rejected := rejected acc |}
      | Resolved None =>
          {| calls := issued; newWeatherData := newWeatherData acc;
             rejected := rejected acc |}
      | Rejected =>
          {| calls := issued; newWeatherData := newWeatherData acc;
             rejected := true |}
      end
  end.

(** What one run of [loadWeatherForView] does: the fetches it issues, the
    object it hands to [setWeatherMap] (if it gets there), and whether its
    promise rejects. *)
Record Cycle := {
  fetched : list string;
  update : option (gmap string WeatherData);
  threw : bool
}.

(** The first part of [loadWeatherForView]: the days to fetch for the month
    on view. *)
Definition daysToFetchForView (fuel : nat) (now : Date) (s : State)
  : option (list string) :=
  let monthStart := startOfMonth (currentMonth s) in
  let monthEnd := endOfMonth monthStart in
  let startDate := startOfWeek monthStart 1 in
  let endDate := endOfWeek monthEnd 1 in
  daysToFetchLoop (today now) [] startDate endDate fuel.

Definition loadWeatherForView (fuel : nat) (fetch : WeatherService) (p : Props)
  (now : Date) (s : State) : option Cycle :=
  match daysToFetchForView fuel now s with
  | None => None
  | Some daysToFetch =>
      if (length daysToFetch =? 0)%nat then
        Some {| fetched := []; update := None; threw := false |}
      else
        let all :=
          foldl (fetchCallback fetch p s)
                {| calls := []; newWeatherData := ∅; rejected := false |}
                daysToFetch in
        if rejected all then
          (* [await Promise.all(...)] throws: the rest is skipped *)
          Some {| fetched := calls all; update := None; threw := true |}
        else if (0 <? size (newWeatherData all))%nat then
          Some {| fetched := calls all; update := Some (newWeatherData all);
                  threw := false |}
        else
          Some {| fetched := calls all; update := None; threw := false |}
  end.

(** [prev => ({ ...prev, ...newWeatherData })]: on a key of both, the later
    spread wins. *)
Definition mergeWeather (newWeatherData prev : gmap string WeatherData)
  : gmap string WeatherData :=
  newWeatherData ∪ prev.

(** The state after a cycle has settled against state [s]. *)
Definition settle (c : Cycle) (s : State) : State :=
  match update c with
  | Some newWeatherData => setWeatherMap s (mergeWeather newWeatherData)
  | None => s
  end.

(** *** Footer: the selected date and the confirm button *)

Definition footerDate (p : Props) (s : State) : string :=
  match selectedDate s with
  | Some sel => formatWith (locale p) sel [d; Lit " "; MMMM; Lit " "; yyyy]
  | None => "-"
  end.

Definition confirmLabel (p : Props) : string :=
  match lang p with
  | lang_it => "Conferma e Prenota"
  | lang_en => "Confirm & Book"
  end.

Definition weekDays (p : Props) : list string :=
  match lang p with
  | lang_it => ["Lun"; "Mar"; "Mer"; "Gio"; "Ven"; "Sab"; "Dom"]
  | lang_en => ["Mon"; "Tue"; "Wed"; "Thu"; "Fri"; "Sat"; "Sun"]
  end.

(** [disabled={!selectedDate}] *)
Definition confirmDisabled (s : State) : bool :=
  match selectedDate s with
  | Some _ => false
  | None => true
  end.

(** [onClick={() => selectedDate && onConfirm(format(selectedDate, 'yyyy-MM-dd'))}] *)
Definition confirmOnClick (s : State) : list Callback :=
  match selectedDate s with
  | Some sel => [onConfirm (format sel yyyy_MM_dd)]
  | None => []
  end.

(** *** Events

    What can happen to a mounted modal: a click on a day cell, on one of the
    two month buttons, on the confirm button, on the close button, the
    state update of a prefetch cycle, and a render caused from outside (the
    parent renders again).  A disabled button gets no click. *)

Inductive Event :=
| DayCellClick (date : Date)
| PreviousMonthClick
| NextMonthClick
| ConfirmClick
| CloseClick
| WeatherLoaded (newWeatherData : gmap string WeatherData)
| Rerender.

(** One event, handled by the closures of the render on screen: [now] is
    what [new Date()] returned in that render, so [today now] is the [today]
    those closures hold. *)
Definition handle (p : Props) (now : Date) (s : State) (ev : Event)
  : State * list Callback :=
  match ev with
  | DayCellClick date => (handleDateClick p now s date, [])
  | PreviousMonthClick => (previousMonthClick s, [])
  | NextMonthClick => (nextMonthClick s, [])
  | ConfirmClick => (s, if confirmDisabled s then [] else confirmOnClick s)
  | CloseClick => (s, [onClose])
  | WeatherLoaded newWeatherData =>
      (setWeatherMap s (mergeWeather newWeatherData), [])
  | Rerender => (s, [])
  end.

(** Whether the component renders again after an event.  It does when a
    state setter was called: each call passes a new object (the [Date] of a
    cell of the current render, the result of [addMonths] or [subMonths],
    the object of the spread), so React never skips the render.  It does
    when the render comes from outside.  A click that sets nothing, as on an
    unavailable day or on the confirm and close buttons, leaves the render
    on screen as it is, with its [today]. *)
Definition rerenders (p : Props) (rendered : Date) (ev : Event) : bool :=
  match ev with
  | DayCellClick date => isDateAvailable p rendered date
  | PreviousMonthClick | NextMonthClick | WeatherLoaded _ | Rerender => true
  | ConfirmClick | CloseClick => false
  end.

(** The clock reading of the render on screen after an event that happens
    at clock reading [now]. *)
Definition renderedAfter (p : Props) (rendered now : Date) (ev : Event) : Date :=
  if rerenders p rendered ev then now else rendered.

(** A session: events in order, each with the clock reading at that time.
    [rendered] is the clock reading of the render on screen: an event is
    handled with the [today] of that render, not with the clock reading of
    the event, and the render that follows a state change reads the clock
    anew. *)
Fixpoint run (p : Props) (rendered : Date) (s : State) (trace : list (Date * Event))
  {struct trace} : State * list Callback :=
  match trace with
  | [] => (s, [])
  | (now, ev) :: rest =>
      let (s', out) := handle p rendered s ev in
      let (s'', out') := run p (renderedAfter p rendered now ev) s' rest in
      (s'', out ++ out')
  end.

(** The clock reading of the render on screen at the end of a session. *)
Fixpoint renderClock (p : Props) (rendered : Date) (trace : list (Date * Event))
  {struct trace} : Date :=
  match trace with
  | [] => rendered
  | (now, ev) :: rest => renderClock p (renderedAfter p rendered now ev) rest
  end.

End BookingModal.

(** ** Notions used to state the properties

    Days and weeks as lists, the month on view, the forecast horizon, what a
    cycle fetches, and the trip, clock readings and weather services of the
    examples. *)

Module Notions.
Import JSDate DateFns Format BookingModal.

(** Days back to the Monday on or before [t]. *)
Definition daysSinceMonday (t : Date) : Z := (WeekDay t + 6) mod 7.

(** Days forward to the Sunday on or after [t]. *)
Definition daysUntilSunday (t : Date) : Z := (7 - WeekDay t) mod 7.

(** A trip offered from 1 May to 30 September 2024. *)
Definition summerTrip : Trip := {|
  availableFrom := mkDate 2024 4 1;
  availableTo := mkDate 2024 8 30;
  durationDays := 2;
  coordinates := {| lat := 46; lng := 11 |}
|}.

(** The props of a modal for that trip, in language [l]. *)
Definition summerProps (l : Lang) : Props := {| trip := summerTrip; lang := l |}.

(** 1 May 2024, 01:00. *)
Definition may1st_1am : Date := mkDate 2024 4 1 + 3600000.

(** [n] consecutive days, the first being [day]: each is [addDays] of the
    one before by 1. *)
Fixpoint daysFrom (day : Date) (n : nat) {struct n} : list Date :=
  match n with
  | O => []
  | S n' => day :: daysFrom (addDays day 1) n'
  end.

(** The weeks the loop renders when the days left to the end date are a
    whole number [w] of weeks. *)
Fixpoint weeksFrom (render : Date -> Cell) (day : Date) (w : nat) {struct w}
  : list (list Cell) :=
  match w with
  | O => []
  | S w' => map render (daysFrom day 7) :: weeksFrom render (addDays day 7) w'
  end.

(** Day [k] of the month of [cm], at midnight. *)
Definition monthDay (cm : Date) (k : Z) : Date :=
  mkDate (getFullYear cm) (getMonth cm) k.

(** Number of days of the month of [cm]. *)
Definition monthLength (cm : Date) : Z :=
  DaysInMonth (getFullYear cm) (getMonth cm).

(** Months since year 0. *)
Definition monthIndex (t : Date) : Z := 12 * getFullYear t + getMonth t.

(** A forecast. *)
Definition sunny : WeatherData := {| weatherCode := 0; minTemp := 8; maxTemp := 21 |}.

(** A state in which 10 May 2024 has been selected. *)
Definition may10_selected : State :=
  setSelectedDate (initialState may1st_1am) (Some (mkDate 2024 4 10)).

(** The test of the loop of [loadWeatherForView]: [diff >= 0 && diff <= 13]. *)
Definition inHorizon (today day : Date) : bool :=
  (differenceInDays day today >=? 0) && (differenceInDays day today <=? 13).

(** [format(day, 'yyyy-MM-dd')], the key of a day in the weather cache. *)
Definition iso (day : Date) : string := format day yyyy_MM_dd.

(** The days of the grid of the month of [cm]. *)
Definition gridDays (cm : Date) (w : nat) : list Date :=
  daysFrom (startOfWeek (startOfMonth cm) 1) (7 * w).

(** A check by computation: the two-digit forms of 0..99 have length 2 and
    are pairwise distinct. *)
Definition twoDigitChecks : bool :=
  forallb (fun a =>
    (String.length (addLeadingZeros (Z.of_nat a) 2) =? 2)%nat &&
    forallb (fun b =>
      implb (String.eqb (addLeadingZeros (Z.of_nat a) 2)
                        (addLeadingZeros (Z.of_nat b) 2))
            (a =? b)%nat)
      (seq 0 100))
    (seq 0 100).

(** [weatherMap[dateStr]] is truthy: the date has an entry in the cache. *)
Definition cached (s : State) (dateStr : string) : bool :=
  match weatherMap s !! dateStr with
  | Some _ => true
  | None => false
  end.

(** The call [fetchWeatherForecast(trip.coordinates.lat, trip.coordinates.lng, dateStr)]. *)
Definition fetchFor (fetch : WeatherService) (p : Props) (dateStr : string) : FetchResult :=
  fetch (lat (coordinates (trip p))) (lng (coordinates (trip p))) dateStr.

(** The promise of a fetch rejected. *)
Definition isRejected (r : FetchResult) : bool :=
  match r with
  | Rejected => true
  | Resolved _ => false
  end.

(** The cycle that [loadWeatherForView] runs on the days to fetch [l]. *)
Definition cycleOn (fetch : WeatherService) (p : Props) (s : State) (l : list string)
  : Cycle :=
  let all := foldl (fetchCallback fetch p s)
                   {| calls := []; newWeatherData := ∅; rejected := false |} l in
  {| fetched := calls all;
     update := if rejected all then None
               else if (0 <? size (newWeatherData all))%nat
                    then Some (newWeatherData all) else None;
     threw := rejected all |}.

(** A service that has a forecast for every day. *)
Definition alwaysSunny : WeatherService := fun _ _ _ => Resolved (Some sunny).

(** A service with no forecast for 2 May 2024 and one for every other day. *)
Definition nothingForMay2 : WeatherService :=
  fun _ _ dateStr =>
    if String.eqb dateStr "2024-05-02" then Resolved None else Resolved (Some sunny).

(** A service that fails for 2 May 2024 and has a forecast for every other day. *)
Definition rejectsMay2 : WeatherService :=
  fun _ _ dateStr =>
    if String.eqb dateStr "2024-05-02" then Rejected else Resolved (Some sunny).

End Notions.

(** ** What a day cell and the line under the grid show

    The indicators inside a day cell and the forecast line for the selected
    date, as the conditions that guard their JSX. *)

Module Indicators.
Import JSDate DateFns Format BookingModal.

(** [getWeatherIcon] belongs to the weather service: an [IconTable] says
    for which weather codes the [icon] it returns is truthy. *)
Definition IconTable := Z -> bool.

(** [weather && WeatherIcon && isAvailable]: the icon with the maximum
    temperature, where [WeatherIcon] is
    [weather ? getWeatherIcon(weather.weatherCode).icon : null]. *)
Definition showsWeather (hasIcon : IconTable) (c : Cell) : bool :=
  match weather c with
  | Some w => hasIcon (weatherCode w) && isAvailable c
  | None => false
  end.

(** [isAvailable && isCurrentMonth && !isSelected && !weather]: the green dot. *)
Definition showsGreenDot (c : Cell) : bool :=
  isAvailable c && isCurrentMonth c && negb (isSelected c)
  && match weather c with Some _ => false | None => true end.

(** [!isAvailable && isCurrentMonth]: the strike line. *)
Definition showsStrike (c : Cell) : bool :=
  negb (isAvailable c) && isCurrentMonth c.

(** [selectedDate && weatherMap[format(selectedDate, 'yyyy-MM-dd')]]: the
    forecast the line under the grid shows, if it is rendered. *)
Definition forecastLine (s : State) : option WeatherData :=
  match selectedDate s with
  | Some sel => weatherMap s !! format sel yyyy_MM_dd
  | None => None
  end.

End Indicators.

(** ** Notions used to state properties of sessions and of the view *)

Module SessionNotions.
Import JSDate DateFns Format BookingModal Notions.

(** Months by which an event moves the month on view. *)
Definition monthShift (ev : Event) : Z :=
  match ev with
  | NextMonthClick => 1
  | PreviousMonthClick => -1
  | _ => 0
  end.

(** Clicks on the next-month button minus clicks on the previous-month
    button. *)
Fixpoint netMonths (trace : list (Date * Event)) : Z :=
  match trace with
  | [] => 0
  | (_, ev) :: rest => monthShift ev + netMonths rest
  end.

Definition isCloseClick (x : Date * Event) : bool :=
  match snd x with
  | CloseClick => true
  | _ => false
  end.

Definition isOnClose (c : Callback) : bool :=
  match c with
  | onClose => true
  | onConfirm _ => false
  end.

(** Weekday ([getDay]: 0 is Sunday) under the [i]-th label of [weekDays],
    which starts with Monday. *)
Definition columnWeekDay (i : nat) : Z := (Z.of_nat i + 1) mod 7.

(** The year the token [yyyy] prints: years up to 0 are counted back from 1. *)
Definition shownYear (t : Date) : Z :=
  if getFullYear t >? 0 then getFullYear t else 1 - getFullYear t.

(** The number a string of decimal digits denotes, whatever its leading
    zeros; -1 on other strings. *)
Definition digitsValue (s : string) : Z :=
  match DecimalString.NilEmpty.uint_of_string s with
  | Some u => Z.of_N (N.of_uint u)
  | None => -1
  end.

(** The modal opened on 1 May 2024 at 01:00, with the forecast of 2 May in
    the cache. *)
Definition may2_cached : State :=
  setWeatherMap (initialState may1st_1am) (fun _ => {[ "2024-05-02" := sunny ]}).

(** 2 May 2024, 23:59, and 3 May 2024, 00:01. *)
Definition may2_2359 : Date := mkDate 2024 4 2 + 86340000.
Definition may3_0001 : Date := mkDate 2024 4 3 + 60000.

(** [day] is a day of the month of [cm], given by day numbers. *)
Definition inMonthOf (cm day : Date) : bool :=
  (Day (monthDay cm 1) <=? Day day)
  && (Day day <? Day (monthDay cm 1) + monthLength cm).

(** 3 March 2021, 09:30, and a state in which the month on view is
    May 2021. *)
Definition mar3_2021 : Date := mkDate 2021 2 3 + 34200000.

Definition may_2021_on_view : State :=
  setCurrentMonth (initialState mar3_2021) (mkDate 2021 4 3).

End SessionNotions.

(** ** Facts about the day arithmetic *)

Module JSDateFacts.
Import JSDate.

Lemma DayFromYear_succ y : DayFromYear (y + 1) = DayFromYear y + DaysInYear y.
Proof.
  unfold DayFromYear, DaysInYear.
  repeat match goal with
         | |- context [negb (?a =? ?b)] => destruct (Z.eqb_spec a b); simpl
         end;
    Z.div_mod_to_equations; lia.
Qed.

Lemma DaysInYear_range y : DaysInYear y = 365 \/ DaysInYear y = 366.
Proof.
  unfold DaysInYear.
  repeat match goal with
         | |- context [negb (?a =? ?b)] => destruct (Z.eqb_spec a b); simpl
         end; auto.
Qed.

Lemma InLeapYear_DaysInYear y : DaysInYear y = 365 + InLeapYear y.
Proof.
  unfold InLeapYear. destruct (DaysInYear_range y) as [H | H]; rewrite H; reflexivity.
Qed.

Lemma InLeapYear_range y : InLeapYear y = 0 \/ InLeapYear y = 1.
Proof. unfold InLeapYear. destruct (_ =? _); auto. Qed.

Lemma DayFromYear_mono_le a b : a <= b -> DayFromYear a + 365 * (b - a) <= DayFromYear b.
Proof.
  intros H. unfold DayFromYear. Z.div_mod_to_equations. lia.
Qed.

Lemma DayFromYear_lt a b : a < b -> DayFromYear a + 365 <= DayFromYear b.
Proof. intros H. pose proof (DayFromYear_mono_le a b). lia. Qed.

Lemma YearFromDay_estimate n :
  let c := 1970 + (400 * n) / 146097 in
  DayFromYear (c - 1) <= n < DayFromYear (c + 2).
Proof.
  intros c. subst c. unfold DayFromYear. Z.div_mod_to_equations. lia.
Qed.

Lemma YearFromDay_spec n :
  DayFromYear (YearFromDay n) <= n < DayFromYear (YearFromDay n + 1).
Proof.
  pose proof (YearFromDay_estimate n) as H. cbv zeta in H.
  unfold YearFromDay.
  set (c := 1970 + 400 * n / 146097) in *.
  destruct (Z.leb_spec (DayFromYear (c + 1)) n).
  - replace (c + 1 + 1) with (c + 2) by lia. lia.
  - destruct (Z.leb_spec (DayFromYear c) n).
    + lia.
    + replace (c - 1 + 1) with c by lia. lia.
Qed.

Lemma YearFromDay_unique n y :
  DayFromYear y <= n < DayFromYear (y + 1) -> YearFromDay n = y.
Proof.
  intros H. pose proof (YearFromDay_spec n) as S.
  destruct (Z.lt_trichotomy (YearFromDay n) y) as [L | [E | G]]; [| exact E |].
  - pose proof (DayFromYear_mono_le (YearFromDay n + 1) y). lia.
  - pose proof (DayFromYear_mono_le (y + 1) (YearFromDay n)). lia.
Qed.

Lemma DayWithinYear_range n :
  0 <= DayWithinYear n < 365 + InLeapYear (YearFromDay n).
Proof.
  unfold DayWithinYear. pose proof (YearFromDay_spec n) as S.
  rewrite DayFromYear_succ, InLeapYear_DaysInYear in S. lia.
Qed.

Lemma MonthFromDay_range n : 0 <= MonthFromDay n <= 11.
Proof.
  unfold MonthFromDay.
  repeat match goal with
         | |- context [?a <? ?b] => destruct (Z.ltb_spec a b)
         end; lia.
Qed.

Lemma month_cases m : 0 <= m <= 11 ->
  m = 0 \/ m = 1 \/ m = 2 \/ m = 3 \/ m = 4 \/ m = 5 \/ m = 6 \/ m = 7 \/
  m = 8 \/ m = 9 \/ m = 10 \/ m = 11.
Proof. lia. Qed.

Ltac split_month H :=
  apply month_cases in H;
  repeat (destruct H as [H | H]; [subst |]); [.. | subst].

Lemma DaysInMonth_range y m : 0 <= m <= 11 -> 28 <= DaysInMonth y m <= 31.
Proof.
  intros H. unfold DaysInMonth.
  destruct (InLeapYear_range y) as [L | L]; rewrite L;
    split_month H; vm_compute; split; discriminate.
Qed.

Lemma DaysBeforeMonth_succ y m : 0 <= m <= 11 ->
  DaysBeforeMonth m (InLeapYear y) + DaysInMonth y m
  = if m =? 11 then 365 + InLeapYear y else DaysBeforeMonth (m + 1) (InLeapYear y).
Proof.
  intros H. unfold DaysInMonth.
  destruct (InLeapYear_range y) as [L | L]; rewrite L;
    split_month H; reflexivity.
Qed.

Lemma DaysBeforeMonth_bound y m : 0 <= m <= 11 ->
  0 <= DaysBeforeMonth m (InLeapYear y) /\
  DaysBeforeMonth m (InLeapYear y) + DaysInMonth y m <= 365 + InLeapYear y.
Proof.
  intros H. unfold DaysInMonth.
  destruct (InLeapYear_range y) as [L | L]; rewrite L;
    split_month H; vm_compute; split; discriminate.
Qed.

Lemma MakeDay_in_range y m d : 0 <= m <= 11 ->
  MakeDay y m d = DayFromYear y + DaysBeforeMonth m (InLeapYear y) + d - 1.
Proof.
  intros H. unfold MakeDay.
  rewrite (Z.div_small m 12), (Z.mod_small m 12), Z.add_0_r by lia. reflexivity.
Qed.

(** Every day number is the day of its own civil date. *)
Lemma MakeDay_civil n : MakeDay (YearFromDay n) (MonthFromDay n) (DateFromDay n) = n.
Proof.
  rewrite MakeDay_in_range by apply MonthFromDay_range.
  unfold DateFromDay, DayWithinYear. lia.
Qed.

Lemma DateFromDay_range n :
  1 <= DateFromDay n <= DaysInMonth (YearFromDay n) (MonthFromDay n).
Proof.
  pose proof (DayWithinYear_range n) as R.
  unfold DateFromDay, DaysInMonth, MonthFromDay in *.
  generalize dependent (DayWithinYear n). intros w R.
  destruct (InLeapYear_range (YearFromDay n)) as [L | L]; rewrite L in *;
  repeat match goal with
         | |- context [?a <? ?b] => destruct (Z.ltb_spec a b)
         end; unfold DaysBeforeMonth; simpl; lia.
Qed.

Section CivilOfMakeDay.
Variables y m d : Z.
Hypothesis Hm : 0 <= m <= 11.
Hypothesis Hd : 1 <= d <= DaysInMonth y m.

Lemma YearFromDay_MakeDay : YearFromDay (MakeDay y m d) = y.
Proof.
  apply YearFromDay_unique.
  rewrite MakeDay_in_range, DayFromYear_succ, InLeapYear_DaysInYear by assumption.
  pose proof (DaysBeforeMonth_bound y m Hm). lia.
Qed.

Lemma DayWithinYear_MakeDay :
  DayWithinYear (MakeDay y m d) = DaysBeforeMonth m (InLeapYear y) + d - 1.
Proof.
  unfold DayWithinYear. rewrite YearFromDay_MakeDay.
  rewrite MakeDay_in_range by assumption. lia.
Qed.

Lemma MonthFromDay_MakeDay : MonthFromDay (MakeDay y m d) = m.
Proof.
  unfold MonthFromDay. rewrite DayWithinYear_MakeDay, YearFromDay_MakeDay.
  revert Hd. unfold DaysInMonth.
  destruct (InLeapYear_range y) as [L | L]; rewrite L; clear L;
    pose proof Hm as Hm'; split_month Hm'; unfold DaysBeforeMonth; simpl; intros Hd';
    repeat match goal with
           | |- context [?a <? ?b] => destruct (Z.ltb_spec a b); try lia
           end.
Qed.

Lemma DateFromDay_MakeDay : DateFromDay (MakeDay y m d) = d.
Proof.
  unfold DateFromDay.
  rewrite MonthFromDay_MakeDay, DayWithinYear_MakeDay, YearFromDay_MakeDay. lia.
Qed.
End CivilOfMakeDay.

(** *** Time values *)

Lemma msPerDay_pos : 0 < msPerDay.
Proof. reflexivity. Qed.

Lemma Day_MakeDate n tm : 0 <= tm < msPerDay -> Day (MakeDate n tm) = n.
Proof.
  intros H. unfold Day, MakeDate.
  rewrite Z.add_comm, Z.div_add by discriminate.
  rewrite Z.div_small by assumption. reflexivity.
Qed.

Lemma TimeWithinDay_MakeDate n tm :
  0 <= tm < msPerDay -> TimeWithinDay (MakeDate n tm) = tm.
Proof.
  intros H. unfold TimeWithinDay, MakeDate.
  rewrite Z.add_comm, Z.mod_add by discriminate.
  apply Z.mod_small; assumption.
Qed.

Lemma TimeWithinDay_range t : 0 <= TimeWithinDay t < msPerDay.
Proof. apply Z.mod_pos_bound, msPerDay_pos. Qed.

Lemma MakeDate_Day t : MakeDate (Day t) (TimeWithinDay t) = t.
Proof.
  unfold MakeDate, Day, TimeWithinDay.
  rewrite (Z.mul_comm (t / msPerDay)). symmetry. apply Z.div_mod. discriminate.
Qed.

Lemma MakeDate_le n1 t1 n2 t2 :
  0 <= t1 < msPerDay -> 0 <= t2 < msPerDay ->
  (MakeDate n1 t1 <= MakeDate n2 t2 <-> n1 < n2 \/ (n1 = n2 /\ t1 <= t2)).
Proof. unfold MakeDate, msPerDay. lia. Qed.

Lemma WeekDay_range t : 0 <= WeekDay t < 7.
Proof. apply Z.mod_pos_bound. reflexivity. Qed.

(** [setDate] keeps the time of day and moves the day number by the
    difference of the day-of-month numbers. *)
Lemma setDate_shift t k :
  setDate t (getDate t + k) = MakeDate (Day t + k) (TimeWithinDay t).
Proof.
  unfold setDate, getDate, getMonth, YearFromTime.
  f_equal.
  rewrite MakeDay_in_range by apply MonthFromDay_range.
  pose proof (MakeDay_civil (Day t)) as C.
  rewrite MakeDay_in_range in C by apply MonthFromDay_range. lia.
Qed.

End JSDateFacts.

(** ** Day-level reading of the date-fns helpers *)

Module DateFnsFacts.
Import JSDate JSDateFacts DateFns Notions.

Lemma setHours_midnight t : setHours t 0 0 0 0 = MakeDate (Day t) 0.
Proof. reflexivity. Qed.

Lemma setHours_endOfDay t : setHours t 23 59 59 999 = MakeDate (Day t) 86399999.
Proof. reflexivity. Qed.

Lemma Day_startOfDay t : Day (startOfDay t) = Day t.
Proof. unfold startOfDay. rewrite setHours_midnight. apply Day_MakeDate. easy. Qed.

Lemma TimeWithinDay_startOfDay t : TimeWithinDay (startOfDay t) = 0.
Proof. unfold startOfDay. rewrite setHours_midnight. apply TimeWithinDay_MakeDate. easy. Qed.

Lemma startOfDay_le t : startOfDay t <= t.
Proof.
  unfold startOfDay. rewrite setHours_midnight.
  rewrite <- (MakeDate_Day t) at 2.
  pose proof (TimeWithinDay_range t). unfold MakeDate. lia.
Qed.

Lemma addDays_shift t k : addDays t k = MakeDate (Day t + k) (TimeWithinDay t).
Proof.
  unfold addDays. destruct (Z.eqb_spec k 0) as [-> | _].
  - rewrite Z.add_0_r. symmetry. apply MakeDate_Day.
  - apply setDate_shift.
Qed.

Lemma Day_addDays t k : Day (addDays t k) = Day t + k.
Proof. rewrite addDays_shift. apply Day_MakeDate, TimeWithinDay_range. Qed.

Lemma TimeWithinDay_addDays t k : TimeWithinDay (addDays t k) = TimeWithinDay t.
Proof. rewrite addDays_shift. apply TimeWithinDay_MakeDate, TimeWithinDay_range. Qed.

Lemma addDays_add t j k : addDays (addDays t j) k = addDays t (j + k).
Proof.
  rewrite (addDays_shift (addDays t j)), Day_addDays, TimeWithinDay_addDays.
  rewrite (addDays_shift t (j + k)). f_equal. lia.
Qed.

Lemma addDays_lt t k : 0 < k -> t < addDays t k.
Proof.
  intros H. rewrite addDays_shift. rewrite <- (MakeDate_Day t) at 1.
  unfold MakeDate, msPerDay. lia.
Qed.

Lemma startOfWeek_monday t :
  startOfWeek t 1 = MakeDate (Day t - daysSinceMonday t) 0.
Proof.
  unfold startOfWeek, getDay, daysSinceMonday.
  pose proof (WeekDay_range t) as R.
  set (diff := (if WeekDay t <? 1 then 7 else 0) + WeekDay t - 1).
  replace (getDate t - diff) with (getDate t + - diff) by lia.
  rewrite setDate_shift, setHours_midnight, Day_MakeDate by apply TimeWithinDay_range.
  f_equal. subst diff.
  destruct (Z.ltb_spec (WeekDay t) 1); Z.div_mod_to_equations; lia.
Qed.

Lemma endOfWeek_sunday t :
  endOfWeek t 1 = MakeDate (Day t + daysUntilSunday t) 86399999.
Proof.
  unfold endOfWeek, getDay, daysUntilSunday.
  pose proof (WeekDay_range t) as R.
  rewrite setDate_shift, setHours_endOfDay, Day_MakeDate by apply TimeWithinDay_range.
  f_equal.
  destruct (Z.ltb_spec (WeekDay t) 1); Z.div_mod_to_equations; lia.
Qed.

Lemma daysSinceMonday_range t : 0 <= daysSinceMonday t <= 6.
Proof. unfold daysSinceMonday. Z.div_mod_to_equations. lia. Qed.

Lemma daysUntilSunday_range t : 0 <= daysUntilSunday t <= 6.
Proof. unfold daysUntilSunday. Z.div_mod_to_equations. lia. Qed.

Lemma WeekDay_MakeDate n tm :
  0 <= tm < msPerDay -> WeekDay (MakeDate n tm) = (n + 4) mod 7.
Proof. intros H. unfold WeekDay. rewrite Day_MakeDate by assumption. reflexivity. Qed.

Lemma WeekDay_startOfWeek t : WeekDay (startOfWeek t 1) = 1.
Proof.
  rewrite startOfWeek_monday, WeekDay_MakeDate by easy.
  unfold daysSinceMonday, WeekDay. Z.div_mod_to_equations. lia.
Qed.

Lemma WeekDay_endOfWeek t : WeekDay (endOfWeek t 1) = 0.
Proof.
  rewrite endOfWeek_sunday, WeekDay_MakeDate by easy.
  unfold daysUntilSunday, WeekDay. Z.div_mod_to_equations. lia.
Qed.

Lemma startOfMonth_first t :
  startOfMonth t = MakeDate (MakeDay (getFullYear t) (getMonth t) 1) 0.
Proof.
  unfold startOfMonth, setDate. rewrite setHours_midnight, Day_MakeDate by apply TimeWithinDay_range.
  reflexivity.
Qed.

Lemma MakeDay_month_end y m : 0 <= m <= 11 ->
  MakeDay y (m + 1) 0 = MakeDay y m (DaysInMonth y m).
Proof.
  intros Hm. rewrite (MakeDay_in_range y m) by assumption.
  pose proof (DaysBeforeMonth_succ y m Hm) as S.
  destruct (Z.eqb_spec m 11) as [-> | Hne].
  - unfold MakeDay. change ((11 + 1) / 12) with 1. change ((11 + 1) mod 12) with 0.
    rewrite DayFromYear_succ, InLeapYear_DaysInYear.
    change (DaysBeforeMonth 0 (InLeapYear (y + 1))) with 0. lia.
  - rewrite MakeDay_in_range by lia. lia.
Qed.

Lemma endOfMonth_last t :
  endOfMonth t =
  MakeDate (MakeDay (getFullYear t) (getMonth t)
                    (DaysInMonth (getFullYear t) (getMonth t))) 86399999.
Proof.
  unfold endOfMonth, setFullYear.
  rewrite setHours_endOfDay, Day_MakeDate by apply TimeWithinDay_range.
  rewrite MakeDay_month_end by apply MonthFromDay_range. reflexivity.
Qed.

End DateFnsFacts.

(** ** Properties of the component *)

Module BookingModalFacts.
Import JSDate JSDateFacts DateFns DateFnsFacts Format BookingModal Notions.
Import SessionNotions.

(** *** Availability *)

Lemma isWithinInterval_ordered date start end_ :
  start <= end_ ->
  (isWithinInterval date start end_ = true <-> start <= date <= end_).
Proof.
  intros H. unfold isWithinInterval.
  rewrite Z.min_l, Z.max_r by assumption.
  rewrite andb_true_iff, !Z.leb_le. reflexivity.
Qed.

(** C1. On a season window with [tripStart <= tripEnd], [isDateAvailable]
    answers [true] exactly for the dates that lie in the window (ends
    included), are not before the start of today, and do not fall on a
    Wednesday ([getDay] 3); so it answers [false] outside the window, before
    today, and on Wednesdays. *)
Theorem isDateAvailable_rule (p : Props) (now date : Date) :
  tripStart p <= tripEnd p ->
  (isDateAvailable p now date = true <->
     tripStart p <= date <= tripEnd p /\
     ~ date < startOfDay now /\
     getDay date <> 3)
  /\ (~ tripStart p <= date <= tripEnd p -> isDateAvailable p now date = false)
  /\ (date < startOfDay now -> isDateAvailable p now date = false)
  /\ (getDay date = 3 -> isDateAvailable p now date = false).
Proof.
  intros Hwin.
  pose proof (isWithinInterval_ordered date _ _ Hwin) as Hin.
  unfold isDateAvailable, isBefore, today.
  destruct (isWithinInterval date (tripStart p) (tripEnd p)) eqn:Es; simpl.
  - apply proj1 in Hin. specialize (Hin eq_refl).
    destruct (Z.ltb_spec date (startOfDay now)) as [Hb | Hb];
      destruct (Z.eqb_spec (getDay date) 3) as [Hw | Hw];
      repeat split; intros; try tauto; try congruence; try lia.
  - assert (Hout : ~ tripStart p <= date <= tripEnd p).
    { intros C. apply Hin in C. discriminate. }
    repeat split; intros; try tauto; try congruence.
Qed.

Lemma isDateAvailable_rule_witness :
  isDateAvailable (summerProps lang_it) may1st_1am (mkDate 2024 4 2) = true
  /\ isDateAvailable (summerProps lang_it) may1st_1am (mkDate 2024 4 1) = false.
Proof.
  assert (H : tripStart (summerProps lang_it) <= tripEnd (summerProps lang_it))
    by (vm_compute; discriminate).
  split.
  - apply (proj1 (isDateAvailable_rule (summerProps lang_it) may1st_1am
                    (mkDate 2024 4 2) H)).
    vm_compute. repeat split; discriminate.
  - apply (proj2 (proj2 (proj2 (isDateAvailable_rule (summerProps lang_it)
                    may1st_1am (mkDate 2024 4 1) H)))).
    reflexivity.
Defined.

(** *** The calendar grid *)

Lemma addDays_0 t : addDays t 0 = t.
Proof. reflexivity. Qed.

Lemma length_daysFrom day n : length (daysFrom day n) = n.
Proof. revert day. induction n; intros; simpl; auto. Qed.

Lemma daysFrom_app day a b :
  daysFrom day (a + b) = daysFrom day a ++ daysFrom (addDays day (Z.of_nat a)) b.
Proof.
  revert day. induction a as [| a IH]; intros day.
  - reflexivity.
  - cbn [daysFrom Nat.add app]. rewrite IH, addDays_add.
    replace (1 + Z.of_nat a) with (Z.of_nat (S a)) by lia. reflexivity.
Qed.

Lemma elem_of_daysFrom t day n :
  t ∈ daysFrom day n <-> exists i, 0 <= i < Z.of_nat n /\ t = addDays day i.
Proof.
  revert day. induction n as [| n IH]; intros day; cbn [daysFrom].
  - split; [intros H; inversion H | intros (i & Hi & _); lia].
  - rewrite elem_of_cons, IH. split.
    + intros [-> | (i & Hi & ->)].
      * exists 0. split; [lia | reflexivity].
      * exists (1 + i). split; [lia | apply addDays_add].
    + intros (i & Hi & ->).
      destruct (Z.eq_dec i 0) as [-> | Hne]; [left; reflexivity |].
      right. exists (i - 1). split; [lia |].
      rewrite addDays_add. f_equal. lia.
Qed.

Lemma last_daysFrom day n :
  last (daysFrom day (S n)) = Some (addDays day (Z.of_nat n)).
Proof.
  replace (S n) with (n + 1)%nat by lia.
  rewrite daysFrom_app. cbn [daysFrom]. apply last_snoc.
Qed.

Lemma forDays_spec n render days day :
  forDays render days day n
  = (days ++ map render (daysFrom day n), addDays day (Z.of_nat n)).
Proof.
  revert days day. induction n as [| n IH]; intros days day.
  - cbn [forDays daysFrom map Z.of_nat]. rewrite app_nil_r, addDays_0. reflexivity.
  - cbn [forDays daysFrom map]. rewrite IH, <- app_assoc, addDays_add.
    replace (1 + Z.of_nat n) with (Z.of_nat (S n)) by lia. reflexivity.
Qed.

(** Comparing a midnight with a later time of day is comparing day numbers. *)
Lemma le_by_day day endDate :
  TimeWithinDay day <= TimeWithinDay endDate ->
  (day <= endDate <-> Day day <= Day endDate).
Proof.
  intros Ht.
  rewrite <- (MakeDate_Day day) at 1. rewrite <- (MakeDate_Day endDate) at 1.
  rewrite MakeDate_le by apply TimeWithinDay_range. lia.
Qed.

Lemma rowsLoop_spec w : forall fuel render rows day endDate,
  TimeWithinDay day <= TimeWithinDay endDate ->
  Day endDate - Day day + 1 = 7 * Z.of_nat w ->
  (w < fuel)%nat ->
  rowsLoop render rows day endDate fuel = Some (rows ++ weeksFrom render day w).
Proof.
  induction w as [| w IH]; intros fuel render rows day endDate Ht Hgap Hfuel;
    (destruct fuel as [| fuel]; [lia |]); cbn [rowsLoop weeksFrom].
  - destruct (Z.leb_spec day endDate) as [Hle | _].
    + apply le_by_day in Hle; [lia | assumption].
    + rewrite app_nil_r. reflexivity.
  - destruct (Z.leb_spec day endDate) as [_ | Hgt].
    + rewrite forDays_spec. cbn [app].
      rewrite IH.
      * rewrite <- app_assoc. reflexivity.
      * rewrite TimeWithinDay_addDays. assumption.
      * rewrite Day_addDays. lia.
      * lia.
    + exfalso. assert (Hle : day <= endDate) by (apply le_by_day; [assumption | lia]).
      lia.
Qed.

Lemma concat_weeksFrom render day w :
  concat (weeksFrom render day w) = map render (daysFrom day (7 * w)).
Proof.
  revert day. induction w as [| w IH]; intros day.
  - reflexivity.
  - cbn [weeksFrom concat]. rewrite IH.
    replace (7 * S w)%nat with (7 + 7 * w)%nat by lia.
    rewrite daysFrom_app, map_app. reflexivity.
Qed.

Lemma weeksFrom_rows render day w :
  Forall (fun row => length row = 7%nat) (weeksFrom render day w).
Proof.
  revert day. induction w as [| w IH]; intros day; constructor; auto.
Qed.

Lemma cloneDay_renderCell p now s monthStart day :
  cloneDay (renderCell p now s monthStart day) = day.
Proof. reflexivity. Qed.

Lemma Day_mkDate y m k : Day (mkDate y m k) = MakeDay y m k.
Proof. apply Day_MakeDate. easy. Qed.

Lemma civil_startOfMonth cm :
  getFullYear (startOfMonth cm) = getFullYear cm /\
  getMonth (startOfMonth cm) = getMonth cm.
Proof.
  rewrite startOfMonth_first.
  unfold getFullYear, getMonth, YearFromTime. rewrite Day_MakeDate by easy.
  pose proof (MonthFromDay_range (Day cm)) as Hm.
  pose proof (DaysInMonth_range (YearFromDay (Day cm)) _ Hm) as Hd.
  split.
  - apply YearFromDay_MakeDay; [assumption | lia].
  - apply MonthFromDay_MakeDay; [assumption | lia].
Qed.

Lemma MakeDay_date y m k : 0 <= m <= 11 -> MakeDay y m k = MakeDay y m 1 + k - 1.
Proof. intros H. rewrite !MakeDay_in_range by assumption. lia. Qed.

Lemma WeekDay_eq t : WeekDay t = (Day t + 4) mod 7.
Proof. reflexivity. Qed.

Lemma getDay_eq t : getDay t = WeekDay t.
Proof. reflexivity. Qed.

Lemma Day_monthDay cm k :
  Day (monthDay cm k) = MakeDay (getFullYear cm) (getMonth cm) k.
Proof. apply Day_MakeDate. easy. Qed.

Lemma monthLength_eq cm :
  monthLength cm = DaysInMonth (getFullYear cm) (getMonth cm).
Proof. reflexivity. Qed.

Lemma Day_startOfMonth t :
  Day (startOfMonth t) = MakeDay (getFullYear t) (getMonth t) 1.
Proof. rewrite startOfMonth_first. apply Day_MakeDate. easy. Qed.

Lemma Day_endOfMonth t :
  Day (endOfMonth t)
  = MakeDay (getFullYear t) (getMonth t) (DaysInMonth (getFullYear t) (getMonth t)).
Proof. rewrite endOfMonth_last. apply Day_MakeDate. easy. Qed.

(** A Monday at most six days before day [F], a Sunday at most six days after
    day [L], and between 28 and 31 days from [F] to [L]: four to six weeks. *)
Lemma whole_weeks (F L S E : Z) :
  27 <= L - F <= 30 ->
  F - 6 <= S <= F ->
  L <= E <= L + 6 ->
  (S + 4) mod 7 = 1 ->
  (E + 4) mod 7 = 0 ->
  exists w : nat, (4 <= w <= 6)%nat /\ E - S + 1 = 7 * Z.of_nat w.
Proof.
  intros HL HS HE WS WE.
  exists (Z.to_nat ((E - S + 1) / 7)).
  assert (Hq : E - S + 1 = 7 * ((E - S + 1) / 7)).
  { revert WS WE. Z.div_mod_to_equations. lia. }
  assert (Hw : 4 <= (E - S + 1) / 7 <= 6) by lia.
  split; lia.
Qed.

Lemma Day_gridStart cm :
  Day (startOfWeek (startOfMonth cm) 1)
  = MakeDay (getFullYear cm) (getMonth cm) 1 - daysSinceMonday (startOfMonth cm).
Proof.
  rewrite startOfWeek_monday, Day_MakeDate by easy.
  rewrite Day_startOfMonth. reflexivity.
Qed.

Lemma Day_gridEnd cm :
  Day (endOfWeek (endOfMonth (startOfMonth cm)) 1)
  = MakeDay (getFullYear cm) (getMonth cm)
            (DaysInMonth (getFullYear cm) (getMonth cm))
    + daysUntilSunday (endOfMonth (startOfMonth cm)).
Proof.
  destruct (civil_startOfMonth cm) as [Hy Hm].
  rewrite endOfWeek_sunday, Day_MakeDate by easy.
  rewrite Day_endOfMonth, Hy, Hm. reflexivity.
Qed.

Lemma TimeWithinDay_gridStart cm :
  TimeWithinDay (startOfWeek (startOfMonth cm) 1) = 0.
Proof. rewrite startOfWeek_monday. apply TimeWithinDay_MakeDate. easy. Qed.

Lemma TimeWithinDay_gridEnd cm :
  TimeWithinDay (endOfWeek (endOfMonth (startOfMonth cm)) 1) = 86399999.
Proof. rewrite endOfWeek_sunday. apply TimeWithinDay_MakeDate. easy. Qed.

(** Where the grid of the month of [cm] starts and ends. *)
Lemma grid_shape cm :
  exists w : nat,
    (4 <= w <= 6)%nat /\
    Day (endOfWeek (endOfMonth (startOfMonth cm)) 1)
      - Day (startOfWeek (startOfMonth cm) 1) + 1 = 7 * Z.of_nat w /\
    MakeDay (getFullYear cm) (getMonth cm) 1 - 6
      <= Day (startOfWeek (startOfMonth cm) 1)
      <= MakeDay (getFullYear cm) (getMonth cm) 1 /\
    MakeDay (getFullYear cm) (getMonth cm) (monthLength cm)
      <= Day (endOfWeek (endOfMonth (startOfMonth cm)) 1)
      <= MakeDay (getFullYear cm) (getMonth cm) (monthLength cm) + 6.
Proof.
  rewrite monthLength_eq.
  assert (Rm : 0 <= getMonth cm <= 11) by apply MonthFromDay_range.
  pose proof (DaysInMonth_range (getFullYear cm) _ Rm) as Rd.
  pose proof (MakeDay_date (getFullYear cm) _
                (DaysInMonth (getFullYear cm) (getMonth cm)) Rm) as HD.
  pose proof (WeekDay_startOfWeek (startOfMonth cm)) as WS.
  pose proof (WeekDay_endOfWeek (endOfMonth (startOfMonth cm))) as WE.
  pose proof (daysSinceMonday_range (startOfMonth cm)) as Ra.
  pose proof (daysUntilSunday_range (endOfMonth (startOfMonth cm))) as Rb.
  pose proof (Day_gridStart cm) as HS.
  pose proof (Day_gridEnd cm) as HE.
  rewrite WeekDay_eq in WS, WE.
  revert HS HE WS WE Ra Rb HD Rd.
  generalize (Day (endOfWeek (endOfMonth (startOfMonth cm)) 1)).
  generalize (Day (startOfWeek (startOfMonth cm) 1)).
  generalize (daysUntilSunday (endOfMonth (startOfMonth cm))).
  generalize (daysSinceMonday (startOfMonth cm)).
  generalize (MakeDay (getFullYear cm) (getMonth cm)
                (DaysInMonth (getFullYear cm) (getMonth cm))).
  generalize (MakeDay (getFullYear cm) (getMonth cm) 1).
  generalize (DaysInMonth (getFullYear cm) (getMonth cm)).
  clear. intros dim F L a b S E HS HE WS WE Ra Rb HD Rd.
  destruct (whole_weeks F L S E) as (w & Hw & Hgap); try lia.
  exists w. repeat split; try assumption; lia.
Qed.

Lemma isSameDay_Day a b : isSameDay a b = (Day a =? Day b).
Proof.
  unfold isSameDay, startOfDay. rewrite !setHours_midnight.
  unfold MakeDate, msPerDay.
  destruct (Z.eqb_spec (Day a) (Day b)) as [-> | Hne].
  - apply Z.eqb_refl.
  - apply Z.eqb_neq. lia.
Qed.

Lemma count_day_daysFrom c n : forall day,
  Day day <= c < Day day + Z.of_nat n ->
  length (filter (fun t => Day t =? c) (daysFrom day n)) = 1%nat.
Proof.
  induction n as [| n IH]; intros day Hc; [lia |].
  cbn [daysFrom].
  assert (Hnone : forall k d, c < Day d ->
            filter (fun t => Day t =? c) (daysFrom d k) = []).
  { clear. induction k as [| k IHk]; intros d Hd; [reflexivity |].
    cbn [daysFrom]. rewrite filter_cons.
    destruct (decide _) as [Heq | _].
    - apply Is_true_true in Heq. apply Z.eqb_eq in Heq. lia.
    - apply IHk. rewrite Day_addDays. lia. }
  rewrite filter_cons. destruct (decide _) as [Heq | Hne].
  - apply Is_true_true in Heq. apply Z.eqb_eq in Heq.
    rewrite Hnone by (rewrite Day_addDays; lia). reflexivity.
  - apply IH. rewrite Day_addDays.
    assert (Day day <> c).
    { intros E. apply Hne. apply Is_true_true. apply Z.eqb_eq. exact E. }
    lia.
Qed.

(** The grid of a month has at most six rows: seven evaluations of the loop
    condition are enough, and the rows are those of [weeksFrom]. *)
Lemma renderCells_rows fuel p now s :
  (7 <= fuel)%nat ->
  exists w : nat,
    (4 <= w <= 6)%nat /\
    renderCells fuel p now s
    = Some (weeksFrom (renderCell p now s (startOfMonth (currentMonth s)))
                      (startOfWeek (startOfMonth (currentMonth s)) 1) w) /\
    Day (endOfWeek (endOfMonth (startOfMonth (currentMonth s))) 1)
    - Day (startOfWeek (startOfMonth (currentMonth s)) 1) + 1 = 7 * Z.of_nat w.
Proof.
  intros Hfuel.
  destruct (grid_shape (currentMonth s)) as (w & Hw & Hgap & _).
  exists w. split; [exact Hw |]. split; [| exact Hgap].
  unfold renderCells. cbv zeta.
  rewrite (rowsLoop_spec w); [reflexivity | | exact Hgap | lia].
  rewrite TimeWithinDay_gridStart, TimeWithinDay_gridEnd. discriminate.
Qed.

Lemma visibleDays_weeksFrom p now s monthStart day w :
  visibleDays (weeksFrom (renderCell p now s monthStart) day w)
  = daysFrom day (7 * w).
Proof.
  unfold visibleDays. rewrite concat_weeksFrom, map_map.
  induction (daysFrom day (7 * w)) as [| t l IH]; [reflexivity |].
  cbn [map]. rewrite IH. reflexivity.
Qed.

(** C2. For every [currentMonth], the rendered days are consecutive days,
    a whole number of weeks of them; the first is the Monday on or before the
    first of the month, the last the Sunday on or after the last of the
    month, and every day of the month is the day of exactly one cell. *)
Theorem renderCells_grid (fuel : nat) (p : Props) (now : Date) (s : State) :
  (7 <= fuel)%nat ->
  exists (rows : list (list Cell)) (first final : Date) (n : nat),
    renderCells fuel p now s = Some rows /\
    visibleDays rows = daysFrom first n /\
    last (visibleDays rows) = Some final /\
    (n mod 7 = 0)%nat /\
    Forall (fun row => length row = 7%nat) rows /\
    getDay first = 1 /\
    Day (monthDay (currentMonth s) 1) - 6 <= Day first
      <= Day (monthDay (currentMonth s) 1) /\
    getDay final = 0 /\
    Day (monthDay (currentMonth s) (monthLength (currentMonth s))) <= Day final
      <= Day (monthDay (currentMonth s) (monthLength (currentMonth s))) + 6 /\
    forall k, 1 <= k <= monthLength (currentMonth s) ->
      length (filter (fun t => isSameDay t (monthDay (currentMonth s) k))
                     (visibleDays rows)) = 1%nat.
Proof.
  intros Hfuel.
  destruct (renderCells_rows fuel p now s Hfuel) as (w & Hw & Hrows & Hgap).
  destruct (grid_shape (currentMonth s)) as (w' & _ & _ & HS & HE).
  pose proof (WeekDay_startOfWeek (startOfMonth (currentMonth s))) as WS.
  pose proof (WeekDay_endOfWeek (endOfMonth (startOfMonth (currentMonth s)))) as WE.
  assert (Rm : 0 <= getMonth (currentMonth s) <= 11) by apply MonthFromDay_range.
  destruct w as [| w0]; [lia |].
  exists (weeksFrom (renderCell p now s (startOfMonth (currentMonth s)))
            (startOfWeek (startOfMonth (currentMonth s)) 1) (S w0)),
    (startOfWeek (startOfMonth (currentMonth s)) 1),
    (addDays (startOfWeek (startOfMonth (currentMonth s)) 1) (Z.of_nat (6 + 7 * w0))),
    (7 * S w0)%nat.
  rewrite visibleDays_weeksFrom.
  assert (Hlast : Day (addDays (startOfWeek (startOfMonth (currentMonth s)) 1)
                               (Z.of_nat (6 + 7 * w0)))
                  = Day (endOfWeek (endOfMonth (startOfMonth (currentMonth s))) 1)).
  { rewrite Day_addDays. lia. }
  rewrite !Day_monthDay.
  split; [exact Hrows |]. split; [reflexivity |].
  split.
  { replace (7 * S w0)%nat with (S (6 + 7 * w0)) by lia. apply last_daysFrom. }
  split; [rewrite Nat.mul_comm; apply Nat.Div0.mod_mul |].
  split; [apply weeksFrom_rows |].
  split; [exact WS |].
  split; [exact HS |].
  split; [rewrite getDay_eq, WeekDay_eq, Hlast, <- WeekDay_eq; exact WE |].
  split; [rewrite Hlast; exact HE |].
  intros k Hk.
  rewrite (list_filter_iff _ (fun t => Day t =? Day (monthDay (currentMonth s) k))).
  - apply count_day_daysFrom.
    rewrite Day_monthDay, (MakeDay_date _ _ k Rm).
    rewrite (MakeDay_date _ _ (monthLength (currentMonth s)) Rm) in HE.
    rewrite monthLength_eq in Hk.
    replace (Z.of_nat (7 * S w0)) with (7 * Z.of_nat (S w0)) by lia.
    rewrite <- Hgap. rewrite monthLength_eq in HE. lia.
  - intros t. rewrite isSameDay_Day. reflexivity.
Qed.

Lemma renderCells_grid_witness :
  exists (rows : list (list Cell)) (first final : Date) (n : nat),
    renderCells 7 (summerProps lang_it) may1st_1am (initialState may1st_1am)
      = Some rows /\
    visibleDays rows = daysFrom first n /\
    last (visibleDays rows) = Some final /\
    (n mod 7 = 0)%nat /\
    Forall (fun row => length row = 7%nat) rows /\
    getDay first = 1 /\
    Day (monthDay may1st_1am 1) - 6 <= Day first <= Day (monthDay may1st_1am 1) /\
    getDay final = 0 /\
    Day (monthDay may1st_1am (monthLength may1st_1am)) <= Day final
      <= Day (monthDay may1st_1am (monthLength may1st_1am)) + 6 /\
    forall k, 1 <= k <= monthLength may1st_1am ->
      length (filter (fun t => isSameDay t (monthDay may1st_1am k))
                     (visibleDays rows)) = 1%nat.
Proof.
  apply (renderCells_grid 7 (summerProps lang_it) may1st_1am
           (initialState may1st_1am)).
  lia.
Defined.

(** The grid of May 2024: five weeks, from Monday 29 April to Sunday 2 June. *)
Example renderCells_may_2024 :
  option_map (fun rows => map dateStr (concat rows))
    (renderCells 7 (summerProps lang_it) may1st_1am (initialState may1st_1am))
  = Some ["2024-04-29"; "2024-04-30"; "2024-05-01"; "2024-05-02"; "2024-05-03";
          "2024-05-04"; "2024-05-05"; "2024-05-06"; "2024-05-07"; "2024-05-08";
          "2024-05-09"; "2024-05-10"; "2024-05-11"; "2024-05-12"; "2024-05-13";
          "2024-05-14"; "2024-05-15"; "2024-05-16"; "2024-05-17"; "2024-05-18";
          "2024-05-19"; "2024-05-20"; "2024-05-21"; "2024-05-22"; "2024-05-23";
          "2024-05-24"; "2024-05-25"; "2024-05-26"; "2024-05-27"; "2024-05-28";
          "2024-05-29"; "2024-05-30"; "2024-05-31"; "2024-06-01"; "2024-06-02"].
Proof. vm_compute. reflexivity. Qed.

(** *** Month navigation *)

Lemma MakeDay_add_years y q j dt : MakeDay y (12 * q + j) dt = MakeDay (y + q) j dt.
Proof.
  unfold MakeDay.
  replace ((12 * q + j) / 12) with (q + j / 12)
    by (Z.div_mod_to_equations; lia).
  replace ((12 * q + j) mod 12) with (j mod 12)
    by (Z.div_mod_to_equations; lia).
  rewrite Z.add_assoc. reflexivity.
Qed.

Lemma civil_MakeDate y m dt tm :
  0 <= m <= 11 -> 1 <= dt <= DaysInMonth y m -> 0 <= tm < msPerDay ->
  getFullYear (MakeDate (MakeDay y m dt) tm) = y /\
  getMonth (MakeDate (MakeDay y m dt) tm) = m /\
  getDate (MakeDate (MakeDay y m dt) tm) = dt /\
  TimeWithinDay (MakeDate (MakeDay y m dt) tm) = tm.
Proof.
  intros Hm Hd Ht.
  unfold getFullYear, getMonth, getDate, YearFromTime.
  rewrite Day_MakeDate, TimeWithinDay_MakeDate by assumption.
  rewrite YearFromDay_MakeDay, MonthFromDay_MakeDay, DateFromDay_MakeDay by assumption.
  auto.
Qed.

(** [addMonths] lands in the month [amount] months away, keeps the time of
    day, and keeps the day of the month unless that month is shorter. *)
Lemma addMonths_civil t amount :
  let y' := getFullYear t + (getMonth t + amount) / 12 in
  let m' := (getMonth t + amount) mod 12 in
  getFullYear (addMonths t amount) = y' /\
  getMonth (addMonths t amount) = m' /\
  getDate (addMonths t amount) = Z.min (getDate t) (DaysInMonth y' m') /\
  TimeWithinDay (addMonths t amount) = TimeWithinDay t.
Proof.
  intros y' m'.
  assert (Rm : 0 <= getMonth t <= 11) by apply MonthFromDay_range.
  assert (Rm' : 0 <= m' <= 11) by (subst m'; Z.div_mod_to_equations; lia).
  pose proof (DaysInMonth_range y' m' Rm') as Rd'.
  pose proof (DateFromDay_range (Day t)) as Rd. fold (getDate t) in Rd.
  pose proof (TimeWithinDay_range t) as Rt.
  unfold addMonths. destruct (Z.eqb_spec amount 0) as [-> | Hne].
  - subst y' m'. rewrite Z.add_0_r in *.
    rewrite Z.div_small, Z.mod_small, Z.add_0_r in * by lia.
    repeat split; try reflexivity.
    unfold getFullYear, getMonth, YearFromTime in *. lia.
  - assert (Hend : setMonth t (getMonth t + amount + 1) 0
                   = MakeDate (MakeDay y' m' (DaysInMonth y' m')) (TimeWithinDay t)).
    { unfold setMonth. f_equal.
      replace (getMonth t + amount + 1)
        with (12 * ((getMonth t + amount) / 12) + (m' + 1))
        by (subst m'; Z.div_mod_to_equations; lia).
      rewrite MakeDay_add_years. apply MakeDay_month_end. exact Rm'. }
    rewrite Hend.
    destruct (civil_MakeDate y' m' (DaysInMonth y' m') (TimeWithinDay t))
      as (Ey & Em & Ed & Et); [assumption | lia | assumption |].
    rewrite Ey, Em, Ed.
    destruct (Z.geb_spec (getDate t) (DaysInMonth y' m')) as [Hge | Hlt].
    + rewrite Ey, Em, Ed, Et. repeat split; try reflexivity. lia.
    + unfold setFullYear.
      destruct (civil_MakeDate y' m' (getDate t) (TimeWithinDay t))
        as (Ey2 & Em2 & Ed2 & Et2); [assumption | lia | assumption |].
      rewrite Ey2, Em2, Ed2, Et2. repeat split; try reflexivity. lia.
Qed.

Lemma monthIndex_addMonths t amount :
  monthIndex (addMonths t amount) = monthIndex t + amount.
Proof.
  destruct (addMonths_civil t amount) as (Ey & Em & _).
  unfold monthIndex. rewrite Ey, Em.
  generalize (getFullYear t) (getMonth t).
  intros y m. Z.div_mod_to_equations. lia.
Qed.

(** C10. The previous-month and next-month buttons move [currentMonth] by
    exactly one month, back and forward (the day of the month is kept, or
    becomes the last day of a shorter month; the time of day is kept); they
    leave [selectedDate] and the weather cache as they are and call nothing. *)
Theorem month_navigation (p : Props) (now : Date) (s : State) :
  handle p now s PreviousMonthClick = (previousMonthClick s, []) /\
  handle p now s NextMonthClick = (nextMonthClick s, []) /\
  monthIndex (currentMonth (previousMonthClick s)) = monthIndex (currentMonth s) - 1 /\
  monthIndex (currentMonth (nextMonthClick s)) = monthIndex (currentMonth s) + 1 /\
  getDate (currentMonth (previousMonthClick s))
    = Z.min (getDate (currentMonth s)) (monthLength (currentMonth (previousMonthClick s))) /\
  getDate (currentMonth (nextMonthClick s))
    = Z.min (getDate (currentMonth s)) (monthLength (currentMonth (nextMonthClick s))) /\
  selectedDate (previousMonthClick s) = selectedDate s /\
  selectedDate (nextMonthClick s) = selectedDate s /\
  weatherMap (previousMonthClick s) = weatherMap s /\
  weatherMap (nextMonthClick s) = weatherMap s.
Proof.
  unfold previousMonthClick, nextMonthClick, subMonths, setCurrentMonth.
  cbn [currentMonth selectedDate weatherMap handle].
  destruct (addMonths_civil (currentMonth s) (Z.opp 1)) as (Ey1 & Em1 & Ed1 & _).
  destruct (addMonths_civil (currentMonth s) 1) as (Ey2 & Em2 & Ed2 & _).
  repeat split.
  - rewrite monthIndex_addMonths. lia.
  - apply monthIndex_addMonths.
  - rewrite monthLength_eq, Ey1, Em1. exact Ed1.
  - rewrite monthLength_eq, Ey2, Em2. exact Ed2.
Qed.

(** 31 January 2024 goes to 29 February 2024 and to 31 December 2023. *)
Example jan31_navigation :
  let s := initialState (mkDate 2024 0 31) in
  format (currentMonth (nextMonthClick s)) yyyy_MM_dd = "2024-02-29" /\
  format (currentMonth (previousMonthClick s)) yyyy_MM_dd = "2023-12-31".
Proof. vm_compute. split; reflexivity. Qed.

(** *** The weather cache *)

Lemma mergeWeather_lookup newData prev k :
  mergeWeather newData prev !! k
  = match newData !! k with Some w => Some w | None => prev !! k end.
Proof.
  unfold mergeWeather. rewrite lookup_union.
  destruct (newData !! k), (prev !! k); reflexivity.
Qed.

Lemma handle_weatherMap_grows p now s ev k :
  is_Some (weatherMap s !! k) -> is_Some (weatherMap (fst (handle p now s ev)) !! k).
Proof.
  intros H. destruct ev as [date | | | | | nd |]; cbn [handle fst]; try exact H.
  - unfold handleDateClick. destruct (isDateAvailable p now date); exact H.
  - cbn [setWeatherMap weatherMap]. rewrite mergeWeather_lookup.
    destruct (nd !! k); [eauto | exact H].
Qed.

Lemma run_cons p rendered s now ev rest :
  run p rendered s ((now, ev) :: rest)
  = (fst (run p (renderedAfter p rendered now ev)
              (fst (handle p rendered s ev)) rest),
     snd (handle p rendered s ev)
     ++ snd (run p (renderedAfter p rendered now ev)
                 (fst (handle p rendered s ev)) rest)).
Proof.
  cbn [run]. destruct (handle p rendered s ev) as [s' out].
  cbn [fst snd].
  destruct (run p (renderedAfter p rendered now ev) s' rest) as [s'' out'].
  reflexivity.
Qed.

Lemma renderClock_cons p rendered now ev rest :
  renderClock p rendered ((now, ev) :: rest)
  = renderClock p (renderedAfter p rendered now ev) rest.
Proof. reflexivity. Qed.

(** A session in two parts: the second part starts from the state and the
    render the first part ends with. *)
Lemma run_app p pre : forall rendered s rest,
  run p rendered s (pre ++ rest)
  = (fst (run p (renderClock p rendered pre) (fst (run p rendered s pre)) rest),
     snd (run p rendered s pre)
     ++ snd (run p (renderClock p rendered pre) (fst (run p rendered s pre)) rest)).
Proof.
  induction pre as [| [now ev] pre IH]; intros rendered s rest.
  - cbn [app run renderClock fst snd].
    destruct (run p rendered s rest) as [s' out]. reflexivity.
  - rewrite <- app_comm_cons, !run_cons, renderClock_cons, IH.
    cbn [fst snd]. rewrite app_assoc. reflexivity.
Qed.

(** C9. The weather cache only grows.  A merge keeps every key it had (with
    the value of the new data where the new data has the key, its old value
    otherwise); so does the state update of a settled prefetch cycle, and so
    does every event of a session.  The cache is a map: no key occurs twice
    among its entries. *)
Theorem weatherMap_monotone (p : Props) (s : State) (k : string) (w : WeatherData) :
  weatherMap s !! k = Some w ->
  (forall newData, exists w',
      mergeWeather newData (weatherMap s) !! k = Some w' /\
      (newData !! k = None -> w' = w)) /\
  (forall c, is_Some (weatherMap (settle c s) !! k)) /\
  (forall rendered trace,
      is_Some (weatherMap (fst (run p rendered s trace)) !! k)) /\
  NoDup (map fst (map_to_list (weatherMap s))).
Proof.
  intros Hk. repeat split.
  - intros newData. rewrite mergeWeather_lookup, Hk.
    destruct (newData !! k) as [w' |].
    + exists w'. split; [reflexivity | discriminate].
    + exists w. split; [reflexivity | reflexivity].
  - intros c. unfold settle. destruct (update c) as [nd |].
    + cbn [setWeatherMap weatherMap]. rewrite mergeWeather_lookup, Hk.
      destruct (nd !! k); eauto.
    + rewrite Hk. eauto.
  - intros rendered trace.
    assert (H : is_Some (weatherMap s !! k)) by (rewrite Hk; eauto).
    clear Hk. revert rendered s H.
    induction trace as [| [now ev] rest IH]; intros rendered s H.
    + exact H.
    + rewrite run_cons. cbn [fst]. apply IH. apply handle_weatherMap_grows. exact H.
  - apply NoDup_fst_map_to_list.
Qed.

Lemma weatherMap_monotone_witness :
  is_Some (weatherMap
             (fst (run (summerProps lang_it) may1st_1am
                       (setWeatherMap (initialState may1st_1am)
                                      (fun _ => {[ "2024-05-02" := sunny ]}))
                       [(may1st_1am, NextMonthClick);
                        (may1st_1am, WeatherLoaded ∅)]))
           !! "2024-05-02").
Proof.
  apply (weatherMap_monotone (summerProps lang_it)
           (setWeatherMap (initialState may1st_1am)
                          (fun _ => {[ "2024-05-02" := sunny ]}))
           "2024-05-02" sunny).
  reflexivity.
Defined.

(** *** Selection *)

(** Every cell the loop pushes is [render day] for some [day]. *)
Lemma rowsLoop_cells (render : Date -> Cell) (P : Cell -> Prop) :
  (forall day, P (render day)) ->
  forall fuel rows day endDate rows',
    Forall (Forall P) rows ->
    rowsLoop render rows day endDate fuel = Some rows' ->
    Forall (Forall P) rows'.
Proof.
  intros HP. induction fuel as [| fuel IH]; intros rows day endDate rows' Hrows Hloop.
  - discriminate.
  - cbn [rowsLoop] in Hloop. destruct (day <=? endDate).
    + rewrite forDays_spec in Hloop. apply IH in Hloop; [exact Hloop |].
      apply Forall_app. split; [exact Hrows |].
      constructor; [| constructor].
      cbn [app]. apply Forall_forall. intros c Hc.
      apply list_elem_of_In, in_map_iff in Hc. destruct Hc as (t & <- & _). apply HP.
    + injection Hloop as <-. exact Hrows.
Qed.

Lemma Forall_concat {A} (P : A -> Prop) (ls : list (list A)) :
  Forall (Forall P) ls -> Forall P (concat ls).
Proof.
  induction 1 as [| l ls Hl _ IH]; cbn [concat]; [constructor |].
  apply Forall_app. split; assumption.
Qed.

Lemma handle_selected p now s ev d :
  selectedDate (fst (handle p now s ev)) = Some d ->
  selectedDate s = Some d \/ (ev = DayCellClick d /\ isDateAvailable p now d = true).
Proof.
  destruct ev as [date | | | | | nd |]; cbn [handle fst]; auto.
  unfold handleDateClick. destruct (isDateAvailable p now date) eqn:E; auto.
  cbn [setSelectedDate selectedDate]. intros [= ->]. auto.
Qed.

Lemma run_selected p trace : forall rendered s d,
  selectedDate (fst (run p rendered s trace)) = Some d ->
  selectedDate s = Some d \/
  exists pre t post,
    trace = pre ++ (t, DayCellClick d) :: post /\
    isDateAvailable p (renderClock p rendered pre) d = true.
Proof.
  induction trace as [| [now ev] rest IH]; intros rendered s d H.
  - left. exact H.
  - rewrite run_cons in H. cbn [fst] in H. apply IH in H.
    destruct H as [H | (pre & t & post & -> & Hav)].
    + apply handle_selected in H. destruct H as [H | [-> Hav]].
      * left. exact H.
      * right. exists [], now, rest. split; [reflexivity | exact Hav].
    + right. exists ((now, ev) :: pre), t, post. split; [reflexivity |].
      rewrite renderClock_cons. exact Hav.
Qed.

(** What a click on a cell does, read off the cell. *)
Lemma renderCell_click p now s monthStart day :
  onClick (renderCell p now s monthStart day)
    = cloneDay (renderCell p now s monthStart day) /\
  isAvailable (renderCell p now s monthStart day)
    = isDateAvailable p now (cloneDay (renderCell p now s monthStart day)) /\
  (isAvailable (renderCell p now s monthStart day) = false ->
     handle p now s (DayCellClick (onClick (renderCell p now s monthStart day)))
     = (s, [])) /\
  (isAvailable (renderCell p now s monthStart day) = true ->
     selectedDate
       (fst (handle p now s
               (DayCellClick (onClick (renderCell p now s monthStart day)))))
     = Some (cloneDay (renderCell p now s monthStart day))).
Proof.
  split; [reflexivity |]. split; [reflexivity |].
  unfold renderCell. cbn [isAvailable onClick cloneDay handle fst].
  unfold handleDateClick. split; intros ->; reflexivity.
Qed.

(** C5, as the code has it.  A click on a day whose date is unavailable
    changes nothing; a click on an available one makes [selectedDate] that
    date and changes nothing else.  Every cell of the grid, whatever its
    month, passes its own date to the click handler, which tests it with the
    [today] the cell was rendered with.  Hence in every session a selected
    date was clicked while it was available by the [today] the modal held at
    that moment, that of the render then on screen. *)
Theorem selection_gating (p : Props) (now : Date) (s : State) (date : Date) :
  (isDateAvailable p now date = false ->
     handle p now s (DayCellClick date) = (s, []) /\
     selectedDate (fst (handle p now s (DayCellClick date))) = selectedDate s) /\
  (isDateAvailable p now date = true ->
     handle p now s (DayCellClick date) = (setSelectedDate s (Some date), []) /\
     selectedDate (fst (handle p now s (DayCellClick date))) = Some date /\
     currentMonth (fst (handle p now s (DayCellClick date))) = currentMonth s /\
     weatherMap (fst (handle p now s (DayCellClick date))) = weatherMap s) /\
  (forall fuel rows,
     renderCells fuel p now s = Some rows ->
     Forall (fun cell =>
               onClick cell = cloneDay cell /\
               isAvailable cell = isDateAvailable p now (cloneDay cell) /\
               (isAvailable cell = false ->
                  handle p now s (DayCellClick (onClick cell)) = (s, [])) /\
               (isAvailable cell = true ->
                  selectedDate (fst (handle p now s (DayCellClick (onClick cell))))
                  = Some (cloneDay cell)))
            (concat rows)) /\
  (forall now0 trace d,
     selectedDate (fst (run p now0 (initialState now0) trace)) = Some d ->
     exists pre t post,
       trace = pre ++ (t, DayCellClick d) :: post /\
       isDateAvailable p (renderClock p now0 pre) d = true).
Proof.
  split; [| split; [| split]].
  - intros H. cbn [handle fst]. unfold handleDateClick. rewrite H.
    split; reflexivity.
  - intros H. cbn [handle fst]. unfold handleDateClick. rewrite H.
    split; [reflexivity |]. split; [reflexivity |]. split; reflexivity.
  - intros fuel rows H. apply Forall_concat.
    unfold renderCells in H. cbv zeta in H.
    eapply rowsLoop_cells; [| | exact H].
    + intros day. apply renderCell_click.
    + constructor.
  - intros now0 trace d H. apply run_selected in H.
    destruct H as [H | H]; [discriminate | exact H].
Qed.

Lemma selection_gating_witness :
  selectedDate
    (fst (handle (summerProps lang_it) may1st_1am (initialState may1st_1am)
                 (DayCellClick (mkDate 2024 4 2))))
  = Some (mkDate 2024 4 2)
  /\ handle (summerProps lang_it) may1st_1am (initialState may1st_1am)
            (DayCellClick (mkDate 2024 4 1))
     = (initialState may1st_1am, []).
Proof.
  split.
  - apply (proj1 (proj2 (selection_gating (summerProps lang_it) may1st_1am
                           (initialState may1st_1am) (mkDate 2024 4 2)))).
    vm_compute. reflexivity.
  - apply (proj1 (selection_gating (summerProps lang_it) may1st_1am
                    (initialState may1st_1am) (mkDate 2024 4 1))).
    vm_compute. reflexivity.
Defined.

(** The [today] of a click is that of the last render, not the day of the
    click.  A modal rendered on 2 May 2024 at 23:59 shows 2 May as
    available; clicked at 00:01 on 3 May, with no render in between, it
    selects 2 May, which is no longer available by the clock of the click. *)
Lemma click_after_midnight :
  isDateAvailable (summerProps lang_it) may2_2359 (mkDate 2024 4 2) = true /\
  isDateAvailable (summerProps lang_it) may3_0001 (mkDate 2024 4 2) = false /\
  selectedDate
    (fst (run (summerProps lang_it) may2_2359 (initialState may2_2359)
              [(may3_0001, DayCellClick (mkDate 2024 4 2))]))
  = Some (mkDate 2024 4 2).
Proof. vm_compute. split; [| split]; reflexivity. Qed.

(** The confirm button then passes that day on. *)
Example confirm_after_midnight :
  snd (run (summerProps lang_it) may2_2359 (initialState may2_2359)
           [(may3_0001, DayCellClick (mkDate 2024 4 2)); (may3_0001, ConfirmClick)])
  = [onConfirm "2024-05-02"].
Proof. vm_compute. reflexivity. Qed.

(** *** The tokens of ['yyyy-MM-dd'] *)

Lemma format_yyyy_MM_dd_fields (locale : Locale) (date : Date) :
  formatWith locale date yyyy_MM_dd
  = (addLeadingZeros
       (if getFullYear date >? 0 then getFullYear date else 1 - getFullYear date) 4
     ++ "-" ++ addLeadingZeros (getMonth date + 1) 2
     ++ "-" ++ addLeadingZeros (getDate date) 2)%string.
Proof.
  unfold formatWith, yyyy_MM_dd. cbn [map formatToken String.concat].
  reflexivity.
Qed.

(** The tokens of ['yyyy-MM-dd'] are numeric: no locale changes the result. *)
Lemma format_yyyy_MM_dd_any_locale (locale : Locale) (date : Date) :
  formatWith locale date yyyy_MM_dd = format date yyyy_MM_dd.
Proof. unfold format. rewrite !format_yyyy_MM_dd_fields. reflexivity. Qed.

(** *** Day offsets ([differenceInDays]) *)

Lemma DaysBeforeMonth_mono leap a b :
  0 <= leap -> 0 <= a -> a <= b -> b <= 11 ->
  DaysBeforeMonth a leap <= DaysBeforeMonth b leap.
Proof.
  intros Hl Ha Hab Hb.
  assert (Ra : 0 <= a <= 11) by lia. assert (Rb : 0 <= b <= 11) by lia.
  split_month Ra; split_month Rb; unfold DaysBeforeMonth; simpl; lia.
Qed.

(** The order of civil dates (year, then month, then day) is the order of
    day numbers. *)
Lemma civil_order n1 n2 :
  Z.sgn (orElse (YearFromDay n1 - YearFromDay n2)
        (orElse (MonthFromDay n1 - MonthFromDay n2)
                (DateFromDay n1 - DateFromDay n2)))
  = Z.sgn (n1 - n2).
Proof.
  pose proof (YearFromDay_spec n1) as S1. pose proof (YearFromDay_spec n2) as S2.
  pose proof (MakeDay_civil n1) as C1. pose proof (MakeDay_civil n2) as C2.
  pose proof (MonthFromDay_range n1) as M1. pose proof (MonthFromDay_range n2) as M2.
  pose proof (DateFromDay_range n1) as D1. pose proof (DateFromDay_range n2) as D2.
  rewrite MakeDay_in_range in C1, C2 by assumption.
  pose proof (InLeapYear_range (YearFromDay n1)) as L1.
  unfold orElse.
  destruct (Z.eqb_spec (YearFromDay n1 - YearFromDay n2) 0) as [Ey | Ny].
  - assert (E : YearFromDay n1 = YearFromDay n2) by lia. rewrite <- E in *.
    destruct (Z.eqb_spec (MonthFromDay n1 - MonthFromDay n2) 0) as [Em | Nm].
    + assert (E' : MonthFromDay n1 = MonthFromDay n2) by lia. rewrite <- E' in *.
      f_equal. lia.
    + pose proof (DaysBeforeMonth_succ (YearFromDay n1) _ M1) as X1.
      pose proof (DaysBeforeMonth_succ (YearFromDay n1) _ M2) as X2.
      destruct (Z.lt_trichotomy (MonthFromDay n1) (MonthFromDay n2)) as [Lt | [Eq | Gt]];
        [| lia |].
      * destruct (Z.eqb_spec (MonthFromDay n1) 11); [lia |].
        pose proof (DaysBeforeMonth_mono (InLeapYear (YearFromDay n1))
                      (MonthFromDay n1 + 1) (MonthFromDay n2)).
        rewrite (Z.sgn_neg (_ - _)), (Z.sgn_neg (n1 - n2)); lia.
      * destruct (Z.eqb_spec (MonthFromDay n2) 11); [lia |].
        pose proof (DaysBeforeMonth_mono (InLeapYear (YearFromDay n1))
                      (MonthFromDay n2 + 1) (MonthFromDay n1)).
        rewrite (Z.sgn_pos (_ - _)), (Z.sgn_pos (n1 - n2)); lia.
  - destruct (Z.lt_trichotomy (YearFromDay n1) (YearFromDay n2)) as [Lt | [Eq | Gt]];
      [| lia |].
    + pose proof (DayFromYear_mono_le (YearFromDay n1 + 1) (YearFromDay n2)).
      rewrite (Z.sgn_neg (_ - _)), (Z.sgn_neg (n1 - n2)); lia.
    + pose proof (DayFromYear_mono_le (YearFromDay n2 + 1) (YearFromDay n1)).
      rewrite (Z.sgn_pos (_ - _)), (Z.sgn_pos (n1 - n2)); lia.
Qed.

Lemma clock_fields t :
  t = t / 3600000 * 3600000 + (t / 60000) mod 60 * 60000
      + (t / 1000) mod 60 * 1000 + t mod 1000
  /\ 0 <= (t / 60000) mod 60 < 60
  /\ 0 <= (t / 1000) mod 60 < 60
  /\ 0 <= t mod 1000 < 1000.
Proof.
  assert (H1 : t / 3600000 = t / 1000 / 60 / 60).
  { rewrite !Z.div_div by lia. reflexivity. }
  assert (H2 : t / 60000 = t / 1000 / 60).
  { rewrite !Z.div_div by lia. reflexivity. }
  rewrite H1, H2. Z.div_mod_to_equations. lia.
Qed.

(** The order of (hours, minutes, seconds, milliseconds) is the order of the
    time within the day. *)
Lemma clock_order t1 t2 :
  Z.sgn (orElse (t1 / 3600000 - t2 / 3600000)
        (orElse ((t1 / 60000) mod 60 - (t2 / 60000) mod 60)
        (orElse ((t1 / 1000) mod 60 - (t2 / 1000) mod 60)
                (t1 mod 1000 - t2 mod 1000))))
  = Z.sgn (t1 - t2).
Proof.
  destruct (clock_fields t1) as (E1 & A1 & B1 & C1).
  destruct (clock_fields t2) as (E2 & A2 & B2 & C2).
  revert E1 A1 B1 C1 E2 A2 B2 C2.
  generalize (t1 / 3600000) ((t1 / 60000) mod 60) ((t1 / 1000) mod 60) (t1 mod 1000).
  generalize (t2 / 3600000) ((t2 / 60000) mod 60) ((t2 / 1000) mod 60) (t2 mod 1000).
  intros h2 m2 s2 ms2 h1 m1 s1 ms1 E1 A1 B1 C1 E2 A2 B2 C2.
  unfold orElse.
  repeat match goal with
         | |- context [?a =? 0] => destruct (Z.eqb_spec a 0)
         end;
    (destruct (Z.lt_trichotomy t1 t2) as [Lt | [Eq | Gt]];
     [ rewrite (Z.sgn_neg (t1 - t2)) by lia; apply Z.sgn_neg
     | rewrite (Z.sgn_null (t1 - t2)) by lia; apply Z.sgn_null
     | rewrite (Z.sgn_pos (t1 - t2)) by lia; apply Z.sgn_pos ]);
    lia.
Qed.

Lemma compareLocalAscending_sgn a b :
  compareLocalAscending a b = Z.sgn (a - b).
Proof.
  unfold compareLocalAscending.
  set (diff := orElse _ _).
  assert (Hd : Z.sgn diff = Z.sgn (a - b)).
  { subst diff.
    unfold getFullYear, getMonth, getDate, YearFromTime,
      getHours, getMinutes, getSeconds, getMilliseconds.
    pose proof (civil_order (Day a) (Day b)) as Hc.
    pose proof (clock_order (TimeWithinDay a) (TimeWithinDay b)) as Ht.
    pose proof (TimeWithinDay_range a) as Ra.
    pose proof (TimeWithinDay_range b) as Rb.
    pose proof (MakeDate_Day a) as Ea. pose proof (MakeDate_Day b) as Eb.
    unfold MakeDate in Ea, Eb. unfold msPerDay in *.
    revert Hc Ht Ra Rb Ea Eb.
    generalize (YearFromDay (Day a) - YearFromDay (Day b)).
    generalize (MonthFromDay (Day a) - MonthFromDay (Day b)).
    generalize (DateFromDay (Day a) - DateFromDay (Day b)).
    generalize (TimeWithinDay a / 3600000 - TimeWithinDay b / 3600000).
    generalize ((TimeWithinDay a / 60000) mod 60 - (TimeWithinDay b / 60000) mod 60).
    generalize ((TimeWithinDay a / 1000) mod 60 - (TimeWithinDay b / 1000) mod 60).
    generalize (TimeWithinDay a mod 1000 - TimeWithinDay b mod 1000).
    generalize (TimeWithinDay a) (TimeWithinDay b) (Day a) (Day b).
    intros ta tb da db x1 x2 x3 x4 x5 x6 x7.
    unfold orElse.
    repeat match goal with
           | |- context [?e =? 0] => destruct (Z.eqb_spec e 0)
           end; intros; subst; lia. }
  destruct (Z.ltb_spec diff 0); [lia |].
  destruct (diff >? 0) eqn:G; [apply Z.gtb_lt in G; lia |].
  rewrite Z.gtb_ltb in G. apply Z.ltb_ge in G. lia.
Qed.

Lemma differenceInCalendarDays_Day a b :
  differenceInCalendarDays a b = Day a - Day b.
Proof.
  unfold differenceInCalendarDays, startOfDay. rewrite !setHours_midnight.
  unfold MakeDate. rewrite !Z.add_0_r, <- Z.mul_sub_distr_r.
  apply Z.div_mul. discriminate.
Qed.

(** [differenceInDays] counts the full days between two time values: the
    quotient of their distance by the length of a day, rounded towards 0. *)
Lemma differenceInDays_quot a b :
  differenceInDays a b = Z.quot (a - b) msPerDay.
Proof.
  unfold differenceInDays.
  rewrite differenceInCalendarDays_Day.
  replace (getDate a - compareLocalAscending a b * Z.abs (Day a - Day b))
    with (getDate a + - (compareLocalAscending a b * Z.abs (Day a - Day b))) by lia.
  rewrite setDate_shift, !compareLocalAscending_sgn.
  pose proof (TimeWithinDay_range a) as Ra. pose proof (TimeWithinDay_range b) as Rb.
  pose proof (MakeDate_Day a) as Ea. pose proof (MakeDate_Day b) as Eb.
  unfold MakeDate in *. unfold msPerDay in *.
  revert Ra Rb Ea Eb.
  generalize (TimeWithinDay a) (TimeWithinDay b) (Day a) (Day b).
  intros ta tb da db Ra Rb Ea Eb. subst a b.
  set (x := da * 86400000 + ta - (db * 86400000 + tb)).
  assert (Hq : Z.quot x 86400000
               = if da - db >? 0 then da - db - (if ta <? tb then 1 else 0)
                 else if da - db <? 0 then da - db + (if ta >? tb then 1 else 0)
                 else 0).
  { subst x. destruct (Z.gtb_spec (da - db) 0); [| destruct (Z.ltb_spec (da - db) 0)].
    - destruct (Z.ltb_spec ta tb); Z.quot_rem_to_equations; lia.
    - destruct (Z.gtb_spec ta tb); Z.quot_rem_to_equations; lia.
    - Z.quot_rem_to_equations; lia. }
  rewrite Hq. subst x.
  destruct (Z.gtb_spec (da - db) 0) as [Hp | Hnp].
  - rewrite (Z.sgn_pos (_ - _)) by lia. rewrite Z.abs_eq by lia.
    replace ((da + - (1 * (da - db))) * 86400000 + ta - (db * 86400000 + tb))
      with (ta - tb) by lia.
    destruct (Z.ltb_spec ta tb).
    + rewrite (Z.sgn_neg (ta - tb)) by lia. simpl. lia.
    + destruct (Z.eqb_spec (Z.sgn (ta - tb)) (- (1))) as [E | _]; [lia | lia].
  - destruct (Z.ltb_spec (da - db) 0) as [Hn | Hz].
    + rewrite (Z.sgn_neg (_ - _)) by lia. rewrite Z.abs_neq by lia.
      replace ((da + - (-1 * - (da - db))) * 86400000 + ta - (db * 86400000 + tb))
        with (ta - tb) by lia.
      destruct (Z.gtb_spec ta tb).
      * rewrite (Z.sgn_pos (ta - tb)) by lia. simpl. lia.
      * destruct (Z.eqb_spec (Z.sgn (ta - tb)) (- (-1))) as [E | _]; lia.
    + assert (da = db) by lia. subst db.
      rewrite Z.sub_diag. cbn [Z.abs]. rewrite Z.mul_0_r, Z.add_0_r.
      replace (da * 86400000 + ta - (da * 86400000 + tb)) with (ta - tb) by lia.
      change (Z.abs 0) with 0.
      destruct (Z.eqb_spec (Z.sgn (ta - tb)) (- Z.sgn (ta - tb))); lia.
Qed.

(** Between two midnights the offset is the difference of the day numbers. *)
Lemma differenceInDays_midnight a b :
  TimeWithinDay a = 0 -> TimeWithinDay b = 0 ->
  differenceInDays a b = Day a - Day b.
Proof.
  intros Ha Hb. rewrite differenceInDays_quot.
  rewrite <- (MakeDate_Day a), <- (MakeDate_Day b), Ha, Hb at 1.
  unfold MakeDate. rewrite !Z.add_0_r, <- Z.mul_sub_distr_r.
  apply Z.quot_mul. discriminate.
Qed.

(** *** The days to fetch *)

Lemma daysToFetchLoop_spec g : forall today acc day endDate fuel,
  TimeWithinDay day <= TimeWithinDay endDate ->
  Day endDate - Day day + 1 = Z.of_nat g ->
  (g < fuel)%nat ->
  daysToFetchLoop today acc day endDate fuel
  = Some (acc ++ map iso (List.filter (inHorizon today) (daysFrom day g))).
Proof.
  induction g as [| g IH]; intros today acc day endDate fuel Ht Hgap Hfuel;
    (destruct fuel as [| fuel]; [lia |]); cbn [daysToFetchLoop daysFrom List.filter].
  - destruct (Z.leb_spec day endDate) as [Hle | _].
    + apply le_by_day in Hle; [lia | assumption].
    + rewrite app_nil_r. reflexivity.
  - destruct (Z.leb_spec day endDate) as [_ | Hgt].
    + rewrite IH.
      * fold (inHorizon today day). destruct (inHorizon today day).
        -- cbn [map]. rewrite <- app_assoc. reflexivity.
        -- reflexivity.
      * rewrite TimeWithinDay_addDays. assumption.
      * rewrite Day_addDays. lia.
      * lia.
    + exfalso. assert (Hle : day <= endDate) by (apply le_by_day; [assumption | lia]).
      lia.
Qed.

Lemma daysToFetchForView_spec fuel now s :
  (43 <= fuel)%nat ->
  exists w : nat,
    (4 <= w <= 6)%nat /\
    (forall p, exists rows,
        renderCells fuel p now s = Some rows /\
        visibleDays rows = gridDays (currentMonth s) w) /\
    daysToFetchForView fuel now s
    = Some (map iso (List.filter (inHorizon (today now)) (gridDays (currentMonth s) w))).
Proof.
  intros Hfuel.
  destruct (grid_shape (currentMonth s)) as (w & Hw & Hgap & _).
  exists w. split; [exact Hw |]. split.
  - intros p.
    destruct (renderCells_rows fuel p now s) as (w' & Hw' & Hrows & Hgap'); [lia |].
    assert (w' = w) by lia. subst w'.
    eexists. split; [exact Hrows |]. apply visibleDays_weeksFrom.
  - unfold daysToFetchForView. cbv zeta.
    rewrite (daysToFetchLoop_spec (7 * w)); [reflexivity | | lia | lia].
    rewrite TimeWithinDay_gridStart, TimeWithinDay_gridEnd. discriminate.
Qed.

(** *** ISO date strings of nearby days are distinct *)

Lemma length_append (s1 s2 : string) :
  String.length (s1 ++ s2) = (String.length s1 + String.length s2)%nat.
Proof.
  induction s1 as [| c s1 IH]; simpl; [reflexivity |].
  f_equal. exact IH.
Qed.

Lemma append_inj_suffix (s1 s2 t1 t2 : string) :
  String.length t1 = String.length t2 ->
  (s1 ++ t1 = s2 ++ t2)%string -> s1 = s2 /\ t1 = t2.
Proof.
  revert s2. induction s1 as [| c1 s1 IH]; intros s2 Hlen H.
  - destruct s2 as [| c2 s2]; [split; [reflexivity | exact H] |].
    apply (f_equal String.length) in H.
    rewrite !length_append in H. simpl in H. lia.
  - destruct s2 as [| c2 s2].
    + apply (f_equal String.length) in H.
      rewrite !length_append in H. simpl in H. lia.
    + simpl in H. injection H as -> H.
      destruct (IH s2 Hlen H) as [-> ->]. split; reflexivity.
Qed.

Lemma twoDigitChecks_ok : twoDigitChecks = true.
Proof. vm_compute. reflexivity. Qed.

Lemma addLeadingZeros_2 a b :
  0 <= a < 100 -> 0 <= b < 100 ->
  String.length (addLeadingZeros a 2) = 2%nat /\
  (addLeadingZeros a 2 = addLeadingZeros b 2 -> a = b).
Proof.
  intros Ha Hb. pose proof twoDigitChecks_ok as H. unfold twoDigitChecks in H.
  rewrite forallb_forall in H.
  specialize (H (Z.to_nat a)). rewrite Z2Nat.id in H by lia.
  assert (Hin : In (Z.to_nat a) (seq 0 100)) by (apply in_seq; lia).
  apply H in Hin. apply andb_true_iff in Hin. destruct Hin as [Hl Hinj].
  split; [apply Nat.eqb_eq; exact Hl |].
  intros E. rewrite forallb_forall in Hinj.
  specialize (Hinj (Z.to_nat b)). rewrite Z2Nat.id in Hinj by lia.
  assert (Hinb : In (Z.to_nat b) (seq 0 100)) by (apply in_seq; lia).
  apply Hinj in Hinb. rewrite E, String.eqb_refl in Hinb. cbn [implb] in Hinb.
  apply Nat.eqb_eq in Hinb. lia.
Qed.

Lemma DaysBeforeMonth_leap m leap :
  0 <= m <= 11 -> 0 <= leap <= 1 ->
  DaysBeforeMonth m 0 <= DaysBeforeMonth m leap <= DaysBeforeMonth m 0 + 1.
Proof.
  intros Hm Hl. split_month Hm; unfold DaysBeforeMonth; simpl; lia.
Qed.

(** Two days with the same month and day of the month, less than 364 days
    apart, are the same day. *)
Lemma same_month_day_near n1 n2 :
  MonthFromDay n1 = MonthFromDay n2 ->
  DateFromDay n1 = DateFromDay n2 ->
  -364 < n1 - n2 < 364 ->
  n1 = n2.
Proof.
  intros Hm Hd Hnear.
  pose proof (MakeDay_civil n1) as C1. pose proof (MakeDay_civil n2) as C2.
  pose proof (MonthFromDay_range n1) as M1.
  rewrite MakeDay_in_range in C1, C2 by apply MonthFromDay_range.
  rewrite <- Hm, <- Hd in C2.
  pose proof (InLeapYear_range (YearFromDay n1)) as L1.
  pose proof (InLeapYear_range (YearFromDay n2)) as L2.
  pose proof (DaysBeforeMonth_leap (MonthFromDay n1) (InLeapYear (YearFromDay n1)) M1) as B1.
  pose proof (DaysBeforeMonth_leap (MonthFromDay n1) (InLeapYear (YearFromDay n2)) M1) as B2.
  destruct (Z.lt_trichotomy (YearFromDay n1) (YearFromDay n2)) as [Lt | [Eq | Gt]].
  - pose proof (DayFromYear_lt _ _ Lt). lia.
  - rewrite Eq in C1. lia.
  - pose proof (DayFromYear_lt _ _ Gt). lia.
Qed.

Lemma iso_near a b :
  iso a = iso b -> -364 < Day a - Day b < 364 -> Day a = Day b.
Proof.
  unfold iso, format. rewrite !format_yyyy_MM_dd_fields. intros E Hnear.
  pose proof (MonthFromDay_range (Day a)) as Ma.
  pose proof (MonthFromDay_range (Day b)) as Mb.
  pose proof (DateFromDay_range (Day a)) as Da.
  pose proof (DateFromDay_range (Day b)) as Db.
  pose proof (DaysInMonth_range (YearFromDay (Day a)) _ Ma) as La.
  pose proof (DaysInMonth_range (YearFromDay (Day b)) _ Mb) as Lb.
  fold (getMonth a) in Ma, Da, La. fold (getMonth b) in Mb, Db, Lb.
  fold (getDate a) in Da. fold (getDate b) in Db.
  destruct (addLeadingZeros_2 (getMonth a + 1) (getMonth b + 1)) as [Lm Im]; [lia | lia |].
  destruct (addLeadingZeros_2 (getMonth b + 1) (getMonth a + 1)) as [Lm' _]; [lia | lia |].
  destruct (addLeadingZeros_2 (getDate a) (getDate b)) as [Ld Id]; [lia | lia |].
  destruct (addLeadingZeros_2 (getDate b) (getDate a)) as [Ld' _]; [lia | lia |].
  apply append_inj_suffix in E.
  2:{ rewrite !length_append, Lm, Lm', Ld, Ld'. reflexivity. }
  destruct E as [_ E]. injection E as E.
  change (addLeadingZeros (getMonth a + 1) 2 ++ "-" ++ addLeadingZeros (getDate a) 2
          = addLeadingZeros (getMonth b + 1) 2 ++ "-" ++ addLeadingZeros (getDate b) 2)%string
    in E.
  apply append_inj_suffix in E.
  2:{ rewrite !length_append, Ld, Ld'. reflexivity. }
  destruct E as [Em Ed]. injection Ed as Ed.
  change (addLeadingZeros (getDate a) 2 = addLeadingZeros (getDate b) 2) in Ed.
  apply Im in Em. apply Id in Ed.
  apply same_month_day_near; [unfold getMonth in Em; lia | exact Ed | exact Hnear].
Qed.

(** *** Reading an ISO date string back *)

Lemma digitsValue_zero (s : string) :
  digitsValue ("0" ++ s)%string = digitsValue s.
Proof.
  change (digitsValue
            (String (Ascii.Ascii false false false false true true false false) s)
          = digitsValue s).
  unfold digitsValue. cbn [NilEmpty.uint_of_string].
  destruct (NilEmpty.uint_of_string s) as [u |]; reflexivity.
Qed.

Lemma digitsValue_repeatZero k (s : string) :
  digitsValue (repeatZero k ++ s)%string = digitsValue s.
Proof.
  induction k as [| k IH]; [reflexivity |].
  cbn [repeatZero]. change ("0" ++ repeatZero k ++ s)%string
    with ("0" ++ (repeatZero k ++ s))%string.
  rewrite <- IH. apply digitsValue_zero.
Qed.

Lemma digitsValue_string_of_uint u :
  digitsValue (NilZero.string_of_uint u) = Z.of_N (N.of_uint u).
Proof.
  unfold digitsValue, NilZero.string_of_uint.
  destruct u; [reflexivity | rewrite NilEmpty.usu; reflexivity ..].
Qed.

Lemma digitsValue_toString n : 0 <= n -> digitsValue (toString n) = n.
Proof.
  intros Hn. unfold toString.
  rewrite digitsValue_string_of_uint, DecimalN.Unsigned.of_to. lia.
Qed.

(** [addLeadingZeros] of a non-negative number reads back as that number. *)
Lemma digitsValue_addLeadingZeros n k :
  0 <= n -> digitsValue (addLeadingZeros n k) = n.
Proof.
  intros Hn. unfold addLeadingZeros, padStart.
  destruct (Z.ltb_spec n 0) as [Hneg | _]; [lia |].
  rewrite Z.abs_eq by exact Hn.
  change ("" ++ ?x)%string with x.
  rewrite digitsValue_repeatZero. apply digitsValue_toString. exact Hn.
Qed.

Lemma shownYear_eq t :
  shownYear t = if getFullYear t >? 0 then getFullYear t else 1 - getFullYear t.
Proof. reflexivity. Qed.

Lemma shownYear_pos t : 1 <= shownYear t.
Proof.
  rewrite shownYear_eq. destruct (Z.gtb_spec (getFullYear t) 0); lia.
Qed.

Lemma iso_fields t :
  iso t = (addLeadingZeros (shownYear t) 4
           ++ "-" ++ addLeadingZeros (getMonth t + 1) 2
           ++ "-" ++ addLeadingZeros (getDate t) 2)%string.
Proof. unfold iso, format. rewrite format_yyyy_MM_dd_fields. reflexivity. Qed.

Lemma iso_fields_inj a b :
  iso a = iso b ->
  shownYear a = shownYear b /\ getMonth a = getMonth b /\ getDate a = getDate b.
Proof.
  rewrite !iso_fields. intros E.
  pose proof (MonthFromDay_range (Day a)) as Ma.
  pose proof (MonthFromDay_range (Day b)) as Mb.
  pose proof (DateFromDay_range (Day a)) as Da.
  pose proof (DateFromDay_range (Day b)) as Db.
  pose proof (DaysInMonth_range (YearFromDay (Day a)) _ Ma) as La.
  pose proof (DaysInMonth_range (YearFromDay (Day b)) _ Mb) as Lb.
  fold (getMonth a) in Ma, Da, La. fold (getMonth b) in Mb, Db, Lb.
  fold (getDate a) in Da. fold (getDate b) in Db.
  destruct (addLeadingZeros_2 (getMonth a + 1) (getMonth b + 1)) as [Lm Im]; [lia | lia |].
  destruct (addLeadingZeros_2 (getMonth b + 1) (getMonth a + 1)) as [Lm' _]; [lia | lia |].
  destruct (addLeadingZeros_2 (getDate a) (getDate b)) as [Ld Id]; [lia | lia |].
  destruct (addLeadingZeros_2 (getDate b) (getDate a)) as [Ld' _]; [lia | lia |].
  apply append_inj_suffix in E.
  2:{ rewrite !length_append, Lm, Lm', Ld, Ld'. reflexivity. }
  destruct E as [Ey E]. injection E as E.
  change (addLeadingZeros (getMonth a + 1) 2 ++ "-" ++ addLeadingZeros (getDate a) 2
          = addLeadingZeros (getMonth b + 1) 2 ++ "-" ++ addLeadingZeros (getDate b) 2)%string
    in E.
  apply append_inj_suffix in E.
  2:{ rewrite !length_append, Ld, Ld'. reflexivity. }
  destruct E as [Em Ed]. injection Ed as Ed.
  change (addLeadingZeros (getDate a) 2 = addLeadingZeros (getDate b) 2) in Ed.
  apply Im in Em. apply Id in Ed.
  split; [| split; [lia | exact Ed]].
  pose proof (shownYear_pos a). pose proof (shownYear_pos b).
  rewrite <- (digitsValue_addLeadingZeros (shownYear a) 4) by lia.
  rewrite <- (digitsValue_addLeadingZeros (shownYear b) 4) by lia.
  rewrite Ey. reflexivity.
Qed.

Lemma Day_civil t : Day t = MakeDay (getFullYear t) (getMonth t) (getDate t).
Proof. symmetry. apply MakeDay_civil. Qed.

Lemma length_repeatZero k : String.length (repeatZero k) = k.
Proof.
  induction k as [| k IH]; [reflexivity |].
  cbn [repeatZero]. rewrite length_append, IH. reflexivity.
Qed.

Lemma addLeadingZeros_length n k :
  0 <= n -> (k <= String.length (addLeadingZeros n k))%nat.
Proof.
  intros Hn. unfold addLeadingZeros, padStart.
  destruct (Z.ltb_spec n 0) as [Hneg | _]; [lia |].
  change ("" ++ ?x)%string with x.
  rewrite length_append, length_repeatZero. lia.
Qed.

(** A check by computation: the four-digit forms of 0..9999 have length 4. *)
Lemma fourDigitChecks_ok :
  forallb (fun a => (String.length (addLeadingZeros (Z.of_nat a) 4) =? 4)%nat)
          (seq 0 (Z.to_nat 10000)) = true.
Proof. vm_compute. reflexivity. Qed.

Lemma addLeadingZeros_4 y :
  0 <= y <= 9999 -> String.length (addLeadingZeros y 4) = 4%nat.
Proof.
  intros Hy. pose proof fourDigitChecks_ok as H.
  rewrite forallb_forall in H.
  specialize (H (Z.to_nat y)). rewrite Z2Nat.id in H by lia.
  apply Nat.eqb_eq, H, in_seq. lia.
Qed.

(** The string of a date is year, month and day of the month in decimal
    digits, the month counted from 1, month and day on two digits, the
    year on four or more, with a hyphen between them. *)
Lemma iso_shape (t : Date) :
  exists Y M D : string,
    format t yyyy_MM_dd = (Y ++ "-" ++ M ++ "-" ++ D)%string /\
    digitsValue Y = shownYear t /\ (4 <= String.length Y)%nat /\
    digitsValue M = getMonth t + 1 /\ String.length M = 2%nat /\
    digitsValue D = getDate t /\ String.length D = 2%nat.
Proof.
  pose proof (shownYear_pos t) as Hy.
  pose proof (MonthFromDay_range (Day t)) as Hm. fold (getMonth t) in Hm.
  pose proof (DateFromDay_range (Day t)) as Hd.
  pose proof (DaysInMonth_range (YearFromDay (Day t)) _ (MonthFromDay_range (Day t))) as Hl.
  fold (getDate t) in Hd.
  exists (addLeadingZeros (shownYear t) 4), (addLeadingZeros (getMonth t + 1) 2),
         (addLeadingZeros (getDate t) 2).
  split; [apply iso_fields |].
  rewrite !digitsValue_addLeadingZeros by lia.
  destruct (addLeadingZeros_2 (getMonth t + 1) (getMonth t + 1)) as [Lm _]; [lia | lia |].
  destruct (addLeadingZeros_2 (getDate t) (getDate t)) as [Ld _]; [lia | lia |].
  split; [reflexivity |]. split; [apply addLeadingZeros_length; lia |].
  split; [reflexivity |]. split; [exact Lm |]. split; [reflexivity | exact Ld].
Qed.

Lemma iso_length (t : Date) :
  0 < getFullYear t <= 9999 -> String.length (format t yyyy_MM_dd) = 10%nat.
Proof.
  intros Hy.
  pose proof (MonthFromDay_range (Day t)) as Hm. fold (getMonth t) in Hm.
  pose proof (DateFromDay_range (Day t)) as Hd.
  pose proof (DaysInMonth_range (YearFromDay (Day t)) _ (MonthFromDay_range (Day t))) as Hl.
  fold (getDate t) in Hd.
  destruct (addLeadingZeros_2 (getMonth t + 1) (getMonth t + 1)) as [Lm _]; [lia | lia |].
  destruct (addLeadingZeros_2 (getDate t) (getDate t)) as [Ld _]; [lia | lia |].
  change (format t yyyy_MM_dd) with (iso t).
  rewrite iso_fields, !length_append, Lm, Ld, addLeadingZeros_4.
  - reflexivity.
  - rewrite shownYear_eq. destruct (Z.gtb_spec (getFullYear t) 0); lia.
Qed.

Lemma shownYear_year t : 0 < getFullYear t -> shownYear t = getFullYear t.
Proof.
  intros H. rewrite shownYear_eq. destruct (Z.gtb_spec (getFullYear t) 0); lia.
Qed.

(** *** Confirmation *)

(** C6. The confirm button is disabled, and its click calls nothing, while no
    date is selected.  With a date selected its click calls [onConfirm] once,
    with that date formatted ['yyyy-MM-dd']: for every date the string is the
    year on four or more digits, the month (counted from 1) and the day of
    the month on two digits each, with hyphens between them, ten characters
    for the years 1 to 9999 (10 May 2024 gives "2024-05-10").  The call is
    the same whether [lang] is ['it'] or ['en']. *)
Theorem confirm_payload (tr : Trip) (now : Date) (s : State) (sel : Date) :
  (selectedDate s = None ->
     confirmDisabled s = true /\
     forall p, handle p now s ConfirmClick = (s, [])) /\
  (selectedDate s = Some sel ->
     confirmDisabled s = false /\
     forall p, handle p now s ConfirmClick = (s, [onConfirm (format sel yyyy_MM_dd)])) /\
  (exists Y M D : string,
     format sel yyyy_MM_dd = (Y ++ "-" ++ M ++ "-" ++ D)%string /\
     digitsValue Y = shownYear sel /\ (4 <= String.length Y)%nat /\
     digitsValue M = getMonth sel + 1 /\ String.length M = 2%nat /\
     digitsValue D = getDate sel /\ String.length D = 2%nat) /\
  (0 < getFullYear sel -> shownYear sel = getFullYear sel) /\
  (0 < getFullYear sel <= 9999 ->
     String.length (format sel yyyy_MM_dd) = 10%nat) /\
  (getFullYear sel = 2024 -> getMonth sel = 4 -> getDate sel = 10 ->
     format sel yyyy_MM_dd = "2024-05-10") /\
  handle {| trip := tr; lang := lang_it |} now s ConfirmClick
  = handle {| trip := tr; lang := lang_en |} now s ConfirmClick /\
  (forall locale, formatWith locale sel yyyy_MM_dd = format sel yyyy_MM_dd).
Proof.
  split; [| split; [| split; [| split; [| split; [| split; [| split]]]]]].
  - intros H. unfold confirmDisabled. cbn [handle]. unfold confirmDisabled.
    rewrite H. split; reflexivity.
  - intros H. unfold confirmDisabled. cbn [handle].
    unfold confirmDisabled, confirmOnClick. rewrite H. split; reflexivity.
  - apply iso_shape.
  - apply shownYear_year.
  - apply iso_length.
  - intros Hy Hm Hd. unfold format. rewrite format_yyyy_MM_dd_fields, Hy, Hm, Hd.
    reflexivity.
  - reflexivity.
  - intros locale. apply format_yyyy_MM_dd_any_locale.
Qed.

Lemma confirm_payload_witness :
  handle (summerProps lang_it) may1st_1am may10_selected ConfirmClick
  = (may10_selected, [onConfirm "2024-05-10"])
  /\ handle (summerProps lang_en) may1st_1am may10_selected ConfirmClick
     = (may10_selected, [onConfirm "2024-05-10"])
  /\ String.length (format (mkDate 2024 4 10) yyyy_MM_dd) = 10%nat.
Proof.
  pose proof (confirm_payload summerTrip may1st_1am may10_selected (mkDate 2024 4 10))
    as (_ & Hsome & _ & _ & Hlen & Hfmt & _).
  destruct (Hsome eq_refl) as [_ Hcall].
  rewrite (Hfmt eq_refl eq_refl eq_refl) in Hcall.
  split; [apply Hcall |]. split; [apply Hcall |].
  apply Hlen. vm_compute. split; [reflexivity | discriminate].
Defined.

(** What is displayed does depend on [lang]: the footer shows the selected
    date with the month name of the locale. *)
Example footerDate_by_lang :
  footerDate (summerProps lang_it) may10_selected = "10 maggio 2024" /\
  footerDate (summerProps lang_en) may10_selected = "10 May 2024".
Proof. vm_compute. split; reflexivity. Qed.

(** C7, as the code has it.  The click on the confirm button leaves the
    state as it is and calls nothing but [onConfirm]: with a date selected it
    makes exactly one call, [onConfirm] with the ['yyyy-MM-dd'] string of that
    date (year, month counted from 1 and day of the month in decimal digits,
    month and day on two digits); with none selected it makes no call.  Of
    all events only the click on the close button calls [onClose]. *)
Theorem confirm_does_not_close (p : Props) (now : Date) (s : State) :
  fst (handle p now s ConfirmClick) = s /\
  Forall (fun c => exists date, c = onConfirm date) (snd (handle p now s ConfirmClick)) /\
  (selectedDate s = None -> snd (handle p now s ConfirmClick) = []) /\
  (forall sel, selectedDate s = Some sel ->
     snd (handle p now s ConfirmClick) = [onConfirm (format sel yyyy_MM_dd)] /\
     exists Y M D : string,
       format sel yyyy_MM_dd = (Y ++ "-" ++ M ++ "-" ++ D)%string /\
       digitsValue Y = shownYear sel /\ (4 <= String.length Y)%nat /\
       digitsValue M = getMonth sel + 1 /\ String.length M = 2%nat /\
       digitsValue D = getDate sel /\ String.length D = 2%nat) /\
  (forall ev, In onClose (snd (handle p now s ev)) <-> ev = CloseClick).
Proof.
  split; [reflexivity |]. split; [| split; [| split]].
  - cbn [handle snd]. unfold confirmOnClick.
    destruct (confirmDisabled s); [constructor |].
    destruct (selectedDate s) as [sel |]; repeat constructor. eauto.
  - intros H. cbn [handle snd]. unfold confirmDisabled. rewrite H. reflexivity.
  - intros sel H. split; [| apply iso_shape].
    cbn [handle snd]. unfold confirmDisabled, confirmOnClick. rewrite H. reflexivity.
  - intros ev. destruct ev as [date | | | | | nd |]; cbn [handle snd]; split;
      try (intros []; fail); try discriminate.
    + unfold confirmOnClick. destruct (confirmDisabled s); [intros [] |].
      destruct (selectedDate s); [intros [H | []]; discriminate | intros []].
    + reflexivity.
    + left. reflexivity.
Qed.

Lemma confirm_does_not_close_witness :
  snd (handle (summerProps lang_it) may1st_1am may10_selected ConfirmClick)
  = [onConfirm (format (mkDate 2024 4 10) yyyy_MM_dd)].
Proof.
  destruct (proj1 (proj2 (proj2 (proj2 (confirm_does_not_close (summerProps lang_it)
                                          may1st_1am may10_selected))))
              (mkDate 2024 4 10) eq_refl) as [Hcall _].
  exact Hcall.
Defined.

(** With 10 May 2024 selected, the click on the confirm button makes exactly
    one call, [onConfirm "2024-05-10"]: [onClose] is not called. *)
Lemma confirm_click_calls_only_onConfirm :
  snd (handle (summerProps lang_it) may1st_1am may10_selected ConfirmClick)
  = [onConfirm "2024-05-10"]
  /\ ~ In onClose
        (snd (handle (summerProps lang_it) may1st_1am may10_selected ConfirmClick)).
Proof.
  split; [vm_compute; reflexivity |].
  intros [H | []]. discriminate.
Qed.

(** *** The days of the grid and the forecast horizon *)

Lemma In_daysFrom t day n :
  In t (daysFrom day n) <-> exists i, 0 <= i < Z.of_nat n /\ t = addDays day i.
Proof. rewrite <- list_elem_of_In. apply elem_of_daysFrom. Qed.

Lemma midnight_eq a b :
  TimeWithinDay a = 0 -> TimeWithinDay b = 0 -> Day a = Day b -> a = b.
Proof.
  intros Ha Hb E. rewrite <- (MakeDate_Day a), <- (MakeDate_Day b), Ha, Hb, E.
  reflexivity.
Qed.

Lemma In_gridDays cm w day :
  In day (gridDays cm w) ->
  TimeWithinDay day = 0 /\
  Day (startOfWeek (startOfMonth cm) 1) <= Day day
    < Day (startOfWeek (startOfMonth cm) 1) + 7 * Z.of_nat w.
Proof.
  unfold gridDays. rewrite In_daysFrom. intros (i & Hi & ->).
  rewrite TimeWithinDay_addDays, Day_addDays, TimeWithinDay_gridStart.
  split; [reflexivity | lia].
Qed.

Lemma NoDup_map_in {A B} (f : A -> B) (l : list A) :
  (forall x y, In x l -> In y l -> f x = f y -> x = y) ->
  List.NoDup l -> List.NoDup (map f l).
Proof.
  intros Hinj Hnd. induction Hnd as [| x l Hx Hnd IH]; cbn [map]; constructor.
  - rewrite in_map_iff. intros (y & Hy & Hin).
    apply Hx.
    rewrite (Hinj x y); [exact Hin | left; reflexivity | right; exact Hin | congruence].
  - apply IH. intros a b Ha Hb. apply Hinj; right; assumption.
Qed.

Lemma NoDup_daysFrom day n : List.NoDup (daysFrom day n).
Proof.
  revert day. induction n as [| n IH]; intros day; cbn [daysFrom]; constructor.
  - rewrite In_daysFrom. intros (i & Hi & E).
    apply (f_equal Day) in E. rewrite !Day_addDays in E. lia.
  - apply IH.
Qed.

(** Within one grid the ISO date string determines the day. *)
Lemma iso_inj_grid cm w a b :
  (w <= 6)%nat -> In a (gridDays cm w) -> In b (gridDays cm w) ->
  iso a = iso b -> a = b.
Proof.
  intros Hw Ha Hb E.
  apply In_gridDays in Ha. apply In_gridDays in Hb.
  destruct Ha as [Ta Ra], Hb as [Tb Rb].
  apply midnight_eq; [assumption | assumption |].
  apply iso_near; [exact E | lia].
Qed.

Lemma inHorizon_midnight now day :
  TimeWithinDay day = 0 ->
  (inHorizon (today now) day = true <-> 0 <= Day day - Day now <= 13).
Proof.
  intros Hd. unfold inHorizon, today.
  rewrite differenceInDays_midnight, Day_startOfDay
    by (assumption || apply TimeWithinDay_startOfDay).
  rewrite andb_true_iff, Z.geb_le, Z.leb_le. reflexivity.
Qed.

(** At most 14 days of a grid are within the horizon. *)
Lemma horizon_length cm w now :
  (length (List.filter (inHorizon (today now)) (gridDays cm w)) <= 14)%nat.
Proof.
  set (l := List.filter (inHorizon (today now)) (gridDays cm w)).
  assert (Hl : forall d, In d l -> TimeWithinDay d = 0 /\ 0 <= Day d - Day now <= 13).
  { intros d Hd. apply filter_In in Hd. destruct Hd as [Hg Hh].
    apply In_gridDays in Hg. destruct Hg as [Td _].
    split; [exact Td |]. apply inHorizon_midnight; assumption. }
  assert (Hnd : List.NoDup (map Day l)).
  { apply NoDup_map_in.
    - intros x y Hx Hy E. apply Hl in Hx. apply Hl in Hy.
      apply midnight_eq; tauto.
    - apply List.NoDup_filter. apply NoDup_daysFrom. }
  rewrite <- (length_map Day l).
  replace 14%nat with (length (map (fun i => Day now + Z.of_nat i) (seq 0 14)))
    by reflexivity.
  apply NoDup_incl_length; [exact Hnd |].
  intros n Hn. apply in_map_iff in Hn. destruct Hn as (d & <- & Hd).
  apply Hl in Hd. destruct Hd as [_ Hd].
  apply in_map_iff. exists (Z.to_nat (Day d - Day now)).
  split; [lia | apply in_seq; lia].
Qed.

(** *** The fetches of a cycle *)

Section Callbacks.
Variable fetch : WeatherService.
Variable p : Props.
Variable s : State.

Lemma fetchCallback_cases acc dateStr :
  fetchCallback fetch p s acc dateStr
  = if cached s dateStr then acc
    else {| calls := calls acc ++ [dateStr];
            newWeatherData :=
              match fetchFor fetch p dateStr with
              | Resolved (Some w) => <[dateStr := w]> (newWeatherData acc)
              | _ => newWeatherData acc
              end;
            rejected := rejected acc || isRejected (fetchFor fetch p dateStr) |}.
Proof.
  unfold fetchCallback, cached, fetchFor.
  destruct (weatherMap s !! dateStr); [reflexivity |].
  destruct (fetch _ _ dateStr) as [[w |] |]; cbn [isRejected];
    rewrite ?orb_false_r, ?orb_true_r; reflexivity.
Qed.

Lemma foldl_calls l : forall acc,
  calls (foldl (fetchCallback fetch p s) acc l)
  = calls acc ++ List.filter (fun ds => negb (cached s ds)) l.
Proof.
  induction l as [| x l IH]; intros acc; cbn [foldl List.filter].
  - rewrite app_nil_r. reflexivity.
  - rewrite IH, fetchCallback_cases. destruct (cached s x); cbn [negb calls].
    + reflexivity.
    + rewrite <- app_assoc. reflexivity.
Qed.

Lemma foldl_rejected l : forall acc,
  rejected (foldl (fetchCallback fetch p s) acc l)
  = rejected acc
    || existsb (fun ds => negb (cached s ds) && isRejected (fetchFor fetch p ds)) l.
Proof.
  induction l as [| x l IH]; intros acc; cbn [foldl existsb].
  - rewrite orb_false_r. reflexivity.
  - rewrite IH, fetchCallback_cases. destruct (cached s x); cbn [negb rejected andb].
    + reflexivity.
    + rewrite orb_assoc. reflexivity.
Qed.

(** A date that is cached, or whose fetch brings no data, or that is not
    among the days to fetch, is not written by the callbacks. *)
Lemma foldl_data_kept k l : forall acc,
  (~ In k l \/ cached s k = true \/
   (forall w, fetchFor fetch p k <> Resolved (Some w))) ->
  newWeatherData (foldl (fetchCallback fetch p s) acc l) !! k
  = newWeatherData acc !! k.
Proof.
  induction l as [| x l IH]; intros acc H; cbn [foldl]; [reflexivity |].
  rewrite IH.
  - rewrite fetchCallback_cases. destruct (cached s x) eqn:Cx; [reflexivity |].
    cbn [newWeatherData].
    destruct (fetchFor fetch p x) as [[w |] |] eqn:Fx; try reflexivity.
    apply lookup_insert_ne. intros ->.
    destruct H as [H | [H | H]].
    + apply H. left. reflexivity.
    + congruence.
    + apply (H w). exact Fx.
  - destruct H as [H | [H | H]]; [left | right; left | right; right]; try assumption.
    intros Hin. apply H. right. exact Hin.
Qed.

(** A date to fetch that is not cached and whose fetch brings data is
    written with that data. *)
Lemma foldl_data_written k w l : forall acc,
  In k l -> cached s k = false -> fetchFor fetch p k = Resolved (Some w) ->
  newWeatherData (foldl (fetchCallback fetch p s) acc l) !! k = Some w.
Proof.
  induction l as [| x l IH]; intros acc Hin Hc Hf; [destruct Hin |].
  cbn [foldl].
  destruct (in_dec String.string_dec k l) as [Hl | Hl].
  - apply IH; assumption.
  - rewrite foldl_data_kept by (left; exact Hl).
    destruct Hin as [-> | Hin]; [| contradiction].
    rewrite fetchCallback_cases, Hc. cbn [newWeatherData]. rewrite Hf.
    apply lookup_insert_eq.
Qed.

End Callbacks.

Lemma loadWeatherForView_cycleOn fuel fetch p now s l :
  daysToFetchForView fuel now s = Some l ->
  loadWeatherForView fuel fetch p now s = Some (cycleOn fetch p s l).
Proof.
  intros H. unfold loadWeatherForView. rewrite H. unfold cycleOn.
  destruct l as [| x l]; [reflexivity |].
  cbn [length Nat.eqb].
  destruct (rejected _); [reflexivity |].
  destruct (0 <? size _)%nat; reflexivity.
Qed.

Lemma In_gridDays_intro cm w day :
  TimeWithinDay day = 0 ->
  Day (startOfWeek (startOfMonth cm) 1) <= Day day
    < Day (startOfWeek (startOfMonth cm) 1) + 7 * Z.of_nat w ->
  In day (gridDays cm w).
Proof.
  intros Td Hd. unfold gridDays. apply In_daysFrom.
  exists (Day day - Day (startOfWeek (startOfMonth cm) 1)). split; [lia |].
  apply midnight_eq.
  - exact Td.
  - rewrite TimeWithinDay_addDays. apply TimeWithinDay_gridStart.
  - rewrite Day_addDays. lia.
Qed.

Lemma inHorizon_offset today day :
  inHorizon today day = true <-> 0 <= differenceInDays day today <= 13.
Proof.
  unfold inHorizon. rewrite andb_true_iff, Z.geb_le, Z.leb_le. reflexivity.
Qed.

(** What a prefetch cycle works on, for every month on view: the grid, the
    days to fetch among its days, and the cycle run on them. *)
Lemma prefetch_view fuel now s :
  (43 <= fuel)%nat ->
  exists w : nat,
    (4 <= w <= 6)%nat /\
    (forall p, exists rows,
        renderCells fuel p now s = Some rows /\
        visibleDays rows = gridDays (currentMonth s) w) /\
    daysToFetchForView fuel now s
    = Some (map iso (List.filter (inHorizon (today now)) (gridDays (currentMonth s) w))) /\
    (forall fetch p,
        loadWeatherForView fuel fetch p now s
        = Some (cycleOn fetch p s
                  (map iso (List.filter (inHorizon (today now))
                                        (gridDays (currentMonth s) w))))).
Proof.
  intros Hfuel.
  destruct (daysToFetchForView_spec fuel now s Hfuel) as (w & Hw & Hrows & Hdays).
  exists w. repeat split; try assumption; try lia.
  intros fetch p. apply loadWeatherForView_cycleOn. exact Hdays.
Qed.

Lemma In_daysToFetch cm w now day :
  (w <= 6)%nat -> In day (gridDays cm w) ->
  (In (iso day) (map iso (List.filter (inHorizon (today now)) (gridDays cm w)))
   <-> 0 <= differenceInDays day (today now) <= 13).
Proof.
  intros Hw Hday. rewrite <- inHorizon_offset. split.
  - intros H. apply in_map_iff in H. destruct H as (d & E & Hd).
    apply filter_In in Hd. destruct Hd as [Hg Hh].
    rewrite <- (iso_inj_grid cm w d day Hw Hg Hday E). exact Hh.
  - intros H. apply in_map. apply filter_In. split; assumption.
Qed.

Lemma fetched_cycleOn fetch p s l :
  fetched (cycleOn fetch p s l) = List.filter (fun ds => negb (cached s ds)) l.
Proof. unfold cycleOn. cbn [fetched]. rewrite foldl_calls. reflexivity. Qed.

Lemma threw_cycleOn fetch p s l :
  threw (cycleOn fetch p s l)
  = existsb (fun ds => negb (cached s ds) && isRejected (fetchFor fetch p ds)) l.
Proof. unfold cycleOn. cbn [threw]. rewrite foldl_rejected. reflexivity. Qed.

Lemma cached_false s ds : cached s ds = false <-> weatherMap s !! ds = None.
Proof. unfold cached. destruct (weatherMap s !! ds); split; congruence. Qed.

Lemma In_fetched fetch p s l ds :
  In ds (fetched (cycleOn fetch p s l)) <-> In ds l /\ weatherMap s !! ds = None.
Proof.
  rewrite fetched_cycleOn, filter_In, negb_true_iff, cached_false. reflexivity.
Qed.

(** The cache after a cycle that did not reject has settled. *)
Lemma settle_cycleOn_lookup fetch p s l k :
  threw (cycleOn fetch p s l) = false ->
  weatherMap (settle (cycleOn fetch p s l) s) !! k
  = match newWeatherData
            (foldl (fetchCallback fetch p s)
                   {| calls := []; newWeatherData := ∅; rejected := false |} l) !! k with
    | Some w => Some w
    | None => weatherMap s !! k
    end.
Proof.
  unfold settle, cycleOn. cbn [threw update]. intros ->.
  destruct (0 <? size _)%nat eqn:Hs.
  - cbn [setWeatherMap weatherMap]. apply mergeWeather_lookup.
  - apply Nat.ltb_ge in Hs.
    assert (Hz : size (newWeatherData
              (foldl (fetchCallback fetch p s)
                 {| calls := []; newWeatherData := ∅; rejected := false |} l)) = 0%nat)
      by lia.
    apply map_size_empty_inv in Hz. rewrite Hz, lookup_empty. reflexivity.
Qed.

(** *** The fetch horizon *)

Lemma may_2024_days :
  Day (mkDate 2024 4 1) = 19844 /\
  MakeDay 2024 4 1 = 19844 /\
  DaysInMonth 2024 4 = 31 /\
  Day (mkDate 2024 4 10) = 19853 /\
  Day (mkDate 2024 4 20) = 19863 /\
  TimeWithinDay (mkDate 2024 4 10) = 0 /\
  TimeWithinDay (mkDate 2024 4 20) = 0 /\
  iso (mkDate 2024 4 10) = "2024-05-10" /\
  iso (mkDate 2024 4 20) = "2024-05-20".
Proof. vm_compute. repeat split; reflexivity. Qed.

(** C4. In a prefetch cycle a day of the grid is among the days to fetch
    exactly when its offset from today is between 0 and 13, and it is fetched
    exactly when, besides, it is not in the cache; at most 14 days are to be
    fetched, so at most 14 fetches are issued.  With today 1 May 2024 the
    string "2024-05-20" is never fetched; with May 2024 on view, 20 May
    (offset 19) and 10 May (offset 9) are both days of the grid, and 10 May is
    fetched when it is not cached.  ([iso day] is
    [format(day, 'yyyy-MM-dd')].) *)
Theorem fetch_horizon (fuel : nat) (fetch : WeatherService) (p : Props)
  (now : Date) (s : State) :
  (43 <= fuel)%nat ->
  exists (rows : list (list Cell)) (daysToFetch : list string) (c : Cycle),
    renderCells fuel p now s = Some rows /\
    daysToFetchForView fuel now s = Some daysToFetch /\
    loadWeatherForView fuel fetch p now s = Some c /\
    (forall day, In day (visibleDays rows) ->
       differenceInDays day (today now) = Day day - Day now /\
       (In (iso day) daysToFetch <-> 0 <= differenceInDays day (today now) <= 13) /\
       (In (iso day) (fetched c) <->
          0 <= differenceInDays day (today now) <= 13 /\
          weatherMap s !! iso day = None)) /\
    (length (fetched c) <= length daysToFetch)%nat /\
    (length daysToFetch <= 14)%nat /\
    (Day now = Day (mkDate 2024 4 1) ->
       ~ In "2024-05-20" daysToFetch /\
       ~ In "2024-05-20" (fetched c) /\
       (getFullYear (currentMonth s) = 2024 -> getMonth (currentMonth s) = 4 ->
          In (mkDate 2024 4 20) (visibleDays rows) /\
          differenceInDays (mkDate 2024 4 20) (today now) = 19 /\
          In (mkDate 2024 4 10) (visibleDays rows) /\
          differenceInDays (mkDate 2024 4 10) (today now) = 9 /\
          In "2024-05-10" daysToFetch /\
          (weatherMap s !! "2024-05-10" = None -> In "2024-05-10" (fetched c)))).
Proof.
  intros Hfuel.
  destruct (prefetch_view fuel now s Hfuel) as (w & Hw & Hrows & Hdays & Hload).
  destruct (Hrows p) as (rows & Hr & Hv).
  exists rows. eexists. eexists.
  split; [exact Hr |]. split; [exact Hdays |]. split; [apply Hload |].
  rewrite Hv.
  assert (Hoff : forall day, In day (gridDays (currentMonth s) w) ->
            differenceInDays day (today now) = Day day - Day now).
  { intros day Hday. apply In_gridDays in Hday. destruct Hday as [Td _].
    unfold today. rewrite differenceInDays_midnight, Day_startOfDay
      by (assumption || apply TimeWithinDay_startOfDay). reflexivity. }
  assert (Hcand : forall day, In day (gridDays (currentMonth s) w) ->
            (In (iso day)
                (map iso (List.filter (inHorizon (today now))
                                      (gridDays (currentMonth s) w)))
             <-> 0 <= differenceInDays day (today now) <= 13)).
  { intros day Hday. apply In_daysToFetch; [lia | exact Hday]. }
  assert (Hlen : (length (map iso (List.filter (inHorizon (today now))
                                    (gridDays (currentMonth s) w))) <= 14)%nat).
  { rewrite length_map. apply horizon_length. }
  assert (H20 : Day now = Day (mkDate 2024 4 1) ->
            ~ In "2024-05-20"
                 (map iso (List.filter (inHorizon (today now))
                                       (gridDays (currentMonth s) w)))).
  { intros Hnow Hin. apply in_map_iff in Hin. destruct Hin as (d & E & Hd).
    apply filter_In in Hd. destruct Hd as [Hg Hh].
    pose proof (Hoff d Hg) as Ho. apply inHorizon_offset in Hh. rewrite Ho in Hh.
    destruct may_2024_days as (D1 & _ & _ & _ & D20 & _ & _ & _ & I20).
    rewrite <- I20 in E. apply iso_near in E; lia. }
  split.
  { intros day Hday. split; [apply Hoff; exact Hday |].
    split; [apply Hcand; exact Hday |].
    rewrite In_fetched, (Hcand day Hday). reflexivity. }
  split.
  { rewrite fetched_cycleOn. apply List.filter_length_le. }
  split; [exact Hlen |].
  intros Hnow. split; [apply H20; exact Hnow |].
  split.
  { rewrite In_fetched. intros [Hin _]. apply (H20 Hnow Hin). }
  intros Hy Hm.
  destruct may_2024_days as (D1 & F1 & L31 & D10 & D20 & T10 & T20 & I10 & I20).
  destruct (grid_shape (currentMonth s)) as (w' & Hw' & Hgap & HS & HE).
  destruct (daysToFetchForView_spec fuel now s Hfuel) as (w2 & _ & _ & _).
  assert (Hgw : Day (endOfWeek (endOfMonth (startOfMonth (currentMonth s))) 1)
                - Day (startOfWeek (startOfMonth (currentMonth s)) 1) + 1
                = 7 * Z.of_nat w).
  { destruct (renderCells_rows fuel p now s) as (w3 & _ & Hr3 & Hg3); [lia |].
    rewrite Hr3 in Hr. injection Hr as <-.
    rewrite visibleDays_weeksFrom in Hv. unfold gridDays in Hv.
    apply (f_equal (@length Date)) in Hv. rewrite !length_daysFrom in Hv.
    replace w with w3 by lia. exact Hg3. }
  rewrite monthLength_eq, Hy, Hm, L31 in HE.
  rewrite Hy, Hm, F1 in HS.
  assert (E31 : MakeDay 2024 4 31 = 19874) by (vm_compute; reflexivity).
  rewrite E31 in HE.
  assert (G20 : In (mkDate 2024 4 20) (gridDays (currentMonth s) w)).
  { apply In_gridDays_intro; [exact T20 | lia]. }
  assert (G10 : In (mkDate 2024 4 10) (gridDays (currentMonth s) w)).
  { apply In_gridDays_intro; [exact T10 | lia]. }
  assert (O10 : differenceInDays (mkDate 2024 4 10) (today now) = 9).
  { rewrite (Hoff _ G10). lia. }
  assert (C10 : In "2024-05-10"
                   (map iso (List.filter (inHorizon (today now))
                                         (gridDays (currentMonth s) w)))).
  { rewrite <- I10. apply Hcand; [exact G10 | lia]. }
  split; [exact G20 |].
  split; [rewrite (Hoff _ G20); lia |].
  split; [exact G10 |].
  split; [exact O10 |].
  split; [exact C10 |].
  intros Hnc. apply In_fetched. split; assumption.
Qed.

Lemma fetch_horizon_witness :
  exists c : Cycle,
    loadWeatherForView 43 alwaysSunny (summerProps lang_it) may1st_1am
                       (initialState may1st_1am) = Some c /\
    In "2024-05-10" (fetched c) /\
    (length (fetched c) <= 14)%nat.
Proof.
  destruct (fetch_horizon 43 alwaysSunny (summerProps lang_it) may1st_1am
              (initialState may1st_1am))
    as (rows & l & c & _ & _ & Hc & _ & Hlen1 & Hlen2 & Hex); [lia |].
  exists c. split; [exact Hc |]. split; [| lia].
  destruct Hex as (_ & _ & Hmay); [vm_compute; reflexivity |].
  destruct Hmay as (_ & _ & _ & _ & _ & Hfetch);
    [vm_compute; reflexivity | vm_compute; reflexivity |].
  apply Hfetch. reflexivity.
Defined.

(** *** The cache and the fetches *)

Lemma NoDup_daysToFetch cm w now :
  (w <= 6)%nat ->
  List.NoDup (map iso (List.filter (inHorizon (today now)) (gridDays cm w))).
Proof.
  intros Hw. apply NoDup_map_in.
  - intros x y Hx Hy. apply filter_In in Hx. apply filter_In in Hy.
    apply (iso_inj_grid cm w); tauto.
  - apply List.NoDup_filter. apply NoDup_daysFrom.
Qed.

(** C8. A cycle calls the weather service for no date that is in the
    cache and exactly once for every date among its days to fetch that is
    not.  A date whose fetch brought data in a cycle that settled is in the
    cache afterwards, so a later cycle, on any state that still has the
    entries of that cache, does not fetch it: over the two cycles the
    service is called for it exactly once.  A cycle all of whose days to
    fetch are cached issues no fetch and leaves the state as it is. *)
Theorem cache_skips_fetch (fuel : nat) (fetch : WeatherService) (p : Props)
  (now : Date) (s : State) :
  (43 <= fuel)%nat ->
  exists (daysToFetch : list string) (c : Cycle),
    daysToFetchForView fuel now s = Some daysToFetch /\
    loadWeatherForView fuel fetch p now s = Some c /\
    Forall (fun ds => weatherMap s !! ds = None) (fetched c) /\
    List.NoDup (fetched c) /\
    (forall ds, is_Some (weatherMap s !! ds) ->
       count_occ String.string_dec (fetched c) ds = 0%nat) /\
    (forall ds, In ds daysToFetch -> weatherMap s !! ds = None ->
       count_occ String.string_dec (fetched c) ds = 1%nat) /\
    ((forall ds, In ds daysToFetch -> is_Some (weatherMap s !! ds)) ->
       fetched c = [] /\ settle c s = s) /\
    (forall ds w fetch2 now2 s2 c2,
       In ds daysToFetch ->
       weatherMap s !! ds = None ->
       fetchFor fetch p ds = Resolved (Some w) ->
       threw c = false ->
       (forall k, is_Some (weatherMap (settle c s) !! k) ->
                  is_Some (weatherMap s2 !! k)) ->
       loadWeatherForView fuel fetch2 p now2 s2 = Some c2 ->
       weatherMap (settle c s) !! ds = Some w /\
       ~ In ds (fetched c2) /\
       count_occ String.string_dec (fetched c) ds = 1%nat /\
       count_occ String.string_dec (fetched c2) ds = 0%nat /\
       count_occ String.string_dec (fetched c ++ fetched c2) ds = 1%nat).
Proof.
  intros Hfuel.
  destruct (prefetch_view fuel now s Hfuel) as (w & Hw & _ & Hdays & Hload).
  eexists. eexists. split; [exact Hdays |]. split; [apply Hload |].
  set (l := map iso (List.filter (inHorizon (today now)) (gridDays (currentMonth s) w))).
  assert (Hnd : List.NoDup (fetched (cycleOn fetch p s l))).
  { rewrite fetched_cycleOn. apply List.NoDup_filter.
    apply NoDup_daysToFetch. lia. }
  assert (Hone : forall ds, In ds l -> weatherMap s !! ds = None ->
            count_occ String.string_dec (fetched (cycleOn fetch p s l)) ds = 1%nat).
  { intros ds Hin Hc. apply NoDup_count_occ'; [exact Hnd |].
    apply In_fetched. split; assumption. }
  split.
  { apply Forall_forall. intros ds Hds. apply list_elem_of_In in Hds.
    apply In_fetched in Hds. tauto. }
  split; [exact Hnd |].
  split.
  { intros ds [x Hx]. apply count_occ_not_In. rewrite In_fetched, Hx.
    intros [_ Hc]. discriminate. }
  split; [exact Hone |].
  split.
  { intros Hall.
    assert (Hnone : fetched (cycleOn fetch p s l) = []).
    { destruct (fetched (cycleOn fetch p s l)) as [| ds rest] eqn:E; [reflexivity |].
      assert (Hin : In ds (fetched (cycleOn fetch p s l))) by (rewrite E; left; reflexivity).
      apply In_fetched in Hin. destruct Hin as [Hin Hc].
      apply Hall in Hin. rewrite Hc in Hin. destruct Hin as [? Hin]. discriminate. }
    split; [exact Hnone |].
    assert (Hkeep : forall k,
              newWeatherData
                (foldl (fetchCallback fetch p s)
                   {| calls := []; newWeatherData := ∅; rejected := false |} l) !! k
              = None).
    { intros k. rewrite foldl_data_kept; [apply lookup_empty |].
      destruct (in_dec String.string_dec k l) as [Hin | Hin]; [| left; exact Hin].
      right. left. apply Hall in Hin. unfold cached.
      destruct Hin as [x ->]. reflexivity. }
    assert (Hthrew : threw (cycleOn fetch p s l) = false).
    { rewrite threw_cycleOn. apply not_true_iff_false. intros Hex.
      apply existsb_exists in Hex. destruct Hex as (ds & Hin & Hb).
      apply andb_true_iff in Hb. destruct Hb as [Hb _].
      apply negb_true_iff, cached_false in Hb.
      apply Hall in Hin. rewrite Hb in Hin. destruct Hin as [? Hin]. discriminate. }
    unfold settle, cycleOn in *. cbn [update threw] in *. rewrite Hthrew.
    assert (Hempty : newWeatherData
                (foldl (fetchCallback fetch p s)
                   {| calls := []; newWeatherData := ∅; rejected := false |} l) = ∅).
    { apply map_eq. intros k. rewrite Hkeep, lookup_empty. reflexivity. }
    rewrite Hempty, map_size_empty. reflexivity. }
  intros ds w0 fetch2 now2 s2 c2 Hin Hc Hf Hthrew Hsub Hc2.
  assert (Hcached : weatherMap (settle (cycleOn fetch p s l) s) !! ds = Some w0).
  { rewrite settle_cycleOn_lookup by exact Hthrew.
    rewrite (foldl_data_written fetch p s ds w0 l); [reflexivity | exact Hin | | exact Hf].
    apply cached_false. exact Hc. }
  split; [exact Hcached |].
  assert (Hnot : ~ In ds (fetched c2)).
  { destruct (prefetch_view fuel now2 s2 Hfuel) as (w2 & _ & _ & _ & Hload2).
    rewrite Hload2 in Hc2. injection Hc2 as <-.
    rewrite In_fetched. intros [_ Hc'].
    assert (Hs : is_Some (weatherMap s2 !! ds)).
    { apply Hsub. rewrite Hcached. eauto. }
    rewrite Hc' in Hs. destruct Hs as [? Hs]. discriminate. }
  split; [exact Hnot |].
  pose proof (Hone ds Hin Hc) as H1.
  apply (count_occ_not_In String.string_dec) in Hnot.
  split; [exact H1 |]. split; [exact Hnot |].
  rewrite count_occ_app, H1, Hnot. reflexivity.
Qed.

Lemma cache_skips_fetch_witness :
  exists (daysToFetch : list string) (c : Cycle),
    daysToFetchForView 43 may1st_1am may2_cached = Some daysToFetch /\
    loadWeatherForView 43 alwaysSunny (summerProps lang_it) may1st_1am may2_cached
    = Some c /\
    count_occ String.string_dec (fetched c) "2024-05-02" = 0%nat /\
    count_occ String.string_dec (fetched c) "2024-05-03" = 1%nat.
Proof.
  destruct (cache_skips_fetch 43 alwaysSunny (summerProps lang_it) may1st_1am
              may2_cached)
    as (l & c & H1 & H2 & _ & _ & Hzero & Hone & _); [lia |].
  exists l, c. split; [exact H1 |]. split; [exact H2 |]. split.
  - apply Hzero. exists sunny. vm_compute. reflexivity.
  - apply Hone; [| vm_compute; reflexivity].
    assert (Hl : daysToFetchForView 43 may1st_1am may2_cached
                 = Some ["2024-05-01"; "2024-05-02"; "2024-05-03"; "2024-05-04";
                         "2024-05-05"; "2024-05-06"; "2024-05-07"; "2024-05-08";
                         "2024-05-09"; "2024-05-10"; "2024-05-11"; "2024-05-12";
                         "2024-05-13"; "2024-05-14"]) by (vm_compute; reflexivity).
    rewrite H1 in Hl. injection Hl as ->.
    right. right. left. reflexivity.
Defined.

(** With the forecast of 2 May 2024 in the cache, the cycle of 1 May calls
    the service for the other 13 days of the horizon. *)
Example cached_day_is_skipped :
  option_map fetched
    (loadWeatherForView 43 alwaysSunny (summerProps lang_it) may1st_1am may2_cached)
  = Some ["2024-05-01"; "2024-05-03"; "2024-05-04"; "2024-05-05"; "2024-05-06";
          "2024-05-07"; "2024-05-08"; "2024-05-09"; "2024-05-10"; "2024-05-11";
          "2024-05-12"; "2024-05-13"; "2024-05-14"].
Proof. vm_compute. reflexivity. Qed.

(** Two cycles in a row on 1 May 2024: the first fetches the 14 days from
    1 May to 14 May, the second, on the cache the first has filled, none. *)
Example prefetch_twice :
  option_map fetched
    (loadWeatherForView 43 alwaysSunny (summerProps lang_it) may1st_1am
                        (initialState may1st_1am))
  = Some ["2024-05-01"; "2024-05-02"; "2024-05-03"; "2024-05-04"; "2024-05-05";
          "2024-05-06"; "2024-05-07"; "2024-05-08"; "2024-05-09"; "2024-05-10";
          "2024-05-11"; "2024-05-12"; "2024-05-13"; "2024-05-14"]
  /\ option_map
       (fun c =>
          option_map fetched
            (loadWeatherForView 43 alwaysSunny (summerProps lang_it) may1st_1am
                                (settle c (initialState may1st_1am))))
       (loadWeatherForView 43 alwaysSunny (summerProps lang_it) may1st_1am
                           (initialState may1st_1am))
     = Some (Some []).
Proof. vm_compute. split; reflexivity. Qed.

(** *** Failing fetches *)

(** C3, as the code has it.  The fetches a cycle issues do not depend on
    what the service answers.  The cycle's promise rejects exactly when one
    of its fetches rejects, and then nothing is handed to [setWeatherMap].
    When no fetch rejects, a date whose fetch brought nothing stays out of
    the cache and every date whose fetch brought data is in the cache, with
    that data, once the cycle has settled. *)
Theorem prefetch_outcomes (fuel : nat) (fetch : WeatherService) (p : Props)
  (now : Date) (s : State) :
  (43 <= fuel)%nat ->
  exists c : Cycle,
    loadWeatherForView fuel fetch p now s = Some c /\
    (forall fetch' c',
       loadWeatherForView fuel fetch' p now s = Some c' -> fetched c' = fetched c) /\
    (threw c = true <->
       exists ds, In ds (fetched c) /\ fetchFor fetch p ds = Rejected) /\
    (threw c = true -> update c = None /\ settle c s = s) /\
    (threw c = false ->
       forall ds, In ds (fetched c) ->
         (forall w, fetchFor fetch p ds = Resolved (Some w) ->
                    weatherMap (settle c s) !! ds = Some w) /\
         (fetchFor fetch p ds = Resolved None ->
            weatherMap (settle c s) !! ds = None)).
Proof.
  intros Hfuel.
  destruct (prefetch_view fuel now s Hfuel) as (w & Hw & _ & Hdays & Hload).
  eexists. split; [apply Hload |].
  set (l := map iso (List.filter (inHorizon (today now)) (gridDays (currentMonth s) w))).
  split.
  { intros fetch' c' Hc'. rewrite Hload in Hc'. injection Hc' as <-.
    rewrite !fetched_cycleOn. reflexivity. }
  split.
  { rewrite threw_cycleOn, existsb_exists. split.
    - intros (ds & Hin & Hb). apply andb_true_iff in Hb. destruct Hb as [Hc Hr].
      exists ds. split.
      + apply In_fetched. split; [exact Hin |].
        apply cached_false, negb_true_iff. exact Hc.
      + destruct (fetchFor fetch p ds); [discriminate | reflexivity].
    - intros (ds & Hin & Hr). apply In_fetched in Hin. destruct Hin as [Hin Hc].
      exists ds. split; [exact Hin |].
      apply cached_false in Hc. rewrite Hc, Hr. reflexivity. }
  split.
  { intros Ht. unfold settle, cycleOn in *. cbn [threw update] in *.
    rewrite Ht. split; reflexivity. }
  intros Ht ds Hin. apply In_fetched in Hin. destruct Hin as [Hin Hc].
  split.
  - intros w0 Hf. rewrite settle_cycleOn_lookup by exact Ht.
    rewrite (foldl_data_written fetch p s ds w0 l); [reflexivity | exact Hin | | exact Hf].
    apply cached_false. exact Hc.
  - intros Hf. rewrite settle_cycleOn_lookup by exact Ht.
    rewrite foldl_data_kept.
    + cbn [newWeatherData]. rewrite lookup_empty. exact Hc.
    + right. right. intros w0. rewrite Hf. discriminate.
Qed.

Lemma prefetch_outcomes_witness :
  exists c : Cycle,
    loadWeatherForView 43 nothingForMay2 (summerProps lang_it) may1st_1am
                       (initialState may1st_1am) = Some c /\
    (threw c = true <->
       exists ds, In ds (fetched c)
                  /\ fetchFor nothingForMay2 (summerProps lang_it) ds = Rejected).
Proof.
  destruct (prefetch_outcomes 43 nothingForMay2 (summerProps lang_it) may1st_1am
              (initialState may1st_1am))
    as (c & Hc & _ & Ht & _); [lia |].
  exists c. split; [exact Hc | exact Ht].
Defined.

(** When the fetch for 2 May brings nothing, the cycle settles: 2 May stays
    out of the cache and 3 May is in it. *)
Example empty_result_keeps_siblings :
  option_map
    (fun c => (threw c,
               weatherMap (settle c (initialState may1st_1am)) !! "2024-05-02",
               weatherMap (settle c (initialState may1st_1am)) !! "2024-05-03"))
    (loadWeatherForView 43 nothingForMay2 (summerProps lang_it) may1st_1am
                        (initialState may1st_1am))
  = Some (false, None, Some sunny).
Proof. vm_compute. reflexivity. Qed.

(** When the fetch for 2 May rejects, the cycle's promise rejects and nothing
    is merged: the fetch for 3 May was issued and brings data, and 3 May is
    not in the cache after the cycle. *)
Lemma one_rejection_discards_siblings :
  option_map
    (fun c => (threw c,
               update c,
               existsb (String.eqb "2024-05-03") (fetched c),
               weatherMap (settle c (initialState may1st_1am)) !! "2024-05-03"))
    (loadWeatherForView 43 rejectsMay2 (summerProps lang_it) may1st_1am
                        (initialState may1st_1am))
  = Some (true, None, true, None)
  /\ fetchFor rejectsMay2 (summerProps lang_it) "2024-05-03" = Resolved (Some sunny).
Proof. vm_compute. split; reflexivity. Qed.

End BookingModalFacts.

(** ** More facts about the component

    Properties of the grid's cells, of navigation, of sessions and of the
    prefetch that the code shows beyond the rules above. *)

Module ViewFacts.
Import JSDate JSDateFacts DateFns DateFnsFacts Format BookingModal Notions.
Import BookingModalFacts Indicators SessionNotions.

(** *** Rows and columns of the grid *)

Lemma In_weeksFrom (render : Date -> Cell) row w : forall day,
  In row (weeksFrom render day w) ->
  exists j : nat,
    (j < w)%nat /\
    row = map render (daysFrom (addDays day (7 * Z.of_nat j)) 7).
Proof.
  induction w as [| w IH]; intros day; cbn [weeksFrom In]; [tauto |].
  intros [<- | H].
  - exists 0%nat. split; [lia |].
    replace (7 * Z.of_nat 0) with 0 by lia. rewrite addDays_0. reflexivity.
  - apply IH in H. destruct H as (j & Hj & ->).
    exists (S j). split; [lia |].
    rewrite addDays_add.
    replace (7 + 7 * Z.of_nat j) with (7 * Z.of_nat (S j)) by lia. reflexivity.
Qed.

Lemma nth_error_daysFrom i : forall day n,
  (i < n)%nat ->
  nth_error (daysFrom day n) i = Some (addDays day (Z.of_nat i)).
Proof.
  induction i as [| i IH]; intros day n Hi; (destruct n as [| n]; [lia |]);
    cbn [daysFrom nth_error].
  - replace (Z.of_nat 0) with 0 by lia. rewrite addDays_0. reflexivity.
  - rewrite IH by lia. rewrite addDays_add.
    replace (1 + Z.of_nat i) with (Z.of_nat (S i)) by lia. reflexivity.
Qed.

Lemma nth_error_row (render : Date -> Cell) day row i cell :
  row = map render (daysFrom day 7) ->
  nth_error row i = Some cell ->
  (i < 7)%nat /\ cell = render (addDays day (Z.of_nat i)).
Proof.
  intros -> H.
  assert (Hi : (i < 7)%nat).
  { assert (Hn : nth_error (map render (daysFrom day 7)) i <> None) by congruence.
    apply nth_error_Some in Hn.
    rewrite length_map, length_daysFrom in Hn. exact Hn. }
  split; [exact Hi |].
  rewrite nth_error_map, nth_error_daysFrom in H by exact Hi.
  cbn [option_map] in H. congruence.
Qed.

Lemma length_weekDays p : length (weekDays p) = 7%nat.
Proof. unfold weekDays. destruct (lang p); reflexivity. Qed.

(** X1. The seven labels of [renderDays] head the seven columns of the
    grid: in every row of [renderCells], the cell in column [i] (from 0)
    falls on weekday [(i + 1) mod 7] of [getDay], Monday first and Sunday
    last, whatever the month on view. *)
Theorem header_columns_match_cells (fuel : nat) (p : Props) (now : Date) (s : State) :
  (7 <= fuel)%nat ->
  length (weekDays p) = 7%nat /\
  exists rows : list (list Cell),
    renderCells fuel p now s = Some rows /\
    forall row i cell,
      In row rows -> nth_error row i = Some cell ->
      (i < length (weekDays p))%nat /\
      getDay (cloneDay cell) = columnWeekDay i.
Proof.
  intros Hfuel. split; [apply length_weekDays |].
  destruct (renderCells_rows fuel p now s Hfuel) as (w & _ & Hrows & _).
  eexists. split; [exact Hrows |].
  intros row i cell Hrow Hcell.
  apply In_weeksFrom in Hrow. destruct Hrow as (j & _ & Hrow).
  destruct (nth_error_row _ _ _ _ _ Hrow Hcell) as [Hi ->].
  rewrite length_weekDays. split; [exact Hi |].
  rewrite cloneDay_renderCell, getDay_eq, WeekDay_eq, !Day_addDays.
  pose proof (WeekDay_startOfWeek (startOfMonth (currentMonth s))) as WS.
  rewrite WeekDay_eq in WS. revert WS.
  generalize (Day (startOfWeek (startOfMonth (currentMonth s)) 1)).
  unfold columnWeekDay. clear. intros S WS.
  Z.div_mod_to_equations. lia.
Qed.

Lemma header_columns_match_cells_witness :
  length (weekDays (summerProps lang_en)) = 7%nat /\
  exists rows : list (list Cell),
    renderCells 7 (summerProps lang_en) may1st_1am (initialState may1st_1am)
      = Some rows /\
    forall row i cell,
      In row rows -> nth_error row i = Some cell ->
      (i < length (weekDays (summerProps lang_en)))%nat /\
      getDay (cloneDay cell) = columnWeekDay i.
Proof.
  apply (header_columns_match_cells 7 (summerProps lang_en) may1st_1am
           (initialState may1st_1am)).
  lia.
Defined.


(** *** The cells of the month on view *)

Lemma civil_in_month n y m :
  0 <= m <= 11 ->
  (YearFromDay n = y /\ MonthFromDay n = m
   <-> MakeDay y m 1 <= n < MakeDay y m 1 + DaysInMonth y m).
Proof.
  intros Hm. split.
  - intros [<- <-].
    pose proof (MakeDay_civil n) as C.
    pose proof (DateFromDay_range n) as R.
    rewrite MakeDay_date in C by apply MonthFromDay_range. lia.
  - intros H.
    assert (E : n = MakeDay y m (n - MakeDay y m 1 + 1)).
    { rewrite (MakeDay_date y m (n - MakeDay y m 1 + 1)) by exact Hm. lia. }
    rewrite E. split.
    + apply YearFromDay_MakeDay; [exact Hm | lia].
    + apply MonthFromDay_MakeDay; [exact Hm | lia].
Qed.

Lemma inMonthOf_true cm t :
  inMonthOf cm t = true
  <-> Day (monthDay cm 1) <= Day t < Day (monthDay cm 1) + monthLength cm.
Proof.
  unfold inMonthOf. rewrite andb_true_iff, Z.leb_le, Z.ltb_lt. reflexivity.
Qed.

Lemma isSameMonth_inMonthOf cm t :
  isSameMonth t (startOfMonth cm) = inMonthOf cm t.
Proof.
  destruct (civil_startOfMonth cm) as [Hy Hm].
  unfold isSameMonth, inMonthOf. rewrite Hy, Hm, Day_monthDay, monthLength_eq.
  apply eq_true_iff_eq.
  rewrite !andb_true_iff, !Z.eqb_eq, Z.leb_le, Z.ltb_lt.
  apply civil_in_month. apply MonthFromDay_range.
Qed.

(** Filtering consecutive days by a range of day numbers leaves
    consecutive days. *)
Lemma filter_range_daysFrom a b n : forall day,
  List.filter (fun t => (a <=? Day t) && (Day t <? b)) (daysFrom day n)
  = daysFrom (addDays day (Z.max 0 (a - Day day)))
             (Z.to_nat (Z.min b (Day day + Z.of_nat n) - Z.max a (Day day))).
Proof.
  induction n as [| n IH]; intros day.
  - replace (Z.to_nat _) with 0%nat by lia. reflexivity.
  - cbn [daysFrom List.filter]. rewrite IH, Day_addDays, addDays_add.
    destruct (Z.leb_spec a (Day day)) as [Ha | Ha];
      destruct (Z.ltb_spec (Day day) b) as [Hb | Hb]; cbn [andb].
    + replace (Z.max 0 (a - Day day)) with 0 by lia. rewrite addDays_0.
      replace (Z.to_nat (Z.min b (Day day + Z.of_nat (S n)) - Z.max a (Day day)))
        with (S (Z.to_nat (Z.min b (Day day + 1 + Z.of_nat n) - Z.max a (Day day + 1))))
        by lia.
      cbn [daysFrom].
      replace (1 + Z.max 0 (a - (Day day + 1))) with 1 by lia. reflexivity.
    + replace (Z.to_nat (Z.min b (Day day + Z.of_nat (S n)) - Z.max a (Day day)))
        with 0%nat by lia.
      replace (Z.to_nat (Z.min b (Day day + 1 + Z.of_nat n) - Z.max a (Day day + 1)))
        with 0%nat by lia.
      reflexivity.
    + f_equal; [f_equal; lia | lia].
    + f_equal; [f_equal; lia | lia].
Qed.

Lemma filter_rendered (render : Date -> Cell) (f : Cell -> bool) (l : list Date) :
  (forall t, cloneDay (render t) = t) ->
  map cloneDay (List.filter f (map render l))
  = List.filter (fun t => f (render t)) l.
Proof.
  intros Hc. induction l as [| t l IH]; [reflexivity |].
  cbn [map List.filter]. destruct (f (render t)); cbn [map]; rewrite IH;
    [rewrite Hc |]; reflexivity.
Qed.

Lemma TimeWithinDay_monthDay cm k : TimeWithinDay (monthDay cm k) = 0.
Proof. apply TimeWithinDay_MakeDate. easy. Qed.

(** The cells of the month on view are a run of the grid that starts at
    most six cells into it and ends at most six cells before its end. *)
Lemma month_within_grid cm (w : nat) :
  Day (endOfWeek (endOfMonth (startOfMonth cm)) 1)
    - Day (startOfWeek (startOfMonth cm) 1) + 1 = 7 * Z.of_nat w ->
  Day (monthDay cm 1) - 6 <= Day (startOfWeek (startOfMonth cm) 1)
    <= Day (monthDay cm 1) /\
  Day (monthDay cm 1) + monthLength cm
    <= Day (startOfWeek (startOfMonth cm) 1) + 7 * Z.of_nat w
    <= Day (monthDay cm 1) + monthLength cm + 6 /\
  28 <= monthLength cm <= 31.
Proof.
  intros Hgap.
  destruct (grid_shape cm) as (_ & _ & _ & HS & HE).
  assert (Rm : 0 <= getMonth cm <= 11) by apply MonthFromDay_range.
  pose proof (DaysInMonth_range (getFullYear cm) _ Rm) as Rd.
  rewrite <- monthLength_eq in Rd.
  rewrite (MakeDay_date _ _ (monthLength cm)) in HE by exact Rm.
  rewrite Day_monthDay.
  revert Hgap HS HE Rd.
  generalize (Day (endOfWeek (endOfMonth (startOfMonth cm)) 1)).
  generalize (Day (startOfWeek (startOfMonth cm) 1)).
  generalize (MakeDay (getFullYear cm) (getMonth cm) 1).
  generalize (monthLength cm).
  clear. intros. lia.
Qed.

(** X2. The grid of [renderCells] has four to six rows.  A cell is styled
    as a cell of the month on view ([isCurrentMonth]) exactly when its day
    is one of the days of that month, and those cells are, in rendering
    order, the days from the 1st to the last of the month, each once; the
    other cells are at most six before and at most six after them. *)
Theorem current_month_cells (fuel : nat) (p : Props) (now : Date) (s : State) :
  (7 <= fuel)%nat ->
  exists rows : list (list Cell),
    renderCells fuel p now s = Some rows /\
    (4 <= length rows <= 6)%nat /\
    (forall cell, In cell (concat rows) ->
       isCurrentMonth cell = inMonthOf (currentMonth s) (cloneDay cell)) /\
    map cloneDay (List.filter isCurrentMonth (concat rows))
    = daysFrom (monthDay (currentMonth s) 1)
               (Z.to_nat (monthLength (currentMonth s))) /\
    (28 <= length (List.filter isCurrentMonth (concat rows)) <= 31)%nat /\
    (length (concat rows)
     <= length (List.filter isCurrentMonth (concat rows)) + 12)%nat.
Proof.
  intros Hfuel.
  destruct (renderCells_rows fuel p now s Hfuel) as (w & Hw & Hrows & Hgap).
  destruct (month_within_grid _ _ Hgap) as (HS & HE & Hlen).
  eexists. split; [exact Hrows |].
  assert (Hcur : forall t,
            isCurrentMonth (renderCell p now s (startOfMonth (currentMonth s)) t)
            = inMonthOf (currentMonth s) t).
  { intros t. apply isSameMonth_inMonthOf. }
  assert (Hdays :
    map cloneDay
      (List.filter isCurrentMonth
         (concat (weeksFrom (renderCell p now s (startOfMonth (currentMonth s)))
                            (startOfWeek (startOfMonth (currentMonth s)) 1) w)))
    = daysFrom (monthDay (currentMonth s) 1)
               (Z.to_nat (monthLength (currentMonth s)))).
  { rewrite concat_weeksFrom, filter_rendered by reflexivity.
    rewrite (List.filter_ext _ _ Hcur).
    unfold inMonthOf. rewrite filter_range_daysFrom. f_equal.
    - apply midnight_eq.
      + rewrite TimeWithinDay_addDays. apply TimeWithinDay_gridStart.
      + apply TimeWithinDay_monthDay.
      + rewrite Day_addDays. lia.
    - lia. }
  assert (Hcount :
    length (List.filter isCurrentMonth
              (concat (weeksFrom (renderCell p now s (startOfMonth (currentMonth s)))
                                 (startOfWeek (startOfMonth (currentMonth s)) 1) w)))
    = Z.to_nat (monthLength (currentMonth s))).
  { rewrite <- (length_map cloneDay), Hdays. apply length_daysFrom. }
  split; [| split; [| split; [exact Hdays | split]]].
  - assert (Hl : forall (render : Date -> Cell) k day,
               length (weeksFrom render day k) = k).
    { clear. intros render k. induction k as [| k IH]; intros day;
        cbn [weeksFrom length]; [reflexivity | rewrite IH; reflexivity]. }
    rewrite Hl. exact Hw.
  - intros cell Hin. rewrite concat_weeksFrom in Hin.
    apply in_map_iff in Hin. destruct Hin as (t & <- & _).
    rewrite cloneDay_renderCell. apply Hcur.
  - rewrite Hcount. lia.
  - rewrite Hcount, concat_weeksFrom, length_map, length_daysFrom. lia.
Qed.

Lemma current_month_cells_witness :
  exists rows : list (list Cell),
    renderCells 7 (summerProps lang_it) may1st_1am (initialState may1st_1am)
      = Some rows /\
    (4 <= length rows <= 6)%nat /\
    length (List.filter isCurrentMonth (concat rows)) = 31%nat.
Proof.
  destruct (current_month_cells 7 (summerProps lang_it) may1st_1am
              (initialState may1st_1am)) as (rows & Hr & Hn & _ & Hd & _); [lia |].
  exists rows. split; [exact Hr |]. split; [exact Hn |].
  rewrite <- (length_map cloneDay), Hd. apply length_daysFrom.
Defined.


(** *** The highlighted cell and the forecast line *)

Lemma isSelected_renderCell p now s monthStart t :
  isSelected (renderCell p now s monthStart t)
  = match selectedDate s with
    | Some sel => (Day sel <=? Day t) && (Day t <? Day sel + 1)
    | None => false
    end.
Proof.
  unfold renderCell. cbn [isSelected].
  destruct (selectedDate s) as [sel |]; [| reflexivity].
  rewrite isSameDay_Day. apply eq_true_iff_eq.
  rewrite andb_true_iff, Z.eqb_eq, Z.leb_le, Z.ltb_lt. lia.
Qed.

Lemma filter_none {A} (l : list A) : List.filter (fun _ => false) l = [].
Proof. induction l as [| x l IH]; [reflexivity | exact IH]. Qed.

Lemma daysFrom_one day : daysFrom day 1 = [day].
Proof. reflexivity. Qed.

Lemma daysFrom_succ day n :
  daysFrom day (S n) = day :: daysFrom (addDays day 1) n.
Proof. reflexivity. Qed.

(** The ISO date string of a date depends on its day only. *)
Lemma iso_Day a b : Day a = Day b -> iso a = iso b.
Proof.
  intros E. unfold iso, format. rewrite !format_yyyy_MM_dd_fields.
  unfold getFullYear, YearFromTime, getMonth, getDate. rewrite E. reflexivity.
Qed.

(** X3. At most one cell of the grid is highlighted as selected.  None is
    while no date is selected; with a selected date the highlighted cells
    are those of its day, and when that day is in the month on view there
    is exactly one such cell. *)
Theorem selected_cell_highlight (fuel : nat) (p : Props) (now : Date) (s : State) :
  (7 <= fuel)%nat ->
  exists rows : list (list Cell),
    renderCells fuel p now s = Some rows /\
    (length (List.filter isSelected (concat rows)) <= 1)%nat /\
    (selectedDate s = None -> List.filter isSelected (concat rows) = []) /\
    (forall sel, selectedDate s = Some sel ->
       (forall cell, In cell (concat rows) ->
          (isSelected cell = true <-> Day (cloneDay cell) = Day sel)) /\
       (inMonthOf (currentMonth s) sel = true ->
          map cloneDay (List.filter isSelected (concat rows)) = [startOfDay sel])).
Proof.
  intros Hfuel.
  destruct (renderCells_rows fuel p now s Hfuel) as (w & Hw & Hrows & Hgap).
  destruct (month_within_grid _ _ Hgap) as (HS & HE & Hlen).
  eexists. split; [exact Hrows |].
  rewrite concat_weeksFrom.
  assert (Hsel : forall t,
            isSelected (renderCell p now s (startOfMonth (currentMonth s)) t)
            = match selectedDate s with
              | Some sel => (Day sel <=? Day t) && (Day t <? Day sel + 1)
              | None => false
              end).
  { intros t. apply isSelected_renderCell. }
  rewrite <- (length_map cloneDay), filter_rendered by reflexivity.
  rewrite (List.filter_ext _ _ Hsel).
  destruct (selectedDate s) as [sel0 |].
  - rewrite filter_range_daysFrom, length_daysFrom.
    split; [lia |]. split; [discriminate |].
    intros sel [= <-]. split.
    + intros cell Hin. apply in_map_iff in Hin. destruct Hin as (t & <- & _).
      rewrite Hsel, cloneDay_renderCell, andb_true_iff, Z.leb_le, Z.ltb_lt. lia.
    + rewrite inMonthOf_true. intros Hin.
      replace (Z.to_nat _) with 1%nat by lia.
      rewrite daysFrom_one. f_equal.
      apply midnight_eq.
      * rewrite TimeWithinDay_addDays. apply TimeWithinDay_gridStart.
      * apply TimeWithinDay_startOfDay.
      * rewrite Day_addDays, Day_startOfDay. lia.
  - rewrite filter_none. split; [cbn [length]; lia |]. split.
    + intros _.
      assert (E : map cloneDay
                    (List.filter isSelected
                       (map (renderCell p now s (startOfMonth (currentMonth s)))
                            (daysFrom (startOfWeek (startOfMonth (currentMonth s)) 1)
                                      (7 * w)))) = []).
      { rewrite filter_rendered by reflexivity.
        rewrite (List.filter_ext _ _ Hsel). apply filter_none. }
      apply map_eq_nil in E. exact E.
    + intros sel [=].
Qed.

Lemma selected_cell_highlight_witness :
  exists rows : list (list Cell),
    renderCells 7 (summerProps lang_it) may1st_1am may10_selected = Some rows /\
    map cloneDay (List.filter isSelected (concat rows)) = [mkDate 2024 4 10].
Proof.
  destruct (selected_cell_highlight 7 (summerProps lang_it) may1st_1am may10_selected)
    as (rows & Hr & _ & _ & Hs); [lia |].
  exists rows. split; [exact Hr |].
  destruct (Hs (mkDate 2024 4 10) eq_refl) as [_ Hone].
  rewrite Hone; [| vm_compute; reflexivity].
  f_equal.
Defined.

(** X4. The forecast line under the grid shows the forecast of the
    highlighted cell; and a click on an available cell of the grid makes the
    line show that cell's forecast, or nothing when the cell has none. *)
Theorem forecast_line_matches_cell (fuel : nat) (p : Props) (now : Date) (s : State) :
  (7 <= fuel)%nat ->
  exists rows : list (list Cell),
    renderCells fuel p now s = Some rows /\
    forall cell, In cell (concat rows) ->
      (isSelected cell = true -> forecastLine s = weather cell) /\
      (isAvailable cell = true ->
         forecastLine (fst (handle p now s (DayCellClick (onClick cell))))
         = weather cell).
Proof.
  intros Hfuel.
  destruct (renderCells_rows fuel p now s Hfuel) as (w & _ & Hrows & _).
  eexists. split; [exact Hrows |].
  intros cell Hin. rewrite concat_weeksFrom in Hin.
  apply in_map_iff in Hin. destruct Hin as (t & <- & _). split.
  - rewrite isSelected_renderCell. unfold forecastLine, renderCell. cbn [weather].
    destruct (selectedDate s) as [sel |]; [| discriminate].
    rewrite andb_true_iff, Z.leb_le, Z.ltb_lt. intros Hd.
    fold (iso sel). fold (iso t). rewrite (iso_Day sel t) by lia. reflexivity.
  - unfold renderCell. cbn [isAvailable onClick weather handle fst].
    unfold handleDateClick. intros ->.
    unfold forecastLine, setSelectedDate. cbn [selectedDate weatherMap]. reflexivity.
Qed.

Lemma forecast_line_matches_cell_witness :
  exists rows : list (list Cell),
    renderCells 7 (summerProps lang_it) may1st_1am may10_selected = Some rows /\
    forall cell, In cell (concat rows) ->
      isSelected cell = true -> forecastLine may10_selected = weather cell.
Proof.
  destruct (forecast_line_matches_cell 7 (summerProps lang_it) may1st_1am may10_selected)
    as (rows & Hr & Hc); [lia |].
  exists rows. split; [exact Hr |].
  intros cell Hin. apply (Hc cell Hin).
Defined.


(** *** The indicators of a cell *)

Lemma isAvailable_renderCell p now s monthStart t :
  isAvailable (renderCell p now s monthStart t) = isDateAvailable p now t.
Proof. reflexivity. Qed.

Lemma isCurrentMonth_renderCell p now s monthStart t :
  isCurrentMonth (renderCell p now s monthStart t) = isSameMonth t monthStart.
Proof. reflexivity. Qed.

Lemma weather_renderCell p now s monthStart t :
  weather (renderCell p now s monthStart t) = weatherMap s !! iso t.
Proof. reflexivity. Qed.

Lemma isDateAvailable_past p now t :
  t < today now -> isDateAvailable p now t = false.
Proof.
  intros H. unfold isDateAvailable.
  destruct (isWithinInterval t (tripStart p) (tripEnd p)); [| reflexivity].
  cbn [negb]. unfold isBefore.
  destruct (Z.ltb_spec t (today now)); [reflexivity | lia].
Qed.

(** X5. A cell never shows two of its three indicators (forecast, green
    dot, strike line).  In the grid the strike line marks exactly the days
    of the month on view that cannot be booked, a day outside that month
    has neither strike line nor green dot, and a day that cannot be booked
    (such as any day before today) has neither forecast nor green dot. *)
Theorem cell_indicators (hasIcon : IconTable) (fuel : nat) (p : Props)
  (now : Date) (s : State) :
  (7 <= fuel)%nat ->
  (forall cell : Cell,
     showsStrike cell && showsGreenDot cell = false /\
     showsStrike cell && showsWeather hasIcon cell = false /\
     showsGreenDot cell && showsWeather hasIcon cell = false) /\
  exists rows : list (list Cell),
    renderCells fuel p now s = Some rows /\
    forall cell, In cell (concat rows) ->
      showsStrike cell
      = negb (isDateAvailable p now (cloneDay cell))
        && inMonthOf (currentMonth s) (cloneDay cell) /\
      (inMonthOf (currentMonth s) (cloneDay cell) = false ->
         showsStrike cell = false /\ showsGreenDot cell = false) /\
      (isDateAvailable p now (cloneDay cell) = false ->
         showsWeather hasIcon cell = false /\ showsGreenDot cell = false) /\
      (cloneDay cell < today now ->
         showsWeather hasIcon cell = false /\ showsGreenDot cell = false /\
         showsStrike cell = inMonthOf (currentMonth s) (cloneDay cell)).
Proof.
  intros Hfuel. split.
  - intros cell. unfold showsStrike, showsGreenDot, showsWeather.
    destruct (isAvailable cell), (isCurrentMonth cell), (isSelected cell),
      (weather cell) as [wd |]; cbn [negb andb]; rewrite ?andb_false_r;
      (split; [| split]; reflexivity).
  - destruct (renderCells_rows fuel p now s Hfuel) as (w & _ & Hrows & _).
    eexists. split; [exact Hrows |].
    intros cell Hin. rewrite concat_weeksFrom in Hin.
    apply in_map_iff in Hin. destruct Hin as (t & <- & _).
    unfold showsStrike, showsGreenDot, showsWeather.
    rewrite cloneDay_renderCell, isAvailable_renderCell, isCurrentMonth_renderCell,
      isSameMonth_inMonthOf.
    split; [reflexivity |]. split; [| split].
    + intros ->. rewrite !andb_false_r. split; reflexivity.
    + intros ->. split; [| reflexivity].
      destruct (weather _); [apply andb_false_r | reflexivity].
    + intros Hpast. rewrite (isDateAvailable_past p now t Hpast).
      split; [| split; reflexivity].
      destruct (weather _); [apply andb_false_r | reflexivity].
Qed.

Lemma cell_indicators_witness :
  exists rows : list (list Cell),
    renderCells 7 (summerProps lang_it) may1st_1am (initialState may1st_1am)
      = Some rows /\
    forall cell, In cell (concat rows) ->
      showsStrike cell && showsGreenDot cell = false.
Proof.
  destruct (cell_indicators (fun _ => true) 7 (summerProps lang_it) may1st_1am
              (initialState may1st_1am)) as (Hex & rows & Hr & _); [lia |].
  exists rows. split; [exact Hr |].
  intros cell _. apply (Hex cell).
Defined.

(** *** Navigation *)

Lemma monthIndex_eq t : monthIndex t = 12 * getFullYear t + getMonth t.
Proof. reflexivity. Qed.

Lemma navigation_step t amount :
  monthIndex (addMonths t amount) = monthIndex t + amount /\
  TimeWithinDay (addMonths t amount) = TimeWithinDay t /\
  Z.min (getDate t) 28 <= getDate (addMonths t amount) <= getDate t.
Proof.
  split; [apply monthIndex_addMonths |].
  destruct (addMonths_civil t amount) as (_ & _ & Hd & Ht).
  split; [exact Ht |]. rewrite Hd.
  assert (Rm : 0 <= (getMonth t + amount) mod 12 <= 11)
    by (Z.div_mod_to_equations; lia).
  pose proof (DaysInMonth_range
                (getFullYear t + (getMonth t + amount) / 12) _ Rm).
  lia.
Qed.

Lemma handle_month p now s ev :
  monthIndex (currentMonth (fst (handle p now s ev)))
    = monthIndex (currentMonth s) + monthShift ev /\
  TimeWithinDay (currentMonth (fst (handle p now s ev)))
    = TimeWithinDay (currentMonth s) /\
  Z.min (getDate (currentMonth s)) 28
    <= getDate (currentMonth (fst (handle p now s ev)))
    <= getDate (currentMonth s).
Proof.
  destruct ev as [date | | | | | nd |]; cbn [handle fst monthShift].
  - unfold handleDateClick. destruct (isDateAvailable p now date);
      cbn [setSelectedDate currentMonth]; lia.
  - unfold previousMonthClick, subMonths. cbn [setCurrentMonth currentMonth].
    apply (navigation_step (currentMonth s) (Z.opp 1)).
  - unfold nextMonthClick. cbn [setCurrentMonth currentMonth].
    apply navigation_step.
  - lia.
  - lia.
  - cbn [setWeatherMap currentMonth]. lia.
  - lia.
Qed.

(** X6. After any session the month on view is the starting month moved by
    the number of clicks on the next-month button minus the number of
    clicks on the previous-month button; no other event moves it.  The time
    of day of [currentMonth] never changes, and its day of the month never
    grows: once clamped to a shorter month it stays clamped (but never
    drops below 28). *)
Theorem navigation_net_months (p : Props) (rendered : Date) (s : State)
  (trace : list (Date * Event)) :
  monthIndex (currentMonth (fst (run p rendered s trace)))
    = monthIndex (currentMonth s) + netMonths trace /\
  TimeWithinDay (currentMonth (fst (run p rendered s trace)))
    = TimeWithinDay (currentMonth s) /\
  Z.min (getDate (currentMonth s)) 28
    <= getDate (currentMonth (fst (run p rendered s trace)))
    <= getDate (currentMonth s).
Proof.
  revert rendered s. induction trace as [| [now ev] rest IH]; intros rendered s.
  - cbn [run fst netMonths]. lia.
  - rewrite run_cons. cbn [fst netMonths].
    destruct (IH (renderedAfter p rendered now ev) (fst (handle p rendered s ev)))
      as (I1 & I2 & I3).
    destruct (handle_month p rendered s ev) as (H1 & H2 & H3).
    rewrite I1, I2, H1, H2. split; [lia |]. split; [reflexivity |]. lia.
Qed.

Example jan31_forth_and_back :
  let s := initialState (mkDate 2024 0 31) in
  let s' := fst (run (summerProps lang_en) (mkDate 2024 0 31) s
                     [(mkDate 2024 0 31, NextMonthClick);
                      (mkDate 2024 0 31, PreviousMonthClick)]) in
  format (currentMonth s') yyyy_MM_dd = "2024-01-29".
Proof. vm_compute. reflexivity. Qed.

(** *** The view depends on the month of [currentMonth] only *)

Lemma startOfMonth_monthIndex a b :
  monthIndex a = monthIndex b ->
  getFullYear a = getFullYear b /\ getMonth a = getMonth b /\
  startOfMonth a = startOfMonth b.
Proof.
  rewrite !monthIndex_eq. intros H.
  assert (Ra : 0 <= getMonth a <= 11) by apply MonthFromDay_range.
  assert (Rb : 0 <= getMonth b <= 11) by apply MonthFromDay_range.
  assert (Hy : getFullYear a = getFullYear b) by lia.
  assert (Hm : getMonth a = getMonth b) by lia.
  split; [exact Hy |]. split; [exact Hm |].
  rewrite !startOfMonth_first, Hy, Hm. reflexivity.
Qed.

Lemma headerTitle_fields p s :
  headerTitle p s
  = (monthWide (locale p) (getMonth (currentMonth s)) ++ " "
     ++ addLeadingZeros
          (if getFullYear (currentMonth s) >? 0 then getFullYear (currentMonth s)
           else 1 - getFullYear (currentMonth s)) 4)%string.
Proof. reflexivity. Qed.

Lemma rowsLoop_ext (render1 render2 : Date -> Cell) :
  (forall day, render1 day = render2 day) ->
  forall fuel rows day endDate,
    rowsLoop render1 rows day endDate fuel = rowsLoop render2 rows day endDate fuel.
Proof.
  intros H. induction fuel as [| fuel IH]; intros rows day endDate; [reflexivity |].
  cbn [rowsLoop]. destruct (day <=? endDate); [| reflexivity].
  rewrite !forDays_spec, (map_ext _ _ H). apply IH.
Qed.

Lemma renderCell_same_state p now s s' monthStart day :
  selectedDate s' = selectedDate s -> weatherMap s' = weatherMap s ->
  renderCell p now s' monthStart day = renderCell p now s monthStart day.
Proof. intros Hs Hw. unfold renderCell. rewrite Hs, Hw. reflexivity. Qed.

Lemma fetchCallback_same_cache fetch p s s' :
  weatherMap s' = weatherMap s ->
  forall l acc,
    foldl (fetchCallback fetch p s') acc l = foldl (fetchCallback fetch p s) acc l.
Proof.
  intros Hw. induction l as [| ds l IH]; intros acc; [reflexivity |].
  cbn [foldl]. rewrite IH. f_equal.
  unfold fetchCallback. rewrite Hw. reflexivity.
Qed.

(** X7. What the modal renders and fetches depends on [currentMonth] only
    through its year and month: two states with the same month on view,
    the same selected date and the same weather cache have the same header
    title, the same grid of cells and the same prefetch cycle, whatever the
    day of the month and the time of day of [currentMonth]. *)
Theorem view_depends_on_month_only (fuel : nat) (fetch : WeatherService)
  (p : Props) (now : Date) (s s' : State) :
  monthIndex (currentMonth s') = monthIndex (currentMonth s) ->
  selectedDate s' = selectedDate s ->
  weatherMap s' = weatherMap s ->
  headerTitle p s' = headerTitle p s /\
  renderCells fuel p now s' = renderCells fuel p now s /\
  daysToFetchForView fuel now s' = daysToFetchForView fuel now s /\
  loadWeatherForView fuel fetch p now s' = loadWeatherForView fuel fetch p now s.
Proof.
  intros Hi Hs Hw.
  destruct (startOfMonth_monthIndex _ _ Hi) as (Hy & Hm & Hstart).
  assert (Hdays : daysToFetchForView fuel now s' = daysToFetchForView fuel now s).
  { unfold daysToFetchForView. cbv zeta. rewrite Hstart. reflexivity. }
  split; [| split; [| split; [exact Hdays |]]].
  - rewrite !headerTitle_fields, Hy, Hm. reflexivity.
  - unfold renderCells. cbv zeta. rewrite Hstart.
    apply rowsLoop_ext. intros day.
    apply renderCell_same_state; assumption.
  - unfold loadWeatherForView. rewrite Hdays.
    destruct (daysToFetchForView fuel now s) as [l |]; [| reflexivity].
    rewrite (fetchCallback_same_cache fetch p s s' Hw). reflexivity.
Qed.

Lemma view_depends_on_month_only_witness :
  headerTitle (summerProps lang_en)
    (previousMonthClick (nextMonthClick (initialState (mkDate 2024 0 31))))
  = headerTitle (summerProps lang_en) (initialState (mkDate 2024 0 31))
  /\ renderCells 7 (summerProps lang_en) may1st_1am
       (previousMonthClick (nextMonthClick (initialState (mkDate 2024 0 31))))
     = renderCells 7 (summerProps lang_en) may1st_1am
         (initialState (mkDate 2024 0 31)).
Proof.
  destruct (view_depends_on_month_only 7 alwaysSunny (summerProps lang_en) may1st_1am
              (initialState (mkDate 2024 0 31))
              (previousMonthClick (nextMonthClick (initialState (mkDate 2024 0 31)))))
    as (Ht & Hr & _).
  - vm_compute. reflexivity.
  - reflexivity.
  - reflexivity.
  - split; [exact Ht | exact Hr].
Defined.

(** *** Availability as time passes *)

Lemma startOfDay_mono a b : a <= b -> startOfDay a <= startOfDay b.
Proof.
  intros H. unfold startOfDay. rewrite !setHours_midnight.
  apply MakeDate_le; [easy | easy |].
  assert (Day a <= Day b).
  { unfold Day. apply Z.div_le_mono; [reflexivity | exact H]. }
  lia.
Qed.

Lemma startOfDay_same_day a b : Day a = Day b -> startOfDay a = startOfDay b.
Proof.
  intros H. unfold startOfDay. rewrite !setHours_midnight, H. reflexivity.
Qed.

(** X8. Availability only shrinks as time passes: a date that can be
    booked at some moment could be booked at every earlier moment, and two
    moments of the same day give the same answer for every date. *)
Theorem availability_shrinks_with_time (p : Props) (now1 now2 date : Date) :
  (now1 <= now2 ->
   isDateAvailable p now2 date = true -> isDateAvailable p now1 date = true) /\
  (Day now1 = Day now2 ->
   isDateAvailable p now1 date = isDateAvailable p now2 date).
Proof.
  split.
  - intros Hle. pose proof (startOfDay_mono _ _ Hle) as Hday.
    unfold isDateAvailable, today, isBefore.
    destruct (isWithinInterval date (tripStart p) (tripEnd p)); [| discriminate].
    cbn [negb].
    destruct (Z.ltb_spec date (startOfDay now2)) as [| H2]; [discriminate |].
    destruct (Z.ltb_spec date (startOfDay now1)) as [H1 |]; [lia |].
    intros Hwd. exact Hwd.
  - intros Hsame. unfold isDateAvailable, today.
    rewrite (startOfDay_same_day _ _ Hsame). reflexivity.
Qed.

Lemma availability_shrinks_with_time_witness :
  isDateAvailable (summerProps lang_it) may1st_1am (mkDate 2024 4 2) = true.
Proof.
  apply (proj1 (availability_shrinks_with_time (summerProps lang_it) may1st_1am
                  (mkDate 2024 4 2) (mkDate 2024 4 2))).
  - vm_compute. discriminate.
  - vm_compute. reflexivity.
Defined.

(** *** Sessions *)

Lemma handle_keeps_selection p now s ev :
  confirmDisabled s = false -> confirmDisabled (fst (handle p now s ev)) = false.
Proof.
  intros H. destruct ev as [date | | | | | nd |]; cbn [handle fst]; try exact H.
  unfold handleDateClick. destruct (isDateAvailable p now date); [reflexivity | exact H].
Qed.

Lemma run_keeps_selection p trace : forall rendered s,
  confirmDisabled s = false ->
  confirmDisabled (fst (run p rendered s trace)) = false.
Proof.
  induction trace as [| [now ev] rest IH]; intros rendered s H; [exact H |].
  rewrite run_cons. cbn [fst]. apply IH. apply handle_keeps_selection. exact H.
Qed.

Lemma run_available_click p rendered s pre t d post :
  isDateAvailable p (renderClock p rendered pre) d = true ->
  confirmDisabled (fst (run p rendered s (pre ++ (t, DayCellClick d) :: post)))
  = false.
Proof.
  intros Hav. rewrite run_app. cbn [fst]. rewrite run_cons. cbn [fst].
  apply run_keeps_selection. cbn [handle fst]. unfold handleDateClick.
  rewrite Hav. reflexivity.
Qed.

(** X9. The confirm button is enabled after a session exactly when it was
    enabled before it or some click of the session hit a date that was
    available by the [today] of the render then on screen: no event ever
    clears the selection, and nothing else sets it.  (That [today] is the one
    the click handler holds; it is the day of the last render, not of the
    click.) *)
Theorem confirm_enabled_iff (p : Props) (rendered : Date) (s : State)
  (trace : list (Date * Event)) :
  confirmDisabled (fst (run p rendered s trace)) = false
  <-> confirmDisabled s = false \/
      exists pre t d post,
        trace = pre ++ (t, DayCellClick d) :: post /\
        isDateAvailable p (renderClock p rendered pre) d = true.
Proof.
  split.
  - unfold confirmDisabled at 1.
    destruct (selectedDate (fst (run p rendered s trace))) as [d |] eqn:E;
      [| discriminate].
    intros _. apply run_selected in E.
    destruct E as [E | (pre & t & post & Htr & Hav)].
    + left. unfold confirmDisabled. rewrite E. reflexivity.
    + right. exists pre, t, d, post. split; assumption.
  - intros [H | (pre & t & d & post & -> & Hav)].
    + apply run_keeps_selection. exact H.
    + apply run_available_click. exact Hav.
Qed.

Lemma confirm_enabled_iff_witness :
  confirmDisabled
    (fst (run (summerProps lang_it) may2_2359 (initialState may2_2359)
              [(may3_0001, CloseClick);
               (may3_0001, DayCellClick (mkDate 2024 4 2));
               (may3_0001, NextMonthClick)])) = false.
Proof.
  apply (proj2 (confirm_enabled_iff (summerProps lang_it) may2_2359
                  (initialState may2_2359)
                  [(may3_0001, CloseClick);
                   (may3_0001, DayCellClick (mkDate 2024 4 2));
                   (may3_0001, NextMonthClick)])).
  right. exists [(may3_0001, CloseClick)], may3_0001, (mkDate 2024 4 2),
                [(may3_0001, NextMonthClick)].
  split; [reflexivity | vm_compute; reflexivity].
Defined.

Lemma handle_callbacks p now s ev (Q : Date -> Prop) :
  (forall d, selectedDate s = Some d -> Q d) ->
  (forall d, ev = DayCellClick d -> isDateAvailable p now d = true -> Q d) ->
  (forall d, selectedDate (fst (handle p now s ev)) = Some d -> Q d) /\
  Forall (fun c => c = onClose \/ exists d, c = onConfirm (iso d) /\ Q d)
         (snd (handle p now s ev)) /\
  length (List.filter isOnClose (snd (handle p now s ev)))
  = (if isCloseClick (now, ev) then 1 else 0)%nat.
Proof.
  intros Hs Hc. split; [| split].
  - intros d Hd. apply handle_selected in Hd. destruct Hd as [Hd | [-> Hav]].
    + apply Hs. exact Hd.
    + apply Hc; [reflexivity | exact Hav].
  - destruct ev as [date | | | | | nd |]; cbn [handle snd]; try constructor.
    + unfold confirmDisabled, confirmOnClick.
      destruct (selectedDate s) as [sel |] eqn:E; constructor; [| constructor].
      right. exists sel. split; [reflexivity | apply Hs; reflexivity].
    + left. reflexivity.
    + constructor.
  - destruct ev as [date | | | | | nd |]; cbn [handle snd]; try reflexivity.
    unfold confirmDisabled, confirmOnClick.
    destruct (selectedDate s); reflexivity.
Qed.

Lemma isCloseClick_clock now now' ev : isCloseClick (now, ev) = isCloseClick (now', ev).
Proof. reflexivity. Qed.

Lemma run_callbacks p (Q : Date -> Prop) trace : forall rendered s,
  (forall d, selectedDate s = Some d -> Q d) ->
  (forall pre t d post,
     trace = pre ++ (t, DayCellClick d) :: post ->
     isDateAvailable p (renderClock p rendered pre) d = true -> Q d) ->
  Forall (fun c => c = onClose \/ exists d, c = onConfirm (iso d) /\ Q d)
         (snd (run p rendered s trace)) /\
  length (List.filter isOnClose (snd (run p rendered s trace)))
  = length (List.filter isCloseClick trace).
Proof.
  induction trace as [| [now ev] rest IH]; intros rendered s Hs Hc.
  - split; [constructor | reflexivity].
  - rewrite run_cons. cbn [snd].
    destruct (handle_callbacks p rendered s ev Q Hs) as (Hs' & Hout & Hn).
    { intros d -> Hav. apply (Hc [] now d rest); [reflexivity | exact Hav]. }
    destruct (IH (renderedAfter p rendered now ev) (fst (handle p rendered s ev)) Hs')
      as (Hrest & Hm).
    { intros pre t d post -> Hav.
      apply (Hc ((now, ev) :: pre) t d post); [reflexivity |].
      rewrite renderClock_cons. exact Hav. }
    split.
    + apply Forall_app. split; assumption.
    + rewrite List.filter_app, length_app, Hn, Hm.
      cbn [List.filter]. rewrite (isCloseClick_clock rendered now).
      destruct (isCloseClick (now, ev)); reflexivity.
Qed.

(** X10. In a session that starts when the modal opens, the only calls to
    the caller are [onClose], once for each click on the close button, and
    [onConfirm] with the ISO date string of a date that some click of the
    session hit while it was available by the [today] of the render then on
    screen (the [today] the click handler holds). *)
Theorem session_callbacks (p : Props) (now0 : Date) (trace : list (Date * Event)) :
  Forall (fun c =>
            c = onClose \/
            exists d pre t post,
              c = onConfirm (iso d) /\
              trace = pre ++ (t, DayCellClick d) :: post /\
              isDateAvailable p (renderClock p now0 pre) d = true)
         (snd (run p now0 (initialState now0) trace)) /\
  length (List.filter isOnClose (snd (run p now0 (initialState now0) trace)))
  = length (List.filter isCloseClick trace).
Proof.
  destruct (run_callbacks p
              (fun d => exists pre t post,
                          trace = pre ++ (t, DayCellClick d) :: post
                          /\ isDateAvailable p (renderClock p now0 pre) d = true)
              trace now0 (initialState now0)) as (Hall & Hn).
  - intros d [=].
  - intros pre t d post Htr Hav. exists pre, t, post. split; assumption.
  - split; [| exact Hn].
    eapply Forall_impl; [exact Hall |].
    intros c [-> | (d & -> & pre & t & post & Htr & Hav)]; [left; reflexivity |].
    right. exists d, pre, t, post. split; [reflexivity |]. split; assumption.
Qed.

(** *** ISO date strings *)

(** X11. The string [format(date, 'yyyy-MM-dd')], which keys the weather
    cache and is handed to [onConfirm], is the same for two dates exactly
    when they agree on the printed year, the month and the day of the
    month; the printed year is the year itself from year 1 on, so there
    the string identifies the day.  (Years up to 0 are printed counted back
    from 1, and share their strings with later years.) *)
Theorem iso_identifies_day (a b : Date) :
  (iso a = iso b
   <-> shownYear a = shownYear b /\ getMonth a = getMonth b
       /\ getDate a = getDate b) /\
  (0 < getFullYear a -> 0 < getFullYear b -> iso a = iso b -> Day a = Day b).
Proof.
  split; [split |].
  - apply iso_fields_inj.
  - intros (Hy & Hm & Hd). rewrite !iso_fields, Hy, Hm, Hd. reflexivity.
  - intros Ha Hb E. apply iso_fields_inj in E. destruct E as (Hy & Hm & Hd).
    rewrite !shownYear_eq in Hy.
    destruct (Z.gtb_spec (getFullYear a) 0); [| lia].
    destruct (Z.gtb_spec (getFullYear b) 0); [| lia].
    rewrite (Day_civil a), (Day_civil b), Hy, Hm, Hd. reflexivity.
Qed.

Lemma iso_identifies_day_witness :
  Day (mkDate 2024 4 10) = Day (mkDate 2024 4 10 + 3600000).
Proof.
  apply (proj2 (iso_identifies_day (mkDate 2024 4 10) (mkDate 2024 4 10 + 3600000)));
    vm_compute; reflexivity.
Defined.

Example year_0_shares_strings :
  iso (mkDate 0 0 1) = "0001-01-01" /\ iso (mkDate 1 0 1) = "0001-01-01".
Proof. vm_compute. split; reflexivity. Qed.


(** *** The days a cycle asks for *)

Lemma view_weeks fuel now s :
  (43 <= fuel)%nat ->
  exists w : nat,
    (4 <= w <= 6)%nat /\
    Day (endOfWeek (endOfMonth (startOfMonth (currentMonth s))) 1)
      - Day (startOfWeek (startOfMonth (currentMonth s)) 1) + 1 = 7 * Z.of_nat w /\
    (forall p,
       renderCells fuel p now s
       = Some (weeksFrom (renderCell p now s (startOfMonth (currentMonth s)))
                         (startOfWeek (startOfMonth (currentMonth s)) 1) w)) /\
    daysToFetchForView fuel now s
    = Some (map iso (List.filter (inHorizon (today now))
                                 (gridDays (currentMonth s) w))) /\
    (forall fetch p,
       loadWeatherForView fuel fetch p now s
       = Some (cycleOn fetch p s
                 (map iso (List.filter (inHorizon (today now))
                                       (gridDays (currentMonth s) w))))).
Proof.
  intros Hfuel.
  destruct (grid_shape (currentMonth s)) as (w & Hw & Hgap & _).
  exists w. split; [exact Hw |]. split; [exact Hgap |].
  assert (Hdays :
    daysToFetchForView fuel now s
    = Some (map iso (List.filter (inHorizon (today now))
                                 (gridDays (currentMonth s) w)))).
  { unfold daysToFetchForView. cbv zeta.
    rewrite (daysToFetchLoop_spec (7 * w)); [reflexivity | | lia | lia].
    rewrite TimeWithinDay_gridStart, TimeWithinDay_gridEnd. discriminate. }
  split; [| split; [exact Hdays |]].
  - intros p.
    destruct (renderCells_rows fuel p now s) as (w' & Hw' & Hrows & Hgap'); [lia |].
    assert (w' = w) by lia. subst w'. exact Hrows.
  - intros fetch p. apply loadWeatherForView_cycleOn. exact Hdays.
Qed.

Lemma gridDays_eq cm w :
  gridDays cm w = daysFrom (startOfWeek (startOfMonth cm) 1) (7 * w).
Proof. reflexivity. Qed.

(** On midnights the horizon test is a test on day numbers. *)
Lemma horizon_range now day n :
  TimeWithinDay day = 0 ->
  List.filter (inHorizon (today now)) (daysFrom day n)
  = List.filter (fun t => (Day now <=? Day t) && (Day t <? Day now + 14))
                (daysFrom day n).
Proof.
  intros Hd. apply List.filter_ext_in. intros t Hin.
  apply In_daysFrom in Hin. destruct Hin as (i & _ & ->).
  apply eq_true_iff_eq.
  rewrite inHorizon_midnight by (rewrite TimeWithinDay_addDays; exact Hd).
  rewrite andb_true_iff, Z.leb_le, Z.ltb_lt. lia.
Qed.

Lemma horizon_days cm w now :
  List.filter (inHorizon (today now)) (gridDays cm w)
  = daysFrom
      (addDays (startOfWeek (startOfMonth cm) 1)
               (Z.max 0 (Day now - Day (startOfWeek (startOfMonth cm) 1))))
      (Z.to_nat (Z.min (Day now + 14)
                       (Day (startOfWeek (startOfMonth cm) 1) + Z.of_nat (7 * w))
                 - Z.max (Day now) (Day (startOfWeek (startOfMonth cm) 1)))).
Proof.
  rewrite gridDays_eq, horizon_range by apply TimeWithinDay_gridStart.
  apply filter_range_daysFrom.
Qed.



(** *** Months and day numbers *)

Lemma month_start_next y m :
  0 <= m <= 11 -> MakeDay y (m + 1) 1 = MakeDay y m 1 + DaysInMonth y m.
Proof.
  intros Hm.
  assert (E : MakeDay y (m + 1) 1 = MakeDay y (m + 1) 0 + 1)
    by (unfold MakeDay; lia).
  rewrite E, MakeDay_month_end by exact Hm.
  rewrite (MakeDay_date y m (DaysInMonth y m)) by exact Hm. lia.
Qed.

Lemma month_start_index y m : MakeDay y m 1 = MakeDay 0 (12 * y + m) 1.
Proof. rewrite MakeDay_add_years. reflexivity. Qed.

Lemma month_index_step i : MakeDay 0 i 1 + 28 <= MakeDay 0 (i + 1) 1.
Proof.
  assert (Rm : 0 <= i mod 12 <= 11) by (Z.div_mod_to_equations; lia).
  pose proof (DaysInMonth_range (i / 12) _ Rm) as Rd.
  pose proof (month_start_next (i / 12) _ Rm) as Hn.
  rewrite (month_start_index (i / 12) (i mod 12 + 1)) in Hn.
  rewrite (month_start_index (i / 12) (i mod 12)) in Hn.
  replace (12 * (i / 12) + (i mod 12 + 1)) with (i + 1) in Hn
    by (Z.div_mod_to_equations; lia).
  replace (12 * (i / 12) + i mod 12) with i in Hn
    by (Z.div_mod_to_equations; lia).
  lia.
Qed.

Lemma month_index_mono i (n : nat) :
  MakeDay 0 i 1 + 28 * Z.of_nat n <= MakeDay 0 (i + Z.of_nat n) 1.
Proof.
  induction n as [| n IH].
  - replace (i + Z.of_nat 0) with i by lia. lia.
  - pose proof (month_index_step (i + Z.of_nat n)) as Hs.
    replace (i + Z.of_nat (S n)) with (i + Z.of_nat n + 1) by lia. lia.
Qed.

Lemma month_index_le i j :
  i <= j -> MakeDay 0 i 1 + 28 * (j - i) <= MakeDay 0 j 1.
Proof.
  intros H. pose proof (month_index_mono i (Z.to_nat (j - i))) as Hm.
  replace (i + Z.of_nat (Z.to_nat (j - i))) with j in Hm by lia. lia.
Qed.

(** A date lies between the first day of its month and the first day of
    the next. *)
Lemma Day_in_month_index t :
  MakeDay 0 (monthIndex t) 1 <= Day t < MakeDay 0 (monthIndex t + 1) 1.
Proof.
  assert (Rm : 0 <= getMonth t <= 11) by apply MonthFromDay_range.
  pose proof (proj1 (civil_in_month (Day t) (getFullYear t) (getMonth t) Rm)
                    (conj eq_refl eq_refl)) as H.
  pose proof (month_start_next (getFullYear t) _ Rm) as Hn.
  rewrite (month_start_index (getFullYear t) (getMonth t)) in H, Hn.
  rewrite (month_start_index (getFullYear t) (getMonth t + 1)) in Hn.
  rewrite monthIndex_eq.
  replace (12 * getFullYear t + getMonth t + 1)
    with (12 * getFullYear t + (getMonth t + 1)) by lia.
  lia.
Qed.

Lemma grid_in_month_index cm (w : nat) :
  Day (endOfWeek (endOfMonth (startOfMonth cm)) 1)
    - Day (startOfWeek (startOfMonth cm) 1) + 1 = 7 * Z.of_nat w ->
  MakeDay 0 (monthIndex cm) 1 - 6 <= Day (startOfWeek (startOfMonth cm) 1)
    <= MakeDay 0 (monthIndex cm) 1 /\
  MakeDay 0 (monthIndex cm + 1) 1
    <= Day (startOfWeek (startOfMonth cm) 1) + 7 * Z.of_nat w
    <= MakeDay 0 (monthIndex cm + 1) 1 + 6.
Proof.
  intros Hgap.
  destruct (month_within_grid _ _ Hgap) as (HS & HE & _).
  assert (Rm : 0 <= getMonth cm <= 11) by apply MonthFromDay_range.
  pose proof (month_start_next (getFullYear cm) _ Rm) as Hn.
  rewrite Day_monthDay in HS, HE. rewrite monthLength_eq in HE.
  rewrite (month_start_index (getFullYear cm) (getMonth cm)) in HS, HE, Hn.
  rewrite (month_start_index (getFullYear cm) (getMonth cm + 1)) in Hn.
  rewrite monthIndex_eq.
  replace (12 * getFullYear cm + getMonth cm + 1)
    with (12 * getFullYear cm + (getMonth cm + 1)) by lia.
  lia.
Qed.

Lemma cycleOn_nil fetch p s :
  cycleOn fetch p s [] = {| fetched := []; update := None; threw := false |}.
Proof. reflexivity. Qed.

(** X13. While the month on view is two or more months after the month of
    today, or two or more months before it, no day of the grid is within
    the forecast horizon: the cycle asks for nothing, calls the weather
    service not at all and leaves the cache alone. *)
Theorem distant_months_fetch_nothing (fuel : nat) (fetch : WeatherService)
  (p : Props) (now : Date) (s : State) :
  (43 <= fuel)%nat ->
  monthIndex now + 2 <= monthIndex (currentMonth s)
  \/ monthIndex (currentMonth s) + 2 <= monthIndex now ->
  daysToFetchForView fuel now s = Some [] /\
  loadWeatherForView fuel fetch p now s
  = Some {| fetched := []; update := None; threw := false |} /\
  settle {| fetched := []; update := None; threw := false |} s = s.
Proof.
  intros Hfuel Hfar.
  destruct (view_weeks fuel now s Hfuel) as (w & Hw & Hgap & _ & Hdays & Hload).
  destruct (grid_in_month_index _ _ Hgap) as (HS & HE).
  pose proof (Day_in_month_index now) as Hnow.
  assert (Hnone : List.filter (inHorizon (today now)) (gridDays (currentMonth s) w) = []).
  { rewrite horizon_days.
    replace (Z.to_nat _) with 0%nat; [reflexivity |].
    destruct Hfar as [Hfar | Hfar].
    - pose proof (month_index_le (monthIndex now + 1) (monthIndex (currentMonth s))).
      lia.
    - pose proof (month_index_le (monthIndex (currentMonth s) + 1) (monthIndex now)).
      lia. }
  rewrite Hdays, Hload, Hnone. cbn [map]. rewrite cycleOn_nil.
  split; [reflexivity |]. split; reflexivity.
Qed.

Lemma distant_months_fetch_nothing_witness :
  loadWeatherForView 43 alwaysSunny (summerProps lang_it) mar3_2021 may_2021_on_view
  = Some {| fetched := []; update := None; threw := false |}.
Proof.
  apply (distant_months_fetch_nothing 43 alwaysSunny (summerProps lang_it)
           mar3_2021 may_2021_on_view).
  - lia.
  - left. vm_compute. discriminate.
Defined.

(** X14. While the month on view is the month of today (as it is when the
    modal opens), today has a cell in the grid and is the first of the days
    the cycle asks for; if its forecast is not cached, the first call to
    the weather service is for today. *)
Theorem today_is_fetched_first (fuel : nat) (fetch : WeatherService)
  (p : Props) (now : Date) (s : State) :
  (43 <= fuel)%nat ->
  monthIndex (currentMonth s) = monthIndex now ->
  exists (rows : list (list Cell)) (rest : list string) (c : Cycle),
    renderCells fuel p now s = Some rows /\
    In (today now) (visibleDays rows) /\
    daysToFetchForView fuel now s = Some (iso (today now) :: rest) /\
    loadWeatherForView fuel fetch p now s = Some c /\
    (weatherMap s !! iso (today now) = None ->
       exists rest', fetched c = iso (today now) :: rest').
Proof.
  intros Hfuel Hsame.
  destruct (view_weeks fuel now s Hfuel) as (w & Hw & Hgap & Hrows & Hdays & Hload).
  destruct (grid_in_month_index _ _ Hgap) as (HS & HE).
  pose proof (Day_in_month_index now) as Hnow.
  rewrite Hsame in HS, HE.
  assert (Hin : Day (startOfWeek (startOfMonth (currentMonth s)) 1) <= Day now
                < Day (startOfWeek (startOfMonth (currentMonth s)) 1) + 7 * Z.of_nat w)
    by lia.
  assert (Hhead : exists k,
    List.filter (inHorizon (today now)) (gridDays (currentMonth s) w)
    = today now :: daysFrom (addDays (today now) 1) k).
  { rewrite horizon_days.
    exists (Z.to_nat (Z.min (Day now + 14)
                        (Day (startOfWeek (startOfMonth (currentMonth s)) 1)
                         + Z.of_nat (7 * w))
                      - Z.max (Day now)
                          (Day (startOfWeek (startOfMonth (currentMonth s)) 1)))
            - 1)%nat.
    replace (addDays (startOfWeek (startOfMonth (currentMonth s)) 1)
               (Z.max 0 (Day now - Day (startOfWeek (startOfMonth (currentMonth s)) 1))))
      with (today now).
    - rewrite <- daysFrom_succ. f_equal. lia.
    - apply midnight_eq.
      + apply TimeWithinDay_startOfDay.
      + rewrite TimeWithinDay_addDays. apply TimeWithinDay_gridStart.
      + unfold today. rewrite Day_startOfDay, Day_addDays. lia. }
  destruct Hhead as (k & Hhead).
  exists (weeksFrom (renderCell p now s (startOfMonth (currentMonth s)))
                    (startOfWeek (startOfMonth (currentMonth s)) 1) w).
  exists (map iso (daysFrom (addDays (today now) 1) k)).
  exists (cycleOn fetch p s
            (map iso (List.filter (inHorizon (today now))
                                  (gridDays (currentMonth s) w)))).
  split; [apply Hrows |]. split; [| split; [| split; [apply Hload |]]].
  - rewrite visibleDays_weeksFrom.
    apply (In_gridDays_intro (currentMonth s) w).
    + apply TimeWithinDay_startOfDay.
    + unfold today. rewrite Day_startOfDay. exact Hin.
  - rewrite Hdays, Hhead. reflexivity.
  - intros Hnc. rewrite fetched_cycleOn, Hhead. cbn [map List.filter].
    apply cached_false in Hnc. rewrite Hnc. cbn [negb]. eexists. reflexivity.
Qed.

Lemma today_is_fetched_first_witness :
  exists (rows : list (list Cell)) (rest : list string) (c : Cycle),
    renderCells 43 (summerProps lang_it) may1st_1am (initialState may1st_1am)
      = Some rows /\
    In (today may1st_1am) (visibleDays rows) /\
    daysToFetchForView 43 may1st_1am (initialState may1st_1am)
      = Some ("2024-05-01" :: rest) /\
    loadWeatherForView 43 alwaysSunny (summerProps lang_it) may1st_1am
                       (initialState may1st_1am) = Some c.
Proof.
  destruct (today_is_fetched_first 43 alwaysSunny (summerProps lang_it) may1st_1am
              (initialState may1st_1am)) as (rows & rest & c & Hr & Hin & Hd & Hc & _).
  - lia.
  - reflexivity.
  - exists rows, rest, c.
    split; [exact Hr |]. split; [exact Hin |]. split; [exact Hd | exact Hc].
Defined.


(** *** The cache after a cycle, and the cycle after it *)

Lemma data_lookup fetch p s l k w :
  newWeatherData
    (foldl (fetchCallback fetch p s)
           {| calls := []; newWeatherData := ∅; rejected := false |} l) !! k = Some w
  <-> In k l /\ weatherMap s !! k = None /\ fetchFor fetch p k = Resolved (Some w).
Proof.
  split.
  - intros H.
    destruct (in_dec String.string_dec k l) as [Hin | Hnin].
    2:{ rewrite foldl_data_kept in H by (left; exact Hnin).
        cbn [newWeatherData] in H. rewrite lookup_empty in H. discriminate. }
    destruct (cached s k) eqn:Hc.
    { rewrite foldl_data_kept in H by (right; left; exact Hc).
      cbn [newWeatherData] in H. rewrite lookup_empty in H. discriminate. }
    destruct (fetchFor fetch p k) as [[w' |] |] eqn:Hf.
    + rewrite (foldl_data_written fetch p s k w' l _ Hin Hc Hf) in H.
      injection H as ->. split; [exact Hin |]. split; [| reflexivity].
      apply cached_false. exact Hc.
    + rewrite foldl_data_kept in H
        by (right; right; intros w0; rewrite Hf; discriminate).
      cbn [newWeatherData] in H. rewrite lookup_empty in H. discriminate.
    + rewrite foldl_data_kept in H
        by (right; right; intros w0; rewrite Hf; discriminate).
      cbn [newWeatherData] in H. rewrite lookup_empty in H. discriminate.
  - intros (Hin & Hc & Hf). apply foldl_data_written; [exact Hin | | exact Hf].
    apply cached_false. exact Hc.
Qed.

Lemma settle_threw fetch p s l :
  threw (cycleOn fetch p s l) = true -> settle (cycleOn fetch p s l) s = s.
Proof.
  unfold settle, cycleOn. cbn [update threw]. intros ->. reflexivity.
Qed.

Lemma currentMonth_settle c s : currentMonth (settle c s) = currentMonth s.
Proof. unfold settle. destruct (update c); reflexivity. Qed.

Lemma selectedDate_settle c s : selectedDate (settle c s) = selectedDate s.
Proof. unfold settle. destruct (update c); reflexivity. Qed.

Lemma cycle_lookup fetch p s l k :
  weatherMap (settle (cycleOn fetch p s l) s) !! k
  = match weatherMap s !! k with
    | Some w => Some w
    | None =>
        if threw (cycleOn fetch p s l) then None
        else newWeatherData
               (foldl (fetchCallback fetch p s)
                      {| calls := []; newWeatherData := ∅; rejected := false |} l) !! k
    end.
Proof.
  destruct (threw (cycleOn fetch p s l)) eqn:Ht.
  - rewrite settle_threw by exact Ht. destruct (weatherMap s !! k); reflexivity.
  - rewrite settle_cycleOn_lookup by exact Ht.
    destruct (weatherMap s !! k) as [w |] eqn:Hk.
    + rewrite foldl_data_kept.
      * cbn [newWeatherData]. rewrite lookup_empty. reflexivity.
      * right. left. unfold cached. rewrite Hk. reflexivity.
    + destruct (newWeatherData _ !! k); reflexivity.
Qed.

(** X15. What a prefetch cycle does to the cache: it never changes the
    forecast of a date that was cached when it started, and it adds the
    forecast of a date exactly when none of its fetches was rejected, the
    date was one of those it fetched, and that fetch returned the
    forecast.  It changes neither the month on view nor the selection. *)
Theorem cache_after_cycle (fuel : nat) (fetch : WeatherService) (p : Props)
  (now : Date) (s : State) :
  (43 <= fuel)%nat ->
  exists c : Cycle,
    loadWeatherForView fuel fetch p now s = Some c /\
    currentMonth (settle c s) = currentMonth s /\
    selectedDate (settle c s) = selectedDate s /\
    (forall k w, weatherMap s !! k = Some w ->
                 weatherMap (settle c s) !! k = Some w) /\
    (forall k w, weatherMap s !! k = None ->
       (weatherMap (settle c s) !! k = Some w
        <-> threw c = false /\ In k (fetched c)
            /\ fetchFor fetch p k = Resolved (Some w))).
Proof.
  intros Hfuel.
  destruct (view_weeks fuel now s Hfuel) as (w & _ & _ & _ & _ & Hload).
  eexists. split; [apply Hload |].
  split; [apply currentMonth_settle |]. split; [apply selectedDate_settle |].
  split.
  - intros k wd Hk. rewrite cycle_lookup, Hk. reflexivity.
  - intros k wd Hk. rewrite cycle_lookup, Hk, In_fetched.
    destruct (threw _).
    + split; [discriminate | intros [[=] _]].
    + rewrite data_lookup. tauto.
Qed.

Lemma cache_after_cycle_witness :
  exists c : Cycle,
    loadWeatherForView 43 alwaysSunny (summerProps lang_it) may1st_1am
      (setWeatherMap (initialState may1st_1am) (fun _ => {[ "2024-05-02" := sunny ]}))
    = Some c /\
    weatherMap
      (settle c (setWeatherMap (initialState may1st_1am)
                               (fun _ => {[ "2024-05-02" := sunny ]})))
      !! "2024-05-02" = Some sunny.
Proof.
  destruct (cache_after_cycle 43 alwaysSunny (summerProps lang_it) may1st_1am
              (setWeatherMap (initialState may1st_1am)
                             (fun _ => {[ "2024-05-02" := sunny ]})))
    as (c & Hc & _ & _ & Hkeep & _); [lia |].
  exists c. split; [exact Hc |].
  apply Hkeep. vm_compute. reflexivity.
Defined.

Lemma daysToFetch_same_day fuel now now2 s s2 :
  Day now2 = Day now -> currentMonth s2 = currentMonth s ->
  daysToFetchForView fuel now2 s2 = daysToFetchForView fuel now s.
Proof.
  intros Hd Hm. unfold daysToFetchForView, today.
  rewrite Hm, (startOfDay_same_day _ _ Hd). reflexivity.
Qed.

(** X16. The cycle that runs next on the same day and month on view (after
    the first has settled) asks again for exactly the dates whose fetch
    returned no forecast in the first cycle; after a cycle whose promise
    rejected it asks again for every date of that cycle. *)
Theorem next_cycle_asks_again (fuel : nat) (fetch fetch2 : WeatherService)
  (p : Props) (now now2 : Date) (s : State) :
  (43 <= fuel)%nat ->
  Day now2 = Day now ->
  exists c c2 : Cycle,
    loadWeatherForView fuel fetch p now s = Some c /\
    loadWeatherForView fuel fetch2 p now2 (settle c s) = Some c2 /\
    (threw c = true -> fetched c2 = fetched c) /\
    (threw c = false ->
       forall ds, In ds (fetched c2)
                  <-> In ds (fetched c)
                      /\ forall w, fetchFor fetch p ds <> Resolved (Some w)).
Proof.
  intros Hfuel Hday.
  destruct (view_weeks fuel now s Hfuel) as (w & _ & _ & _ & Hdays & Hload).
  eexists. eexists. split; [apply Hload |]. split.
  - apply loadWeatherForView_cycleOn.
    rewrite (daysToFetch_same_day fuel now now2 s) by
      (exact Hday || apply currentMonth_settle).
    exact Hdays.
  - split.
    + intros Ht. rewrite settle_threw by exact Ht. rewrite !fetched_cycleOn. reflexivity.
    + intros Ht ds. rewrite !In_fetched, cycle_lookup, Ht. split.
      * intros (Hin & Hnone).
        destruct (weatherMap s !! ds) as [wd |] eqn:Hk; [discriminate |].
        split; [split; [exact Hin | reflexivity] |].
        intros wd Hf.
        assert (Hd : newWeatherData
                       (foldl (fetchCallback fetch p s)
                              {| calls := []; newWeatherData := ∅; rejected := false |}
                              (map iso (List.filter (inHorizon (today now))
                                                    (gridDays (currentMonth s) w))))
                     !! ds = Some wd).
        { apply data_lookup. split; [exact Hin |]. split; assumption. }
        rewrite Hd in Hnone. discriminate.
      * intros ((Hin & Hk) & Hno). split; [exact Hin |]. rewrite Hk.
        destruct (newWeatherData _ !! ds) as [wd |] eqn:Hd; [| reflexivity].
        apply data_lookup in Hd. destruct Hd as (_ & _ & Hf).
        exfalso. apply (Hno wd). exact Hf.
Qed.

Lemma next_cycle_asks_again_witness :
  exists c c2 : Cycle,
    loadWeatherForView 43 nothingForMay2 (summerProps lang_it) may1st_1am
                       (initialState may1st_1am) = Some c /\
    loadWeatherForView 43 alwaysSunny (summerProps lang_it) may1st_1am
                       (settle c (initialState may1st_1am)) = Some c2 /\
    In "2024-05-02" (fetched c2).
Proof.
  destruct (next_cycle_asks_again 43 nothingForMay2 alwaysSunny (summerProps lang_it)
              may1st_1am may1st_1am (initialState may1st_1am))
    as (c & c2 & H1 & H2 & _ & Hn); [lia | reflexivity |].
  exists c, c2. split; [exact H1 |]. split; [exact H2 |].
  assert (Hc : option_map (fun c => (threw c, fetched c))
                 (loadWeatherForView 43 nothingForMay2 (summerProps lang_it) may1st_1am
                                     (initialState may1st_1am))
               = Some (false,
                       ["2024-05-01"; "2024-05-02"; "2024-05-03"; "2024-05-04";
                        "2024-05-05"; "2024-05-06"; "2024-05-07"; "2024-05-08";
                        "2024-05-09"; "2024-05-10"; "2024-05-11"; "2024-05-12";
                        "2024-05-13"; "2024-05-14"])) by (vm_compute; reflexivity).
  rewrite H1 in Hc. cbn [option_map] in Hc. injection Hc as Ht Hf.
  apply Hn; [exact Ht |]. split.
  - rewrite Hf. right. left. reflexivity.
  - intros wd. vm_compute. discriminate.
Defined.


(** *** Labels, the Wednesday column and past months *)

Lemma map_filter_rendered {B} (render : Date -> Cell) (f : Cell -> bool)
  (proj : Cell -> B) (g : Date -> B) (l : list Date) :
  (forall t, proj (render t) = g t) ->
  map proj (List.filter f (map render l))
  = map g (List.filter (fun t => f (render t)) l).
Proof.
  intros Hp. induction l as [| t l IH]; [reflexivity |].
  cbn [map List.filter]. destruct (f (render t)); cbn [map]; rewrite IH;
    [rewrite Hp |]; reflexivity.
Qed.

Lemma month_days_of_grid cm (w : nat) :
  Day (endOfWeek (endOfMonth (startOfMonth cm)) 1)
    - Day (startOfWeek (startOfMonth cm) 1) + 1 = 7 * Z.of_nat w ->
  List.filter (inMonthOf cm) (daysFrom (startOfWeek (startOfMonth cm) 1) (7 * w))
  = daysFrom (monthDay cm 1) (Z.to_nat (monthLength cm)).
Proof.
  intros Hgap. destruct (month_within_grid _ _ Hgap) as (HS & HE & Hlen).
  unfold inMonthOf. rewrite filter_range_daysFrom. f_equal.
  - apply midnight_eq.
    + rewrite TimeWithinDay_addDays. apply TimeWithinDay_gridStart.
    + apply TimeWithinDay_monthDay.
    + rewrite Day_addDays. lia.
  - lia.
Qed.

Lemma formattedDate_renderCell p now s monthStart t :
  formattedDate (renderCell p now s monthStart t) = addLeadingZeros (getDate t) 1.
Proof. reflexivity. Qed.

Lemma dateStr_renderCell p now s monthStart t :
  dateStr (renderCell p now s monthStart t) = iso t.
Proof. reflexivity. Qed.

Lemma toString_nonempty n : (1 <= String.length (toString n))%nat.
Proof.
  unfold toString, NilZero.string_of_uint.
  destruct (N.to_uint (Z.to_N n)); cbn [NilEmpty.string_of_uint String.length]; lia.
Qed.

(** The token [d] prints the number as it is. *)
Lemma addLeadingZeros_1 n : 0 <= n -> addLeadingZeros n 1 = toString n.
Proof.
  intros Hn. unfold addLeadingZeros, padStart.
  destruct (Z.ltb_spec n 0) as [Hneg | _]; [lia |].
  rewrite Z.abs_eq by exact Hn.
  pose proof (toString_nonempty n).
  replace (1 - String.length (toString n))%nat with 0%nat by lia. reflexivity.
Qed.

Lemma monthDay_succ cm k : addDays (monthDay cm k) 1 = monthDay cm (k + 1).
Proof.
  assert (Rm : 0 <= getMonth cm <= 11) by apply MonthFromDay_range.
  apply midnight_eq.
  - rewrite TimeWithinDay_addDays. apply TimeWithinDay_monthDay.
  - apply TimeWithinDay_monthDay.
  - rewrite Day_addDays, !Day_monthDay.
    rewrite (MakeDay_date _ _ k), (MakeDay_date _ _ (k + 1)) by exact Rm. lia.
Qed.

Lemma getDate_monthDay cm k :
  1 <= k <= monthLength cm -> getDate (monthDay cm k) = k.
Proof.
  intros Hk. unfold getDate. rewrite Day_monthDay.
  apply DateFromDay_MakeDay; [apply MonthFromDay_range |].
  rewrite <- monthLength_eq. exact Hk.
Qed.

Lemma labels_daysFrom cm n : forall k,
  1 <= k -> k + Z.of_nat n <= monthLength cm + 1 ->
  map (fun t => addLeadingZeros (getDate t) 1) (daysFrom (monthDay cm k) n)
  = map (fun i => toString (Z.of_nat i)) (seq (Z.to_nat k) n).
Proof.
  induction n as [| n IH]; intros k Hk Hn; [reflexivity |].
  cbn [daysFrom map seq].
  rewrite monthDay_succ, IH, getDate_monthDay, addLeadingZeros_1 by lia.
  replace (Z.of_nat (Z.to_nat k)) with k by lia.
  replace (Z.to_nat (k + 1)) with (S (Z.to_nat k)) by lia. reflexivity.
Qed.

(** X17. The cells of the month on view are labelled, in rendering order,
    with the numbers 1, 2, ... up to the length of the month, written
    without leading zeros; every cell of the grid is labelled with the day
    of the month of its date and carries the ISO date string of that date
    as its cache key. *)
Theorem month_cells_are_numbered (fuel : nat) (p : Props) (now : Date) (s : State) :
  (7 <= fuel)%nat ->
  exists rows : list (list Cell),
    renderCells fuel p now s = Some rows /\
    map formattedDate (List.filter isCurrentMonth (concat rows))
    = map (fun k => toString (Z.of_nat k))
          (seq 1 (Z.to_nat (monthLength (currentMonth s)))) /\
    forall cell, In cell (concat rows) ->
      formattedDate cell = toString (getDate (cloneDay cell)) /\
      dateStr cell = iso (cloneDay cell).
Proof.
  intros Hfuel.
  destruct (renderCells_rows fuel p now s Hfuel) as (w & Hw & Hrows & Hgap).
  destruct (month_within_grid _ _ Hgap) as (_ & _ & Hlen).
  eexists. split; [exact Hrows |].
  rewrite concat_weeksFrom. split.
  - rewrite (map_filter_rendered _ _ formattedDate
               (fun t => addLeadingZeros (getDate t) 1)) by reflexivity.
    assert (Hcur : forall t,
              isCurrentMonth (renderCell p now s (startOfMonth (currentMonth s)) t)
              = inMonthOf (currentMonth s) t).
    { intros t. apply isSameMonth_inMonthOf. }
    rewrite (List.filter_ext _ _ Hcur), (month_days_of_grid _ _ Hgap).
    apply (labels_daysFrom (currentMonth s) _ 1); lia.
  - intros cell Hin. apply in_map_iff in Hin. destruct Hin as (t & <- & _).
    rewrite formattedDate_renderCell, dateStr_renderCell, cloneDay_renderCell.
    split; [| reflexivity].
    apply addLeadingZeros_1.
    pose proof (DateFromDay_range (Day t)) as R. fold (getDate t) in R. lia.
Qed.

Lemma month_cells_are_numbered_witness :
  exists rows : list (list Cell),
    renderCells 7 (summerProps lang_it) may1st_1am (initialState may1st_1am)
      = Some rows /\
    map formattedDate (List.filter isCurrentMonth (concat rows))
    = ["1"; "2"; "3"; "4"; "5"; "6"; "7"; "8"; "9"; "10"; "11"; "12"; "13"; "14";
       "15"; "16"; "17"; "18"; "19"; "20"; "21"; "22"; "23"; "24"; "25"; "26";
       "27"; "28"; "29"; "30"; "31"].
Proof.
  destruct (month_cells_are_numbered 7 (summerProps lang_it) may1st_1am
              (initialState may1st_1am)) as (rows & Hr & Hl & _); [lia |].
  exists rows. split; [exact Hr |]. rewrite Hl. vm_compute. reflexivity.
Defined.

Lemma isDateAvailable_wednesday p now t :
  getDay t = 3 -> isDateAvailable p now t = false.
Proof.
  intros H. unfold isDateAvailable. rewrite H.
  destruct (isWithinInterval t (tripStart p) (tripEnd p)); [| reflexivity].
  cbn [negb]. destruct (isBefore t (today now)); reflexivity.
Qed.

(** X18. The third column of the grid, headed by the Wednesday label, is
    never bookable: in every row its cell falls on a Wednesday, is
    unavailable whatever the season and today, carries the strike line
    when it belongs to the month on view, and a click on it changes
    nothing. *)
Theorem wednesday_column_unavailable (fuel : nat) (p : Props) (now : Date)
  (s : State) :
  (7 <= fuel)%nat ->
  exists rows : list (list Cell),
    renderCells fuel p now s = Some rows /\
    forall row cell,
      In row rows -> nth_error row 2 = Some cell ->
      getDay (cloneDay cell) = 3 /\
      isAvailable cell = false /\
      showsStrike cell = isCurrentMonth cell /\
      handle p now s (DayCellClick (onClick cell)) = (s, []).
Proof.
  intros Hfuel.
  destruct (renderCells_rows fuel p now s Hfuel) as (w & _ & Hrows & _).
  eexists. split; [exact Hrows |].
  intros row cell Hrow Hcell.
  apply In_weeksFrom in Hrow. destruct Hrow as (j & _ & Hrow).
  destruct (nth_error_row _ _ _ _ _ Hrow Hcell) as [_ ->].
  assert (Hwed : getDay (addDays
                           (addDays (startOfWeek (startOfMonth (currentMonth s)) 1)
                                    (7 * Z.of_nat j)) (Z.of_nat 2)) = 3).
  { rewrite getDay_eq, WeekDay_eq, !Day_addDays.
    pose proof (WeekDay_startOfWeek (startOfMonth (currentMonth s))) as WS.
    rewrite WeekDay_eq in WS. revert WS.
    generalize (Day (startOfWeek (startOfMonth (currentMonth s)) 1)).
    clear. intros S WS. Z.div_mod_to_equations. lia. }
  pose proof (isDateAvailable_wednesday p now _ Hwed) as Hun.
  unfold showsStrike.
  rewrite cloneDay_renderCell, isAvailable_renderCell, Hun.
  split; [exact Hwed |]. split; [reflexivity |]. split; [reflexivity |].
  unfold renderCell. cbn [onClick handle]. unfold handleDateClick.
  rewrite Hun. reflexivity.
Qed.

Lemma wednesday_column_unavailable_witness :
  exists rows : list (list Cell),
    renderCells 7 (summerProps lang_it) may1st_1am (initialState may1st_1am)
      = Some rows /\
    forall row cell,
      In row rows -> nth_error row 2 = Some cell -> isAvailable cell = false.
Proof.
  destruct (wednesday_column_unavailable 7 (summerProps lang_it) may1st_1am
              (initialState may1st_1am)) as (rows & Hr & Hc); [lia |].
  exists rows. split; [exact Hr |].
  intros row cell Hrow Hcell. apply (Hc row cell Hrow Hcell).
Defined.

Lemma before_today now t :
  Day t < Day now -> t < today now.
Proof.
  intros H. unfold today, startOfDay. rewrite setHours_midnight.
  apply Z.nle_gt. intros Hle.
  rewrite <- (MakeDate_Day t) in Hle.
  apply MakeDate_le in Hle; [lia | easy | apply TimeWithinDay_range].
Qed.

(** X19. While the month on view is before the month of today, none of its
    days can be booked: every cell of that month is unavailable and struck
    through, and a click on it changes nothing. *)
Theorem past_months_cannot_be_booked (fuel : nat) (p : Props) (now : Date)
  (s : State) :
  (7 <= fuel)%nat ->
  monthIndex (currentMonth s) < monthIndex now ->
  exists rows : list (list Cell),
    renderCells fuel p now s = Some rows /\
    forall cell, In cell (concat rows) -> isCurrentMonth cell = true ->
      isAvailable cell = false /\
      showsStrike cell = true /\
      handle p now s (DayCellClick (onClick cell)) = (s, []).
Proof.
  intros Hfuel Hpast.
  destruct (renderCells_rows fuel p now s Hfuel) as (w & _ & Hrows & Hgap).
  eexists. split; [exact Hrows |].
  intros cell Hin. rewrite concat_weeksFrom in Hin.
  apply in_map_iff in Hin. destruct Hin as (t & <- & _).
  rewrite isCurrentMonth_renderCell, isSameMonth_inMonthOf, inMonthOf_true.
  intros Hmonth.
  assert (Hbefore : Day t < Day now).
  { assert (Rm : 0 <= getMonth (currentMonth s) <= 11) by apply MonthFromDay_range.
    pose proof (month_start_next (getFullYear (currentMonth s)) _ Rm) as Hn.
    rewrite (month_start_index _ (getMonth (currentMonth s) + 1)) in Hn.
    rewrite Day_monthDay, monthLength_eq in Hmonth.
    pose proof (monthIndex_eq (currentMonth s)) as E.
    replace (12 * getFullYear (currentMonth s) + (getMonth (currentMonth s) + 1))
      with (monthIndex (currentMonth s) + 1) in Hn by lia.
    pose proof (month_index_le (monthIndex (currentMonth s) + 1) (monthIndex now)) as Hle.
    pose proof (Day_in_month_index now) as Hnow.
    lia. }
  pose proof (isDateAvailable_past p now t (before_today now t Hbefore)) as Hun.
  unfold showsStrike.
  rewrite isAvailable_renderCell, isCurrentMonth_renderCell, isSameMonth_inMonthOf, Hun.
  split; [reflexivity |]. split.
  - cbn [negb andb]. apply inMonthOf_true. exact Hmonth.
  - unfold renderCell. cbn [onClick handle]. unfold handleDateClick.
    rewrite Hun. reflexivity.
Qed.

Lemma past_months_cannot_be_booked_witness :
  exists rows : list (list Cell),
    renderCells 7 (summerProps lang_it) (mkDate 2024 5 15) (initialState may1st_1am)
      = Some rows /\
    forall cell, In cell (concat rows) -> isCurrentMonth cell = true ->
      isAvailable cell = false.
Proof.
  destruct (past_months_cannot_be_booked 7 (summerProps lang_it) (mkDate 2024 5 15)
              (initialState may1st_1am)) as (rows & Hr & Hc).
  - lia.
  - vm_compute. reflexivity.
  - exists rows. split; [exact Hr |].
    intros cell Hin Hcur. apply (Hc cell Hin Hcur).
Defined.

(** X20. No two cells of the grid share a date or a cache key: the dates
    of the cells are pairwise distinct, so are their ISO date strings, and
    a cell of the grid is determined by its ISO date string. *)
Theorem grid_cells_are_distinct (fuel : nat) (p : Props) (now : Date) (s : State) :
  (7 <= fuel)%nat ->
  exists rows : list (list Cell),
    renderCells fuel p now s = Some rows /\
    List.NoDup (visibleDays rows) /\
    List.NoDup (map dateStr (concat rows)) /\
    forall c1 c2, In c1 (concat rows) -> In c2 (concat rows) ->
      dateStr c1 = dateStr c2 -> c1 = c2.
Proof.
  intros Hfuel.
  destruct (renderCells_rows fuel p now s Hfuel) as (w & Hw & Hrows & _).
  eexists. split; [exact Hrows |].
  rewrite visibleDays_weeksFrom, concat_weeksFrom, map_map.
  split; [apply NoDup_daysFrom |]. split.
  - apply NoDup_map_in; [| apply NoDup_daysFrom].
    intros a b Ha Hb E. rewrite !dateStr_renderCell in E.
    apply (iso_inj_grid (currentMonth s) w); [lia | exact Ha | exact Hb | exact E].
  - intros c1 c2 H1 H2 E.
    apply in_map_iff in H1. destruct H1 as (a & <- & Ha).
    apply in_map_iff in H2. destruct H2 as (b & <- & Hb).
    rewrite !dateStr_renderCell in E.
    rewrite (iso_inj_grid (currentMonth s) w a b); [reflexivity | lia | | | ];
      assumption.
Qed.

Lemma grid_cells_are_distinct_witness :
  exists rows : list (list Cell),
    renderCells 7 (summerProps lang_it) may1st_1am (initialState may1st_1am)
      = Some rows /\
    List.NoDup (map dateStr (concat rows)).
Proof.
  destruct (grid_cells_are_distinct 7 (summerProps lang_it) may1st_1am
              (initialState may1st_1am)) as (rows & Hr & _ & Hd & _); [lia |].
  exists rows. split; [exact Hr | exact Hd].
Defined.

End ViewFacts.
